(* ===== verification/_CoqProject ===== *)
-Q . S2P
Prelude.v
Python.v
Registry.v
Store.v
Vendor.v
Adapter.v
Conversation.v
Session.v
Page.v
Invariant.v
Refinement.v
Runtime.v
Interrupt.v
Controller.v
