(* ===== verification/Prelude.v ===== *)
(** * A verification development of MultiLLMChatbot ([src/main.py])

    ** The program

    [src/main.py] is a Streamlit page.  Streamlit runs the whole script
    from top to bottom on every user interaction, and the only state kept
    between runs is [st.session_state].  Its parts and how they interact:

    - the page configuration (lines 12-20): [st.set_page_config], the
      title and the caption, rendered first by every run;
    - the provider registry (lines 28-37): the [providers] dict from
      display names to provider ids, whose keys fill the select box;
    - the configuration sidebar (lines 23-53): a header, the select box,
      the key input and the button; on "Set API Key" it
      refuses an empty key, deletes every key of the session state when
      the provider changes, stores [api_key] and [provider], then calls
      [st.rerun()], which ends the run and starts a new one;
    - the conversation store [st.session_state.messages]: a list of
      message dicts, created empty (lines 58-59), appended to by the chat
      turn (lines 130, 146, 149), deleted with the session state (48);
    - the provider adapter [get_model_response] (lines 62-90): one branch
      per provider that builds the vendor request from the history, calls
      the vendor client and reads the reply; every exception becomes the
      text ["An error occurred: ..."];
    - the session controller (lines 93-155): it builds the vendor client
      of the stored provider, renders the transcript, and on a prompt
      appends the user message, asks the adapter, renders and appends the
      assistant message; every exception of this block is shown as
      "Failed to initialize the client";
    - the Streamlit runtime around the script: it reruns the script on
      [st.rerun()], and when the user acts again during a run it stops
      that run at its next Streamlit call, keeping the session state the
      run reached.

    ** Files, in dependency order, and what they model

    - [Prelude] (this file): outcomes, the state-and-exception monad
      [PyM] the script is written in (state kept on a raise, as Python
      keeps mutations), its notation scope [py_scope], run lemmas, the
      frame predicates [raises_only], [preserves], [grows] and the
      invariant predicate [keeps], with their composition lemmas, the
      hint database [py] and the rewrite database [pysimpl], the tactic
      [pyrun].
    - [Python]: values (None, str, list), exceptions and their [str()],
      dicts as stdpp [gmap string pyval], the subscripts of the script
      ([d[k]], [d.get(k)], [l[-1]], [l[:-1]], [v[0]]), truthiness,
      [== "lit"], and [only_Exceptions] with the tactic [frame_split].
    - [Registry]: the five providers, [providers] as an ordered
      association list with its [KeyError] lookup, and [provider_of_id],
      the if/elif dispatch on ids (a [Countable] instance follows).
    - [Store]: [st.session_state] as a record of optional fields, the
      page elements, the [world] a run threads (session state, page, and
      the runtime's stop point), [emit], which checks the stop point
      before rendering, the conversation store operations
      [messages_init], [messages_append], [messages_get],
      [session_clear], and [stop_free] with the tactic [stop_split]: from
      a world without a stop request a statement raises no stop.
    - [Vendor]: the interface to the vendor libraries, the type class
      [Vendor] (client construction and the call, each failing with a
      message), the request each branch makes and the response fields it
      reads, and stub vendors for concrete runs.
    - [Adapter]: [get_model_response] as [encode], the vendor call and
      [decode], inside [ptry is_Exception].
    - [Conversation]: the specification's abstract conversation (turns
      USER/ASSISTANT), its [ask], and the request each variant must send.
    - [Session]: the page head ([page_setup]), the sidebar with its
      widgets and its button block ([set_key_button]), client
      construction, transcript rendering, the chat input and the chat
      turn, the script, and [run_page]: one interaction, the run with the
      page's inputs and, after [st.rerun()], the run Streamlit starts
      with the button released; [run_page_at] is the same interaction
      with a stop point, and is [run_page] without one.
    - [Page]: the layout of the page an interaction leaves: page head,
      sidebar (widgets and their feedback), then the elements of the
      main part.
    - [Invariant]: [session_wf], reachability from a fresh session (an
      inductive step relation), what one interaction does to the history,
      and the keys of stored messages.
    - [Refinement]: the script refines the abstract [ask].
    - [Runtime]: the script runner's rerun loop [serve] (with fuel and
      the stop point), sequences of interactions [run_pages], and
      sequences of questions.
    - [Interrupt]: interactions stopped by the user's next action: the
      chat turn stopped at each of its elements, the specification's
      weaker invariant [session_wf_weak] (a user message may lack its
      reply), its preservation by every stopped or complete run, and
      reachability [reachable_stopped] when runs may be stopped.
    - [Controller]: the controller state machine of the specification
      (section 4.4: [UNCONFIGURED], [READY] with provider, credential and
      conversation), its relation [ctrl_abs] to session states, and the
      simulation of every interaction by at most one of its steps.

    ** What the theorems show

    - Chat turn (C1, C10, C11, C18, C37): a prompt appends exactly the
      user and the assistant message and renders them after the
      transcript; a rerun without a prompt shows the transcript and the
      chat input; rendering never fails and moves the stop point by the
      number of elements it renders; a failed client construction only
      shows an error; no interaction ends with an uncaught exception.
    - Adapter (C3, C6, C7, C9, C14, C15): the request of each branch,
      the error text on a vendor failure, and that [get_model_response]
      never raises and never changes the state.
    - Configuration (C4, C8, C12): a new provider empties the history,
      the same provider keeps it (whatever the key), an empty key is
      refused.
    - Invariant (C2, C13, C19): well-formedness is preserved by every
      interaction that is not stopped and holds in every state such
      interactions reach, so their histories alternate user/assistant
      and have even length.
    - Refinement (C5, C36): a chat interaction implements the abstract
      [ask] with the reply the specification's request yields; the
      stored message dicts read back as the abstract conversation.
    - Stopped runs (C16, C17): a chat interaction stopped after [n]
      elements shows the first [n] elements of its page and stores
      nothing, the prompt without a reply (a stop at any of the turn's
      four elements), or the whole exchange; with runs that may be
      stopped, every reachable state satisfies the specification's
      weaker invariant, in which an assistant message always follows a
      user message, and two user messages in a row are reachable.
    - History (C20, C21, C23): an interaction keeps, empties or extends
      the history by exactly one exchange; every stored message has the
      keys its role and provider give it; [n] interactions store at most
      [2 n] messages.
    - Runtime (C22, C24, C35): the rerun loop terminates after two
      runs, whatever the stop point; from any reachable state setting a
      key and asking stores the answer; each question to a configured
      session adds exactly two messages.
    - Reruns without a submission (C25, C33, C34): an empty prompt is no
      prompt; a rerun without press and prompt keeps the stored history
      and is stable; the text of the key input has no effect until the
      button is pressed.
    - Adapter parameter and error paths (C26, C31, C32): four of the
      five branches ignore the [messages] parameter and read the
      session state; a message without ["content"] makes the reply the
      text of the [KeyError]; a response lacking the field a branch
      reads makes it the text of that failure.
    - Pages (C27, C28): the success message of line 52 is never shown;
      every page is the page head, the sidebar's widgets and their
      feedback, then only elements of the main part.
    - Controller (C29, C30): every interaction is simulated by zero or
      one step of the specification's controller, so every sequence of
      interactions by a run of it from [UNCONFIGURED]; the stored
      encoding is injective, so the abstract state is unique.
    Every theorem is proved for every [Vendor] instance.

    ** Bounds and fuel

    Every definition is structural.  The runtime's rerun loop [serve]
    takes fuel, the number of runs it may start; [serve_terminates]
    shows fuel 2 always suffices (the rerun's inputs have the button
    released, so the second run cannot ask for a third) and gives the
    page of [run_page], which runs the script at most twice.  The loops
    of the script are over the finite history.  The stop point is a
    natural number, the count of elements still rendered before the
    stop: every run renders finitely many elements, so [Some n] for
    every [n], with [None] for no stop, covers every place a run can be
    stopped at a rendering call.  No machine integers (the only number,
    [max_tokens = 1024], is a literal).

    ** What is not modelled

    The vendor libraries are opaque behind [Vendor]: their network calls
    and client construction are external code, stated as operations that
    return or fail with a message.  Input widgets are rendered as
    elements with their labels, and their values are the inputs of a
    run.  [st.spinner] (line 136) is shown only while the call runs and
    leaves nothing on the page, so it is not recorded.  Containers are
    the sidebar and the main area ([ElSidebar]); the nesting of the
    markdown inside [st.chat_message] is flattened into consecutive
    elements.  The elements rendered before [st.rerun()] are discarded
    with the interrupted run.  A run is stopped only at the calls that
    render an element: the spinner renders nothing in the model, so a
    stop while it is shown takes effect at the reply's markdown, the
    next element; the session state is the same either way, since
    nothing is stored between the two.  The imports (lines 1-9) have no
    behaviour of their own. *)

From stdpp Require Import base list sets.

Declare Scope py_scope.
Delimit Scope py_scope with py.

(** ** Outcomes and the state-and-exception monad *)

(** The result of a Python computation: a value or a raised exception. *)
Inductive outcome (E A : Type) : Type :=
| Ok (a : A)
| Raise (e : E).
Arguments Ok {E A} a.
Arguments Raise {E A} e.

Definition obind {E A B} (o : outcome E A) (k : A -> outcome E B) : outcome E B :=
  match o with Ok a => k a | Raise e => Raise e end.

(** [[f(x) for x in l]]: the first exception aborts the comprehension. *)
Fixpoint omapM {E A B} (f : A -> outcome E B) (l : list A) : outcome E (list B) :=
  match l with
  | [] => Ok []
  | x :: l' => obind (f x) (fun y => obind (omapM f l') (fun ys => Ok (y :: ys)))
  end.

(** A statement of the script: it reads and writes the state [S] and may
    raise an exception of [E]; the state reached when the exception is
    raised is kept, as Python keeps the mutations done before a raise. *)
Definition PyM (S E A : Type) : Type := S -> outcome E A * S.

Section Monad.
Context {S E : Type}.

Definition pret {A} (a : A) : PyM S E A := fun s => (Ok a, s).

Definition pbind {A B} (c : PyM S E A) (k : A -> PyM S E B) : PyM S E B :=
  fun s => match c s with
           | (Ok a, s') => k a s'
           | (Raise e, s') => (Raise e, s')
           end.

Definition praise {A} (e : E) : PyM S E A := fun s => (Raise e, s).

(** [lift o]: a pure computation that may raise. *)
Definition plift {A} (o : outcome E A) : PyM S E A := fun s => (o, s).

(** [try: c except <catches> as e: h e]. *)
Definition ptry {A} (catches : E -> bool) (c : PyM S E A) (h : E -> PyM S E A)
  : PyM S E A :=
  fun s => match c s with
           | (Raise e, s') => if catches e then h e s' else (Raise e, s')
           | r => r
           end.

Definition pget : PyM S E S := fun s => (Ok s, s).
Definition pmodify (f : S -> S) : PyM S E unit := fun s => (Ok tt, f s).

(** [for x in l: f(x)]. *)
Fixpoint pfor {A} (f : A -> PyM S E unit) (l : list A) : PyM S E unit :=
  match l with
  | [] => pret tt
  | x :: l' => pbind (f x) (fun _ => pfor f l')
  end.
End Monad.

Notation "'let*' x := c 'in' k" := (pbind c (fun x => k))
  (at level 100, x name, c at level 100, k at level 200) : py_scope.
Notation "c ;;; k" := (pbind c (fun _ => k))
  (at level 100, k at level 200, right associativity) : py_scope.

(** ** Running monadic code *)

Create HintDb py discriminated.
Create Rewrite HintDb pysimpl.

(** [pyrun] executes the monadic combinators as far as the data is known. *)
Ltac pyrun :=
  cbn [pbind pret praise plift ptry pget pmodify pfor obind omapM] in *.

Section Run.
Context {S E : Type}.

Lemma pbind_Ok {A B} (c : PyM S E A) (k : A -> PyM S E B) s a s' :
  c s = (Ok a, s') -> pbind c k s = k a s'.
Proof. intros Hc. unfold pbind. by rewrite Hc. Qed.

Lemma pbind_Raise {A B} (c : PyM S E A) (k : A -> PyM S E B) s e s' :
  c s = (Raise e, s') -> pbind c k s = (Raise e, s').
Proof. intros Hc. unfold pbind. by rewrite Hc. Qed.

Lemma ptry_Ok {A} (catches : E -> bool) (c : PyM S E A) h s a s' :
  c s = (Ok a, s') -> ptry catches c h s = (Ok a, s').
Proof. intros Hc. unfold ptry. by rewrite Hc. Qed.

End Run.

#[export] Hint Resolve pbind_Ok ptry_Ok : py.

(** ** Frame properties of statements *)

Section Frame.
Context {S E : Type}.

(** Every exception [c] raises satisfies [P]. *)
Definition raises_only (P : E -> bool) {A} (c : PyM S E A) : Prop :=
  forall s e s', c s = (Raise e, s') -> P e = true.

(** [c] leaves the part [f] of the state unchanged, whether it returns
    or raises. *)
Definition preserves {T} (f : S -> T) {A} (c : PyM S E A) : Prop :=
  forall s o s', c s = (o, s') -> f s' = f s.

Context (P : E -> bool) {T : Type} (f : S -> T).

Lemma raises_only_pret {A} (a : A) : raises_only P (pret a).
Proof. by intros s e s' [=]. Qed.

Lemma raises_only_praise {A} e : P e = true -> raises_only P (@praise S E A e).
Proof. intros He s e' s' [= <-]. done. Qed.

Lemma raises_only_pget : raises_only P pget.
Proof. by intros s e s' [=]. Qed.

Lemma raises_only_pmodify g : raises_only P (pmodify g).
Proof. by intros s e s' [=]. Qed.

Lemma raises_only_plift {A} (o : outcome E A) :
  (forall e, o = Raise e -> P e = true) -> raises_only P (plift o).
Proof. intros Ho s e s' [= -> _]. by apply Ho. Qed.

Lemma raises_only_pbind {A B} (c : PyM S E A) (k : A -> PyM S E B) :
  raises_only P c -> (forall a, raises_only P (k a)) -> raises_only P (pbind c k).
Proof.
  intros Hc Hk s e s'. unfold pbind.
  destruct (c s) as [[a|e0] s0] eqn:E0; [apply Hk|]. intros [= <- <-]. by eapply Hc.
Qed.

Lemma raises_only_pfor {A} (g : A -> PyM S E unit) l :
  (forall x, raises_only P (g x)) -> raises_only P (pfor g l).
Proof.
  intros Hg. induction l; cbn; [apply raises_only_pret|]. by apply raises_only_pbind.
Qed.

Lemma preserves_pret {A} (a : A) : preserves f (pret a).
Proof. by intros s o s' [= _ <-]. Qed.

Lemma preserves_praise {A} e : preserves f (@praise S E A e).
Proof. by intros s o s' [= _ <-]. Qed.

Lemma preserves_pget : preserves f pget.
Proof. by intros s o s' [= _ <-]. Qed.

Lemma preserves_plift {A} (o : outcome E A) : preserves f (plift o).
Proof. by intros s o' s' [= _ <-]. Qed.

Lemma preserves_pmodify g : (forall s, f (g s) = f s) -> preserves f (pmodify g).
Proof. intros Hg s o s' [= _ <-]. apply Hg. Qed.

Lemma preserves_pbind {A B} (c : PyM S E A) (k : A -> PyM S E B) :
  preserves f c -> (forall a, preserves f (k a)) -> preserves f (pbind c k).
Proof.
  intros Hc Hk s o s'. unfold pbind.
  destruct (c s) as [[a|e0] s0] eqn:E0.
  - intros Hk'. rewrite (Hk _ _ _ _ Hk'). by eapply Hc.
  - intros [= _ <-]. by eapply Hc.
Qed.

Lemma preserves_pfor {A} (g : A -> PyM S E unit) l :
  (forall x, preserves f (g x)) -> preserves f (pfor g l).
Proof.
  intros Hg. induction l; cbn; [apply preserves_pret|]. by apply preserves_pbind.
Qed.

Lemma preserves_ptry {A} catches (c : PyM S E A) h :
  preserves f c -> (forall e, preserves f (h e)) -> preserves f (ptry catches c h).
Proof.
  intros Hc Hh s o s'. unfold ptry.
  destruct (c s) as [[a|e0] s0] eqn:E0.
  - intros [= _ <-]. by eapply Hc.
  - destruct (catches e0).
    + intros Hh'. rewrite (Hh _ _ _ _ Hh'). by eapply Hc.
    + intros [= _ <-]. by eapply Hc.
Qed.

(** A [try] whose body raises only what the handler catches, with a
    handler that cannot raise, does not raise. *)
Lemma ptry_total {A} catches (c : PyM S E A) h s :
  raises_only catches c -> (forall e, raises_only (fun _ => false) (h e)) ->
  exists a s', ptry catches c h s = (Ok a, s').
Proof.
  intros Hc Hh. unfold ptry. destruct (c s) as [[a|e] s'] eqn:E0; [by eauto|].
  rewrite (Hc _ _ _ E0). destruct (h e s') as [[a|e'] s''] eqn:E1; [by eauto|].
  by pose proof (Hh _ _ _ _ E1).
Qed.

(** A [try] whose body raises only what it catches raises what its
    handler raises. *)
Lemma raises_only_ptry {A} catches (c : PyM S E A) h :
  raises_only catches c -> (forall e, raises_only P (h e)) ->
  raises_only P (ptry catches c h).
Proof.
  intros Hc Hh s e s'. unfold ptry.
  destruct (c s) as [[a|e0] s0] eqn:E0; [by intros [=]|].
  rewrite (Hc _ _ _ E0). apply Hh.
Qed.

(** A [try] whose body raises what it catches or what [P] allows raises
    only what [P] allows, when its handler does. *)
Lemma raises_only_ptry_or {A} catches (c : PyM S E A) h :
  raises_only (fun e => catches e || P e) c -> (forall e, raises_only P (h e)) ->
  raises_only P (ptry catches c h).
Proof.
  intros Hc Hh s e s'. unfold ptry.
  destruct (c s) as [[a|e0] s0] eqn:E0; [by intros [=]|].
  pose proof (Hc _ _ _ E0) as He0. cbn in He0. destruct (catches e0); [apply Hh|].
  intros [= <- _]. exact He0.
Qed.

(** [c] takes states that satisfy [I] to states that satisfy [I],
    whether it returns or raises. *)
Definition keeps (I : S -> Prop) {A} (c : PyM S E A) : Prop :=
  forall s o s', c s = (o, s') -> I s -> I s'.

Lemma keeps_preserves (J : T -> Prop) {A} (c : PyM S E A) :
  preserves f c -> keeps (fun s => J (f s)) c.
Proof. intros Hc s o s' Hr. by rewrite (Hc _ _ _ Hr). Qed.

Lemma keeps_pbind (I : S -> Prop) {A B} (c : PyM S E A) (k : A -> PyM S E B) :
  keeps I c -> (forall a, keeps I (k a)) -> keeps I (pbind c k).
Proof.
  intros Hc Hk s o s' Hr Hs. unfold pbind in Hr.
  destruct (c s) as [[a|e] s1] eqn:E1; [exact (Hk a _ _ _ Hr (Hc _ _ _ E1 Hs))|].
  injection Hr as _ <-. exact (Hc _ _ _ E1 Hs).
Qed.

Lemma keeps_pfor (I : S -> Prop) {A} (g : A -> PyM S E unit) l :
  (forall x, keeps I (g x)) -> keeps I (pfor g l).
Proof.
  intros Hg. induction l; cbn; [by intros s o s' [= _ <-]|]. by apply keeps_pbind.
Qed.

(** [c] only appends to the list [g] of the state. *)
Definition grows {X} (g : S -> list X) {A} (c : PyM S E A) : Prop :=
  forall s o s', c s = (o, s') -> exists l, g s' = g s ++ l.

Context {X : Type} (g : S -> list X).

Lemma grows_pret {A} (a : A) : grows g (pret a).
Proof. intros s o s' [= _ <-]. exists []. by rewrite app_nil_r. Qed.

Lemma grows_praise {A} e : grows g (@praise S E A e).
Proof. intros s o s' [= _ <-]. exists []. by rewrite app_nil_r. Qed.

Lemma grows_pget : grows g pget.
Proof. intros s o s' [= _ <-]. exists []. by rewrite app_nil_r. Qed.

Lemma grows_plift {A} (o : outcome E A) : grows g (plift o).
Proof. intros s o' s' [= _ <-]. exists []. by rewrite app_nil_r. Qed.

Lemma grows_pmodify h : (forall s, exists l, g (h s) = g s ++ l) -> grows g (pmodify h).
Proof. intros Hh s o s' [= _ <-]. apply Hh. Qed.

Lemma grows_pbind {A B} (c : PyM S E A) (k : A -> PyM S E B) :
  grows g c -> (forall a, grows g (k a)) -> grows g (pbind c k).
Proof.
  intros Hc Hk s o s'. unfold pbind.
  destruct (c s) as [[a|e0] s0] eqn:E0; destruct (Hc _ _ _ E0) as [l1 Hl1].
  - intros Hk'. destruct (Hk _ _ _ _ Hk') as [l2 Hl2].
    exists (l1 ++ l2). by rewrite Hl2, Hl1, app_assoc.
  - intros [= _ <-]. by exists l1.
Qed.

Lemma grows_pfor {A} (h : A -> PyM S E unit) l :
  (forall x, grows g (h x)) -> grows g (pfor h l).
Proof. intros Hh. induction l; cbn; [apply grows_pret|]. by apply grows_pbind. Qed.

Lemma grows_ptry {A} catches (c : PyM S E A) h :
  grows g c -> (forall e, grows g (h e)) -> grows g (ptry catches c h).
Proof.
  intros Hc Hh s o s'. unfold ptry.
  destruct (c s) as [[a|e0] s0] eqn:E0; destruct (Hc _ _ _ E0) as [l1 Hl1].
  - intros [= _ <-]. by exists l1.
  - destruct (catches e0); [|intros [= _ <-]; by exists l1].
    intros Hh'. destruct (Hh _ _ _ _ Hh') as [l2 Hl2].
    exists (l1 ++ l2). by rewrite Hl2, Hl1, app_assoc.
Qed.
End Frame.

#[export] Hint Resolve raises_only_pret raises_only_pget raises_only_pmodify
  raises_only_pbind raises_only_pfor preserves_pret preserves_praise preserves_pget
  preserves_plift preserves_pbind preserves_pfor preserves_ptry
  grows_pret grows_praise grows_pget grows_plift grows_pbind grows_pfor grows_ptry : py.

(** ** Comprehensions *)

Lemma omapM_Ok_map {E A B} (f : A -> outcome E B) (g : A -> B) (l : list A) :
  (forall x, x ∈ l -> f x = Ok (g x)) -> omapM f l = Ok (map g l).
Proof.
  induction l as [|x l IH]; intros Hf; [done|]. cbn.
  rewrite Hf by set_solver. cbn. rewrite IH by set_solver. done.
Qed.

(** A comprehension stops at the first element whose computation raises. *)
Lemma omapM_app_Raise {E A B} (f : A -> outcome E B) (l1 l2 : list A) x ys e :
  omapM f l1 = Ok ys -> f x = Raise e -> omapM f (l1 ++ x :: l2) = Raise e.
Proof.
  revert ys. induction l1 as [|y l1 IH]; intros ys; cbn.
  - intros _ ->. done.
  - destruct (f y) as [b|e']; [|done]. cbn.
    destruct (omapM f l1) as [bs|e'] eqn:Hl1; [|done]. intros _ Hx. by rewrite (IH bs).
Qed.

(** ** Lists *)

(** [l[:-1]] of a list that ends with [x] is the list before [x]. *)
Lemma removelast_snoc {A} (l : list A) (x : A) : removelast (l ++ [x]) = l.
Proof. apply removelast_last. Qed.

#[export] Hint Rewrite @last_snoc @removelast_snoc @length_app @map_app : pysimpl.
