(* ===== verification/Python.v ===== *)
(** * Python values and the operations [src/main.py] applies to them

    The script handles three kinds of Python values: [None], strings, and
    lists (the ["parts"] list of a Gemini user message).  Messages are
    dicts from strings to such values.  This file gives them, with the
    exceptions the script can raise and their [str()], the subscript
    operations of the script ([d[k]], [d.get(k)], [l[-1]], [l[:-1]],
    [v[0]]), truthiness ([if content:]) and comparison with a string
    literal ([role == "user"]). *)

From stdpp Require Import base list strings gmap.
From S2P Require Import Prelude.

Open Scope string_scope.

(** ** Values *)

Inductive pyval : Type :=
| PyNone
| PyStr (s : string)
| PyList (l : list pyval).

(** A Python dict with string keys, as the message dicts of the script. *)
Abbreviation pydict := (gmap string pyval).

(** ** Exceptions *)

(** The exceptions a run of the script can raise.  [VendorError] is any
    exception of a vendor library, with its message; [RerunRequest] is
    the control-flow exception of [st.rerun()], and [StopRequest] the
    one Streamlit raises at a Streamlit call when the user's next action
    stops the run; both derive from [BaseException] and so are not
    caught by [except Exception]. *)
Inductive exn : Type :=
| KeyError (key : string)
| IndexError (msg : string)
| TypeError (msg : string)
| NameError (name : string)
| AttributeError (msg : string)
| VendorError (detail : string)
| RerunRequest
| StopRequest.

(** [except Exception as e] catches every exception but Streamlit's control
    exceptions, the rerun request and the stop. *)
Definition is_Exception (e : exn) : bool :=
  match e with RerunRequest | StopRequest => false | _ => true end.

Definition is_stop (e : exn) : bool := match e with StopRequest => true | _ => false end.

(** What a statement that does not call [st.rerun()] can raise: an
    [Exception], or Streamlit's stop at one of its calls. *)
Definition is_Exception_or_stop (e : exn) : bool := is_Exception e || is_stop e.

(** [str(e)], as an f-string shows it. *)
Definition exn_str (e : exn) : string :=
  match e with
  | KeyError k => "'" ++ k ++ "'"
  | IndexError m => m
  | TypeError m => m
  | NameError n => "name '" ++ n ++ "' is not defined"
  | AttributeError m => m
  | VendorError d => d
  | RerunRequest | StopRequest => ""
  end.

Definition list_index_error : exn := IndexError "list index out of range".

(** ** Subscripts *)

(** [d[k]]: [KeyError] when the key is absent. *)
Definition getitem (d : pydict) (k : string) : outcome exn pyval :=
  match d !! k with
  | Some v => Ok v
  | None => Raise (KeyError k)
  end.

(** [d.get(k)]: [None] when the key is absent. *)
Definition dict_get (d : pydict) (k : string) : pyval :=
  default PyNone (d !! k).

(** [l[-1]] on a Python list. *)
Definition list_last {A} (l : list A) : outcome exn A :=
  match last l with
  | Some x => Ok x
  | None => Raise list_index_error
  end.

(** [l[:-1]]: every element but the last one, [[]] on [[]]. *)
Definition list_but_last {A} (l : list A) : list A := removelast l.

(** [v[0]] on a value: the first element of a list, the first character
    of a string, a [TypeError] on [None]. *)
Definition index0 (v : pyval) : outcome exn pyval :=
  match v with
  | PyList (x :: _) => Ok x
  | PyList [] => Raise list_index_error
  | PyStr (String c _) => Ok (PyStr (String c EmptyString))
  | PyStr EmptyString => Raise (IndexError "string index out of range")
  | PyNone => Raise (TypeError "'NoneType' object is not subscriptable")
  end.

(** ** Tests *)

(** [if v:] *)
Definition truthy (v : pyval) : bool :=
  match v with
  | PyNone => false
  | PyStr s => bool_decide (s <> "")
  | PyList l => bool_decide (l <> [])
  end.

(** [v == "lit"]: only a string with the same characters is equal. *)
Definition py_eq_str (v : pyval) (lit : string) : bool :=
  match v with
  | PyStr s => bool_decide (s = lit)
  | _ => false
  end.

(** ** Lemmas *)

Lemma getitem_Some d k v : d !! k = Some v -> getitem d k = Ok v.
Proof. unfold getitem. by intros ->. Qed.

Lemma getitem_insert_eq (d : pydict) k v : getitem (<[k:=v]> d) k = Ok v.
Proof. apply getitem_Some, lookup_insert_eq. Qed.

Lemma list_last_snoc {A} (l : list A) (x : A) : list_last (l ++ [x]) = Ok x.
Proof. unfold list_last. by rewrite last_snoc. Qed.

Lemma list_but_last_snoc {A} (l : list A) (x : A) : list_but_last (l ++ [x]) = l.
Proof. apply removelast_snoc. Qed.

#[export] Hint Rewrite getitem_insert_eq @list_last_snoc @list_but_last_snoc : pysimpl.

(** ** Computations that raise only [Exception]s *)

(** Every exception [o] can raise is caught by [except Exception]. *)
Definition only_Exceptions {A} (o : outcome exn A) : Prop :=
  forall e, o = Raise e -> is_Exception e = true.

Lemma only_Exceptions_Ok {A} (a : A) : only_Exceptions (Ok a).
Proof. by intros e. Qed.

Lemma only_Exceptions_obind {A B} (o : outcome exn A) (k : A -> outcome exn B) :
  only_Exceptions o -> (forall a, only_Exceptions (k a)) ->
  only_Exceptions (obind o k).
Proof. intros Ho Hk e. destruct o as [a|e']; cbn; [apply Hk|]. intros [= ->]. by apply Ho. Qed.

Lemma only_Exceptions_omapM {A B} (f : A -> outcome exn B) (l : list A) :
  (forall x, only_Exceptions (f x)) -> only_Exceptions (omapM f l).
Proof.
  intros Hf. induction l as [|x l IH]; cbn; [apply only_Exceptions_Ok|].
  apply only_Exceptions_obind; [done|]. intros y.
  apply only_Exceptions_obind; [done|]. intros ys. apply only_Exceptions_Ok.
Qed.

(** Closes [only_Exceptions o] for an [o] whose raises are literals. *)
Ltac solve_only_exc :=
  let e := fresh "e" in let Hr := fresh "Hr" in
  intros e Hr; repeat (case_match; simplify_eq/=); by simplify_eq/=.

Lemma only_Exceptions_getitem d k : only_Exceptions (getitem d k).
Proof. unfold getitem. solve_only_exc. Qed.

Lemma only_Exceptions_list_last {A} (l : list A) : only_Exceptions (list_last l).
Proof. unfold list_last. solve_only_exc. Qed.

Lemma only_Exceptions_index0 v : only_Exceptions (index0 v).
Proof. unfold index0. solve_only_exc. Qed.

#[export] Hint Resolve only_Exceptions_Ok only_Exceptions_obind only_Exceptions_omapM
  only_Exceptions_getitem only_Exceptions_list_last only_Exceptions_index0 : py.

(** A pure computation lifted into a statement raises only [Exception]s
    when the computation does. *)
Lemma raises_only_plift_exc {S A} (o : outcome exn A) :
  only_Exceptions o -> raises_only (S := S) is_Exception (plift o).
Proof. intros Ho. apply raises_only_plift. exact Ho. Qed.

Lemma raises_only_plift_exc_stop {S A} (o : outcome exn A) :
  only_Exceptions o -> raises_only (S := S) is_Exception_or_stop (plift o).
Proof. intros Ho. apply raises_only_plift. intros e He. unfold is_Exception_or_stop. by rewrite Ho. Qed.

Lemma raises_only_Exception_stop {S A} (c : PyM S exn A) :
  raises_only is_Exception c -> raises_only is_Exception_or_stop c.
Proof. intros Hc w e w' Hr. unfold is_Exception_or_stop. by rewrite (Hc _ _ _ Hr). Qed.

(** Everything but the stop. *)
Definition is_not_stop (e : exn) : bool := negb (is_stop e).

Lemma raises_only_Exception_not_stop {S A} (c : PyM S exn A) :
  raises_only is_Exception c -> raises_only is_not_stop c.
Proof. intros Hc w e w' Hr. pose proof (Hc _ _ _ Hr). by destruct e. Qed.

#[export] Hint Resolve raises_only_plift_exc raises_only_plift_exc_stop raises_only_Exception_stop
  raises_only_Exception_not_stop : py.
#[export] Hint Extern 1 (_ = true) => reflexivity : py.
#[export] Hint Resolve raises_only_praise : py.

(** Splits a frame goal over the structure of a statement. *)
Ltac frame_split :=
  repeat first
    [ solve [eauto with py]
    | apply preserves_pbind | apply raises_only_pbind
    | apply preserves_pfor | apply raises_only_pfor
    | apply preserves_ptry
    | apply grows_pbind | apply grows_pfor | apply grows_ptry
    | apply grows_plift | apply grows_pret
    | apply preserves_plift | apply preserves_pret | apply raises_only_pret
    | apply raises_only_plift_exc | apply raises_only_plift_exc_stop
    | progress intros ].
