(* ===== verification/Registry.v ===== *)
(** * The provider registry ([src/main.py], lines 28-37 and the
      if/elif dispatches of lines 64-88 and 96-106)

    [providers] maps the display names of the select box to provider
    ids; the rest of the script dispatches on the id string with chains
    of [if provider == "gemini": ... elif ...].  The five providers are
    an inductive type, and [provider_of_id] is the dispatch: it is the
    only place where an id string is compared. *)

From stdpp Require Import base list strings countable sets.
From S2P Require Import Prelude Python.

Open Scope string_scope.

Inductive provider : Type :=
| Gemini
| OpenAI
| Groq
| Anthropic
| Cohere.

#[export] Instance provider_eq_dec : EqDecision provider.
Proof. solve_decision. Defined.

(** The id strings the script stores in [st.session_state.provider]. *)
Definition provider_id (p : provider) : string :=
  match p with
  | Gemini => "gemini"
  | OpenAI => "openai"
  | Groq => "groq"
  | Anthropic => "anthropic"
  | Cohere => "cohere"
  end.

(** The dict literal of lines 28-34, in insertion order (the order of
    [list(providers.keys())], the options of the select box). *)
Definition providers : list (string * string) :=
  [("Google Gemini", "gemini");
   ("OpenAI", "openai");
   ("Groq", "groq");
   ("Anthropic (Claude)", "anthropic");
   ("Cohere", "cohere")].

(** [list(providers.keys())], line 36. *)
Definition provider_names : list string := map fst providers.

Fixpoint assoc_lookup (k : string) (l : list (string * string)) : option string :=
  match l with
  | [] => None
  | (k', v) :: l' => if bool_decide (k = k') then Some v else assoc_lookup k l'
  end.

(** [providers[selected_provider_name]], line 37. *)
Definition providers_getitem (name : string) : outcome exn string :=
  match assoc_lookup name providers with
  | Some id => Ok id
  | None => Raise (KeyError name)
  end.

(** The dispatch on an id string: the first branch whose literal equals
    the id, none for a string no branch names. *)
Definition provider_of_id (id : string) : option provider :=
  if bool_decide (id = "gemini") then Some Gemini
  else if bool_decide (id = "openai") then Some OpenAI
  else if bool_decide (id = "groq") then Some Groq
  else if bool_decide (id = "anthropic") then Some Anthropic
  else if bool_decide (id = "cohere") then Some Cohere
  else None.

(** An id the registry knows. *)
Definition registered (id : string) : Prop := is_Some (provider_of_id id).

#[export] Instance registered_dec id : Decision (registered id).
Proof. unfold registered. apply _. Defined.

(** ** Lemmas *)

(** Dispatching on a provider's id selects that provider. *)
Lemma provider_of_id_id (p : provider) : provider_of_id (provider_id p) = Some p.
Proof. by destruct p. Qed.

#[export] Instance provider_countable : Countable provider :=
  inj_countable provider_id provider_of_id provider_of_id_id.

#[export] Instance provider_id_inj : Inj (=) (=) provider_id.
Proof. intros p q Hpq. apply (f_equal provider_of_id) in Hpq. rewrite !provider_of_id_id in Hpq. congruence. Qed.

Lemma provider_of_id_Some id p : provider_of_id id = Some p -> id = provider_id p.
Proof.
  unfold provider_of_id. repeat case_bool_decide; intros; simplify_eq; done.
Qed.

Lemma registered_provider_id p : registered (provider_id p).
Proof. unfold registered. by rewrite provider_of_id_id. Qed.

(** Every option of the select box resolves to a registered id. *)
Lemma providers_getitem_total (name : string) :
  name ∈ provider_names ->
  exists id, providers_getitem name = Ok id /\ registered id.
Proof.
  unfold provider_names, providers. cbn.
  intros Hin. repeat (apply elem_of_cons in Hin as [->|Hin]);
    [by eexists; split; [reflexivity|eexists] .. | by apply elem_of_nil in Hin].
Qed.

Lemma providers_getitem_registered name id :
  providers_getitem name = Ok id -> registered id.
Proof.
  unfold providers_getitem, providers. cbn.
  repeat case_bool_decide; intros Hid; simplify_eq; by eexists.
Qed.

Lemma providers_getitem_name name id :
  providers_getitem name = Ok id -> name ∈ provider_names.
Proof.
  unfold providers_getitem, provider_names, providers. cbn.
  repeat case_bool_decide; intros Hid; simplify_eq; set_solver.
Qed.

Lemma only_Exceptions_providers_getitem name : only_Exceptions (providers_getitem name).
Proof. unfold providers_getitem. solve_only_exc. Qed.

#[export] Hint Resolve registered_provider_id providers_getitem_registered
  only_Exceptions_providers_getitem : py.

Lemma providers_getitem_Raise name e : providers_getitem name = Raise e -> e = KeyError name.
Proof. unfold providers_getitem. destruct (assoc_lookup _ _); congruence. Qed.
