(* ===== verification/Store.v ===== *)
(** * Streamlit session state, page elements and the conversation store

    [st.session_state] survives between runs of the script; in
    [src/main.py] it holds three keys: [api_key] and [provider]
    (strings, lines 50-51) and [messages] (the chat history, a list of
    message dicts, line 59).  A key may be absent, so each field is an
    option.  The page a run renders is the list of elements it emits,
    in order.  A run threads both in a [world], with the stop point of
    the Streamlit runtime, and the statements of the script are
    [Script] computations: [PyM] over [world] with the exceptions of
    [Python].  Rendering an element ([emit]) is where a run can be
    stopped; [stop_free] statements raise no stop from a world without
    a stop request, which is every run [run_page] starts.

    The conversation store of the specification is
    [st.session_state.messages]: [messages_init] (lines 58-59),
    [messages_append] ([.append], lines 130, 146, 149),
    [session_clear] (the deletion loop of lines 47-48, which clears the
    history together with every other key) and [messages_get] (the
    attribute read the adapter and the renderer do). *)

From stdpp Require Import base list strings gmap.
From S2P Require Import Prelude Python.

Open Scope string_scope.

(** ** State and page *)

Record session : Type := mk_session {
  ss_api_key : option string;
  ss_provider : option string;
  ss_messages : option (list pydict)
}.

(** The session state of a fresh browser session: no key at all. *)
Definition empty_session : session := mk_session None None None.

(** The elements a run renders, the widgets included.  [ElChatMessage
    role] is the container [st.chat_message(role)] opens, [ElMarkdown]
    the text written in it; [ElPageConfig] records the settings of
    [st.set_page_config] (lines 12-17). *)
Inductive element : Type :=
| ElPageConfig (page_title page_icon layout initial_sidebar_state : string)
| ElTitle (text : string)
| ElCaption (text : string)
| ElHeader (text : string)
| ElSelectbox (label : string) (options : list string)
| ElTextInput (label : string)
| ElButton (label : string)
| ElChatInput (placeholder : string)
| ElError (text : string)
| ElSuccess (text : string)
| ElInfo (text : string)
| ElChatMessage (role : pyval)
| ElMarkdown (text : pyval)
(** An element rendered inside [with st.sidebar:] (line 23). *)
| ElSidebar (el : element).

(** [w_stop] is the runtime's request to stop the run: [None] while
    no request is pending; [Some n] once the user's next action has
    arrived, [n] being the number of elements the run still renders
    before the Streamlit call that raises the stop ([StopRequest]).
    [mk_world] is a world without a stop request. *)
Record world : Type := mk_world_at {
  w_session : session;
  w_page : list element;
  w_stop : option nat
}.

Abbreviation mk_world s pg := (mk_world_at s pg None).

Abbreviation Script A := (PyM world exn A).

(** The stop point once [k] more elements are rendered. *)
Definition countdown (k : nat) (stop : option nat) : option nat := (fun n => n - k) <$> stop.

(** The next [k] elements are rendered before the stop point. *)
Definition stop_after (k : nat) (stop : option nat) : Prop :=
  match stop with Some n => k <= n | None => True end.

(** ** Primitive statements *)

(** Render one element.  Streamlit checks for a stop request before it
    sends an element to the page, and raises [StopException] then. *)
Definition emit (el : element) : Script unit :=
  fun w =>
    match w_stop w with
    | Some 0 => (Raise StopRequest, w)
    | Some (S n) => (Ok tt, mk_world_at (w_session w) (w_page w ++ [el]) (Some n))
    | None => (Ok tt, mk_world (w_session w) (w_page w ++ [el]))
    end.

Definition get_session : Script session := pbind pget (fun w => pret (w_session w)).

Definition modify_session (f : session -> session) : Script unit :=
  pmodify (fun w => mk_world_at (f (w_session w)) (w_page w) (w_stop w)).

Definition set_api_key (k : string) (s : session) : session :=
  mk_session (Some k) (ss_provider s) (ss_messages s).

Definition set_provider (p : string) (s : session) : session :=
  mk_session (ss_api_key s) (Some p) (ss_messages s).

Definition set_messages (ms : list pydict) (s : session) : session :=
  mk_session (ss_api_key s) (ss_provider s) (Some ms).

(** ** The conversation store *)

Definition messages_missing : exn :=
  AttributeError "st.session_state has no attribute 'messages'".

(** [st.session_state.messages] as an attribute read. *)
Definition messages_get : Script (list pydict) :=
  pbind get_session (fun s =>
    match ss_messages s with
    | Some ms => pret ms
    | None => praise messages_missing
    end).

(** [if "messages" not in st.session_state: st.session_state.messages = []]. *)
Definition messages_init : Script unit :=
  modify_session (fun s =>
    match ss_messages s with
    | Some _ => s
    | None => set_messages [] s
    end).

(** [st.session_state.messages.append(m)]: the list is mutated in place. *)
Definition messages_append (m : pydict) : Script unit :=
  pbind messages_get (fun ms => modify_session (set_messages (ms ++ [m]))).

(** [for key in list(st.session_state.keys()): del st.session_state[key]]. *)
Definition session_clear : Script unit := modify_session (fun _ => empty_session).

(** The history a session holds, with an absent key read as empty. *)
Definition history (s : session) : list pydict := default [] (ss_messages s).

(** ** The stop point *)

Lemma countdown_0 stop : countdown 0 stop = stop.
Proof. destruct stop; cbn; f_equal; lia. Qed.

Lemma countdown_countdown a b stop : countdown a (countdown b stop) = countdown (b + a) stop.
Proof. destruct stop; cbn; f_equal; lia. Qed.

Lemma stop_after_app a b stop :
  stop_after (a + b) stop -> stop_after a stop /\ stop_after b (countdown a stop).
Proof. destruct stop; cbn; lia. Qed.

Lemma stop_after_le a b stop : a <= b -> stop_after b stop -> stop_after a stop.
Proof. destruct stop; cbn; lia. Qed.

Lemma countdown_Some k n : countdown k (Some (k + n)) = Some n.
Proof. cbn. f_equal. lia. Qed.

Lemma stop_after_Some k n : stop_after k (Some (k + n)).
Proof. cbn. lia. Qed.

#[export] Hint Rewrite countdown_0 countdown_countdown countdown_Some : pysimpl.

(** ** Run lemmas *)

Section StoreRun.
Context (s : session) (pg : list element).

Lemma emit_run el : emit el (mk_world s pg) = (Ok tt, mk_world s (pg ++ [el])).
Proof. reflexivity. Qed.

Lemma emit_run_at el stop :
  stop_after 1 stop -> emit el (mk_world_at s pg stop) = (Ok tt, mk_world_at s (pg ++ [el]) (countdown 1 stop)).
Proof. destruct stop as [[|n]|]; cbn; [lia| |done]. intros _. rewrite Nat.sub_0_r. reflexivity. Qed.

(** A pending stop request counts the elements down, then stops the run
    at the next element, which is not rendered. *)
Lemma emit_tick_run el n :
  emit el (mk_world_at s pg (Some (S n))) = (Ok tt, mk_world_at s (pg ++ [el]) (Some n)).
Proof. reflexivity. Qed.

Lemma emit_stop_run el :
  emit el (mk_world_at s pg (Some 0)) = (Raise StopRequest, mk_world_at s pg (Some 0)).
Proof. reflexivity. Qed.

Context (stop : option nat).

Lemma messages_get_run ms :
  ss_messages s = Some ms -> messages_get (mk_world_at s pg stop) = (Ok ms, mk_world_at s pg stop).
Proof. intros Hms. unfold messages_get, get_session, pbind, pget, pret. cbn. by rewrite Hms. Qed.

Lemma messages_append_run ms m :
  ss_messages s = Some ms ->
  messages_append m (mk_world_at s pg stop) =
    (Ok tt, mk_world_at (set_messages (ms ++ [m]) s) pg stop).
Proof. intros Hms. unfold messages_append. by rewrite (pbind_Ok _ _ _ _ _ (messages_get_run ms Hms)). Qed.

Lemma messages_init_run :
  messages_init (mk_world_at s pg stop) =
    (Ok tt, mk_world_at (set_messages (history s) s) pg stop).
Proof. by destruct s as [k p [ms|]]. Qed.
End StoreRun.


(** ** Frame lemmas *)

Lemma emit_preserves el : preserves w_session (emit el).
Proof. intros w o w'. unfold emit. by destruct (w_stop w) as [[|n]|]; intros [= _ <-]. Qed.

Lemma emit_raises_only P el : P StopRequest = true -> raises_only P (emit el).
Proof. intros HP w e w'. unfold emit. by destruct (w_stop w) as [[|n]|]; intros [= <- _]. Qed.

Lemma modify_session_preserves_stop f : preserves w_stop (modify_session f).
Proof. by apply preserves_pmodify. Qed.

Lemma get_session_preserves {T} (f : world -> T) : preserves f get_session.
Proof. unfold get_session. eauto with py. Qed.

Lemma get_session_raises_only P : raises_only P get_session.
Proof. unfold get_session. eauto with py. Qed.

Lemma messages_get_preserves {T} (f : world -> T) : preserves f messages_get.
Proof.
  unfold messages_get. apply preserves_pbind; [apply get_session_preserves|].
  intros s. destruct (ss_messages s); eauto using preserves_praise with py.
Qed.

Lemma messages_get_raises_only P : P messages_missing = true -> raises_only P messages_get.
Proof.
  intros HP. unfold messages_get. apply raises_only_pbind; [apply get_session_raises_only|].
  intros s. destruct (ss_messages s); [apply raises_only_pret|]. by apply raises_only_praise.
Qed.

Lemma messages_append_raises_only P m : P messages_missing = true -> raises_only P (messages_append m).
Proof.
  intros HP. unfold messages_append. apply raises_only_pbind; [by apply messages_get_raises_only|].
  intros; apply raises_only_pmodify.
Qed.

Lemma messages_append_preserves_stop m : preserves w_stop (messages_append m).
Proof.
  unfold messages_append. apply preserves_pbind; [apply messages_get_preserves|].
  intros; apply modify_session_preserves_stop.
Qed.

Lemma emit_grows el : grows w_page (emit el).
Proof.
  intros w o w'. unfold emit. destruct (w_stop w) as [[|n]|]; intros [= _ <-]; cbn; [|by eexists..].
  exists []. by rewrite app_nil_r.
Qed.

Lemma modify_session_grows f : grows w_page (modify_session f).
Proof. apply grows_pmodify. intros w. exists []. by rewrite app_nil_r. Qed.

Lemma get_session_grows : grows w_page get_session.
Proof. unfold get_session. eauto with py. Qed.

Lemma messages_get_grows : grows w_page messages_get.
Proof.
  unfold messages_get. apply grows_pbind; [apply get_session_grows|].
  intros s. destruct (ss_messages s); eauto with py.
Qed.

Lemma messages_append_grows m : grows w_page (messages_append m).
Proof. unfold messages_append. apply grows_pbind; [apply messages_get_grows|]. intros; apply modify_session_grows. Qed.

Lemma messages_init_grows : grows w_page messages_init.
Proof. apply modify_session_grows. Qed.

#[export] Hint Resolve emit_grows modify_session_grows get_session_grows messages_get_grows
  messages_append_grows messages_init_grows : py.

#[export] Hint Resolve emit_preserves emit_raises_only get_session_preserves
  get_session_raises_only messages_get_preserves messages_get_raises_only
  messages_append_raises_only modify_session_preserves_stop messages_append_preserves_stop : py.

(** ** Runs without a stop request *)

(** From a world without a pending stop request, [c] leaves none and
    does not raise [StopException]. *)
Definition stop_free {A} (c : Script A) : Prop :=
  forall w o w', c w = (o, w') -> w_stop w = None -> w_stop w' = None /\ o <> Raise StopRequest.

(** A statement that renders nothing keeps the stop point, and so is
    stop-free when it cannot raise the stop itself. *)
Lemma stop_free_frame P {A} (c : Script A) :
  P StopRequest = false -> raises_only P c -> preserves w_stop c -> stop_free c.
Proof.
  intros HP Hc Hs w o w' Hr Hw. rewrite (Hs _ _ _ Hr). split; [done|].
  intros ->. by rewrite (Hc _ _ _ Hr) in HP.
Qed.

Lemma stop_free_emit el : stop_free (emit el).
Proof. intros [s pg stop] o w' Hr Hw. cbn in Hw. subst stop. by injection Hr as <- <-. Qed.

Lemma stop_free_pbind {A B} (c : Script A) (k : A -> Script B) :
  stop_free c -> (forall a, stop_free (k a)) -> stop_free (pbind c k).
Proof.
  intros Hc Hk w o w' Hr Hw. unfold pbind in Hr.
  destruct (c w) as [[a|e] w1] eqn:E1; destruct (Hc _ _ _ E1 Hw) as [Hw1 He].
  - exact (Hk a _ _ _ Hr Hw1).
  - injection Hr as <- <-. split; [done|]. intros [= ->]. by apply He.
Qed.

Lemma stop_free_ptry {A} catches (c : Script A) h :
  stop_free c -> (forall e, stop_free (h e)) -> stop_free (ptry catches c h).
Proof.
  intros Hc Hh w o w' Hr Hw. unfold ptry in Hr.
  destruct (c w) as [[a|e] w1] eqn:E1; destruct (Hc _ _ _ E1 Hw) as [Hw1 He].
  - injection Hr as <- <-. by split.
  - destruct (catches e); [exact (Hh e _ _ _ Hr Hw1)|]. injection Hr as <- <-. split; [done|]. intros [= ->]. by apply He.
Qed.

Lemma stop_free_pfor {A} (g : A -> Script unit) l :
  (forall x, stop_free (g x)) -> stop_free (pfor g l).
Proof.
  intros Hg. induction l as [|x l IH]; cbn [pfor].
  - apply (stop_free_frame (fun _ => false)); eauto with py.
  - by apply stop_free_pbind.
Qed.

#[export] Hint Resolve stop_free_emit : py.

(** Splits a [stop_free] goal over the structure of a statement. *)
Ltac stop_split :=
  repeat first
    [ solve [eauto with py]
    | apply stop_free_pbind | apply stop_free_ptry | apply stop_free_pfor
    | apply (stop_free_frame is_not_stop); [reflexivity|solve [frame_split]|solve [frame_split]]
    | progress intros | case_match ].

(** A statement that keeps the session state, followed by [k]: either
    the statement raised and the run ends with its session state, or [k]
    runs from a world with that session state. *)
Lemma pbind_session {A B} (c : Script A) (k : A -> Script B) w o w' :
  preserves w_session c -> pbind c k w = (o, w') ->
  (exists e, c w = (Raise e, w') /\ o = Raise e /\ w_session w' = w_session w) \/
  exists a w1, c w = (Ok a, w1) /\ w_session w1 = w_session w /\ k a w1 = (o, w').
Proof.
  intros Hc Hr. unfold pbind in Hr. destruct (c w) as [[a|e] w1] eqn:E1.
  - right. exists a, w1. split; [done|]. split; [exact (Hc _ _ _ E1)|exact Hr].
  - left. injection Hr as <- <-. exists e. split; [done|]. split; [done|]. exact (Hc _ _ _ E1).
Qed.

(** [emit] raises only the stop, and renders nothing then. *)
Lemma emit_Raise el w e w' : emit el w = (Raise e, w') -> e = StopRequest /\ w' = w.
Proof. unfold emit. by destruct (w_stop w) as [[|n]|]; intros [= <- <-]. Qed.

(** [emit el ;;; k]: the stop, or [k] from a world with the same
    session state. *)
Lemma emit_then el {A} (k : Script A) w o w' :
  pbind (emit el) (fun _ => k) w = (o, w') ->
  (o = Raise StopRequest /\ w' = w) \/ exists w1, w_session w1 = w_session w /\ k w1 = (o, w').
Proof.
  intros Hr. apply pbind_session in Hr as [(e & He & -> & _)|(_ & w1 & _ & Hs & Hr)];
    [|by eauto|apply emit_preserves].
  apply emit_Raise in He as [-> ->]. by left.
Qed.

(** The session after a [try] is the session its body leaves, when the
    handler does not touch the session state. *)
Lemma ptry_session {A} catches (c : Script A) h w o w' o1 w1 :
  c w = (o1, w1) -> (forall e, preserves w_session (h e)) ->
  ptry catches c h w = (o, w') -> w_session w' = w_session w1.
Proof.
  intros Hc Hh. unfold ptry. rewrite Hc.
  destruct o1 as [a|e]; [by intros [= _ <-]|].
  destruct (catches e); [|by intros [= _ <-]]. intros Hr. by apply (Hh e _ _ _ Hr).
Qed.
