(* ===== verification/Vendor.v ===== *)
(** * The vendor client libraries, as an interface

    [src/main.py] imports five client libraries (lines 5-9) and uses
    each in two places: client construction (lines 96-106) and one call
    per chat turn in [get_model_response] (lines 66-87).  They are not
    modelled; the type class [Vendor] states what the script relies on:

    - [vendor_init p key]: constructing the client of provider [p] with
      [key] ([genai.configure], [OpenAI(api_key=...)], ...) either
      succeeds or raises an exception with a message;
    - [vendor_send c req]: the network call either raises an exception
      with a message (network, authentication, quota, malformed
      request) or returns a response object.

    The requests are the calls the script makes, with their arguments;
    the responses are the vendor response objects, as far as the script
    reads them ([.text], [.choices[0].message.content],
    [.content[0].text]).  A vendor exception is an [Exception] of Python:
    the script's [except Exception] catches it ([VendorError]). *)

From stdpp Require Import base list strings.
From S2P Require Import Prelude Python Registry.

Open Scope string_scope.

(** The client object the script holds: the vendor it talks to and the
    key it was built with. *)
Record client : Type := mk_client {
  client_provider : provider;
  client_api_key : string
}.

(** A message of the chat-completion APIs: [{"role": ..., "content": ...}]. *)
Record chat_message : Type := mk_chat_message {
  cm_role : pyval;
  cm_content : pyval
}.

(** A turn of Cohere's [chat_history]: [{"role": ..., "message": ...}]. *)
Record cohere_turn : Type := mk_cohere_turn {
  ct_role : string;
  ct_message : pyval
}.

Inductive request : Type :=
(** [genai.GenerativeModel(model).generate_content(contents)] *)
| GenerateContent (model : string) (contents : pyval)
(** [client.chat.completions.create(messages=..., model=...)] *)
| ChatCompletionsCreate (messages : list chat_message) (model : string)
(** [client.messages.create(model=..., max_tokens=..., messages=...)] *)
| MessagesCreate (model : string) (max_tokens : nat) (messages : list chat_message)
(** [client.chat(message=..., chat_history=..., model=...)] *)
| CohereChat (message : pyval) (chat_history : list cohere_turn) (model : string).

Inductive response : Type :=
(** A Gemini or Cohere response: its [.text]. *)
| RespText (text : pyval)
(** A chat-completion response: the [.message.content] of each choice. *)
| RespChoices (contents : list pyval)
(** An Anthropic response: the [.text] of each content block. *)
| RespContent (texts : list pyval).

Class Vendor : Type := {
  vendor_init : provider -> string -> outcome string unit;
  vendor_send : client -> request -> outcome string response
}.

(** ** Reading the response objects *)

Definition no_attribute (attr : string) : exn :=
  AttributeError ("response object has no attribute '" ++ attr ++ "'").

(** [response.text] *)
Definition response_text (r : response) : outcome exn pyval :=
  match r with
  | RespText t => Ok t
  | _ => Raise (no_attribute "text")
  end.

(** [chat_completion.choices[0].message.content] *)
Definition first_choice_content (r : response) : outcome exn pyval :=
  match r with
  | RespChoices (c :: _) => Ok c
  | RespChoices [] => Raise list_index_error
  | _ => Raise (no_attribute "choices")
  end.

(** [response.content[0].text] *)
Definition first_content_text (r : response) : outcome exn pyval :=
  match r with
  | RespContent (t :: _) => Ok t
  | RespContent [] => Raise list_index_error
  | _ => Raise (no_attribute "content")
  end.

(** A vendor exception as the script sees it. *)
Definition vendor_outcome {A} (o : outcome string A) : outcome exn A :=
  match o with
  | Ok a => Ok a
  | Raise msg => Raise (VendorError msg)
  end.

Lemma only_Exceptions_vendor_outcome {A} (o : outcome string A) :
  only_Exceptions (vendor_outcome o).
Proof. unfold vendor_outcome. solve_only_exc. Qed.

Lemma only_Exceptions_response_text r : only_Exceptions (response_text r).
Proof. unfold response_text. solve_only_exc. Qed.

Lemma only_Exceptions_first_choice_content r : only_Exceptions (first_choice_content r).
Proof. unfold first_choice_content. solve_only_exc. Qed.

Lemma only_Exceptions_first_content_text r : only_Exceptions (first_content_text r).
Proof. unfold first_content_text. solve_only_exc. Qed.

#[export] Hint Resolve only_Exceptions_vendor_outcome only_Exceptions_response_text
  only_Exceptions_first_choice_content only_Exceptions_first_content_text : py.

(** A stub of the vendor libraries, for concrete runs: construction by
    [init], and every call answered by [send] whatever the client. *)
Definition stub_vendor (init : provider -> string -> outcome string unit)
           (send : request -> outcome string response) : Vendor :=
  {| vendor_init := init; vendor_send := fun _ req => send req |}.

(** A stub whose every call answers [reply], in the shape of the vendor
    the request is for. *)
Definition fixed_reply_vendor (reply : string) : Vendor :=
  stub_vendor (fun _ _ => Ok tt) (fun req =>
    Ok match req with
       | GenerateContent _ _ | CohereChat _ _ _ => RespText (PyStr reply)
       | ChatCompletionsCreate _ _ => RespChoices [PyStr reply]
       | MessagesCreate _ _ _ => RespContent [PyStr reply]
       end).
