(* ===== verification/Adapter.v ===== *)
(** * The provider adapter: [get_model_response] ([src/main.py], lines 62-90)

    [get_model_response(client, provider, messages)] has one branch per
    provider.  Each branch builds the vendor request from the history
    ([encode]), calls the vendor ([vendor_send]) and reads the reply out
    of the response ([decode]); the whole body is in a [try] whose
    handler returns ["An error occurred: {e}"].  Two details of the code
    are kept: the Gemini branch reads its [messages] argument, the other
    branches read [st.session_state.messages] (the same list object when
    the caller passes it, see [get_model_response_run]); and a provider id
    no branch names falls off the end of the function, which returns
    [None]. *)

From stdpp Require Import base list strings gmap.
From S2P Require Import Prelude Python Registry Store Vendor.

Open Scope string_scope.
Local Open Scope py_scope.

(** ** The literals of the branches *)

Definition gemini_model : string := "gemini-2.0-flash-lite".

(** Line 73: ["openai/gpt-oss-20b" if provider == "openai" else "llama3-8b-8192"]. *)
Definition chat_model (p : provider) : string :=
  match p with
  | OpenAI => "openai/gpt-oss-20b"
  | _ => "llama3-8b-8192"
  end.

Definition anthropic_model : string := "claude-3-5-sonnet-20240620".
Definition anthropic_max_tokens : nat := 1024.
Definition cohere_model : string := "command-a-03-2025".

Definition error_prefix : string := "An error occurred: ".

(** ** Encoding the history *)

(** [{"role": m["role"], "content": m["content"]}] (lines 72 and 80). *)
Definition to_chat_message (m : pydict) : outcome exn chat_message :=
  obind (getitem m "role") (fun r =>
  obind (getitem m "content") (fun c =>
  Ok (mk_chat_message r c))).

(** [{"role": "USER" if msg["role"] == "user" else "CHATBOT",
      "message": msg["content"]}] (line 85). *)
Definition to_cohere_turn (m : pydict) : outcome exn cohere_turn :=
  obind (getitem m "role") (fun r =>
  obind (getitem m "content") (fun c =>
  Ok (mk_cohere_turn (if py_eq_str r "user" then "USER" else "CHATBOT") c))).

(** The request of each branch.  [messages] is the argument of the
    function, [hist] the value of [st.session_state.messages]. *)
Definition encode (p : provider) (messages hist : list pydict) : outcome exn request :=
  match p with
  | Gemini =>
      obind (list_last messages) (fun m =>
      obind (getitem m "parts") (fun parts =>
      Ok (GenerateContent gemini_model parts)))
  | OpenAI | Groq =>
      obind (omapM to_chat_message hist) (fun ms =>
      Ok (ChatCompletionsCreate ms (chat_model p)))
  | Anthropic =>
      obind (omapM to_chat_message hist) (fun ms =>
      Ok (MessagesCreate anthropic_model anthropic_max_tokens ms))
  | Cohere =>
      obind (omapM to_cohere_turn (list_but_last hist)) (fun chat_history =>
      obind (list_last hist) (fun m =>
      obind (getitem m "content") (fun prompt =>
      Ok (CohereChat prompt chat_history cohere_model))))
  end.

(** The reply each branch reads out of the response. *)
Definition decode (p : provider) : response -> outcome exn pyval :=
  match p with
  | Gemini | Cohere => response_text
  | OpenAI | Groq => first_choice_content
  | Anthropic => first_content_text
  end.

Section WithVendor.
Context `{Vendor}.

(** One branch: encode, call the vendor, decode. *)
Definition exchange (c : client) (p : provider) (messages hist : list pydict)
  : outcome exn pyval :=
  obind (encode p messages hist) (fun req =>
  obind (vendor_outcome (vendor_send c req)) (decode p)).

(** The handler of line 89-90. *)
Definition error_reply (e : exn) : pyval := PyStr (error_prefix ++ exn_str e).

Definition get_model_response (c : client) (provider_id : string)
           (messages : list pydict) : Script pyval :=
  ptry is_Exception
    (match provider_of_id provider_id with
     | Some Gemini => plift (exchange c Gemini messages messages)
     | Some p => let* hist := messages_get in plift (exchange c p messages hist)
     | None => pret PyNone
     end)
    (fun e => pret (error_reply e)).

(** The reply of a provider on a history, every exception turned into
    its error text: what [get_model_response] returns when [messages] is
    the stored history. *)
Definition model_reply (c : client) (p : provider) (hist : list pydict) : pyval :=
  match exchange c p hist hist with
  | Ok v => v
  | Raise e => error_reply e
  end.
End WithVendor.

(** ** What each branch sends *)

(** A message dict with the two keys the chat-completion branches read. *)
Definition role_content (m : pydict) : Prop :=
  is_Some (m !! "role") /\ is_Some (m !! "content").

(** The request message a history message becomes. *)
Definition chat_view (m : pydict) : chat_message :=
  mk_chat_message (dict_get m "role") (dict_get m "content").

Definition cohere_view (m : pydict) : cohere_turn :=
  mk_cohere_turn (if py_eq_str (dict_get m "role") "user" then "USER" else "CHATBOT")
                 (dict_get m "content").

Lemma getitem_dict_get (m : pydict) k : is_Some (m !! k) -> getitem m k = Ok (dict_get m k).
Proof. intros [v Hv]. unfold dict_get. rewrite Hv. by apply getitem_Some. Qed.

Lemma to_chat_message_ok m : role_content m -> to_chat_message m = Ok (chat_view m).
Proof.
  intros [Hr Hc]. unfold to_chat_message.
  by rewrite (getitem_dict_get _ _ Hr), (getitem_dict_get _ _ Hc).
Qed.

Lemma to_cohere_turn_ok m : role_content m -> to_cohere_turn m = Ok (cohere_view m).
Proof.
  intros [Hr Hc]. unfold to_cohere_turn.
  by rewrite (getitem_dict_get _ _ Hr), (getitem_dict_get _ _ Hc).
Qed.

Lemma omapM_chat hist :
  Forall role_content hist -> omapM to_chat_message hist = Ok (map chat_view hist).
Proof. rewrite Forall_forall. intros Hall. apply omapM_Ok_map. intros m Hm. by apply to_chat_message_ok, Hall. Qed.

(** C7: the OpenAI and Groq branches send the whole stored history, one
    [{role, content}] pair per message, in order and with the roles as
    stored, to the model of line 73. *)
Theorem encode_chat_completions (p : provider) (messages hist : list pydict) :
  p = OpenAI \/ p = Groq ->
  Forall role_content hist ->
  encode p messages hist = Ok (ChatCompletionsCreate (map chat_view hist) (chat_model p)).
Proof. intros Hp Hall. destruct Hp as [-> | ->]; cbn; by rewrite omapM_chat. Qed.

(** C15: the Anthropic branch sends the whole stored history like the
    chat-completion branches, with the model
    ["claude-3-5-sonnet-20240620"] and a budget of 1024 tokens. *)
Theorem encode_anthropic (messages hist : list pydict) :
  Forall role_content hist ->
  encode Anthropic messages hist =
    Ok (MessagesCreate "claude-3-5-sonnet-20240620" 1024 (map chat_view hist)).
Proof. intros Hall. cbn. by rewrite omapM_chat. Qed.

(** C6: the Cohere branch sends the last stored message's content as
    [message] and every earlier message as [chat_history], with the role
    ["user"] renamed ["USER"] and any other role ["CHATBOT"]. *)
Theorem encode_cohere (messages earlier : list pydict) (last_msg : pydict) :
  Forall role_content (earlier ++ [last_msg]) ->
  encode Cohere messages (earlier ++ [last_msg]) =
    Ok (CohereChat (dict_get last_msg "content") (map cohere_view earlier) "command-a-03-2025").
Proof.
  rewrite Forall_app, Forall_singleton. intros [Hall Hlast]. cbn.
  autorewrite with pysimpl.
  rewrite (omapM_Ok_map _ cohere_view).
  - cbn. by rewrite (getitem_dict_get _ _ (proj2 Hlast)).
  - rewrite Forall_forall in Hall. intros m Hm. by apply to_cohere_turn_ok, Hall.
Qed.

(** C14: the Gemini branch sends only the ["parts"] of the last message
    of its argument: the earlier turns are not sent. *)
Theorem encode_gemini (earlier : list pydict) (last_msg : pydict) (hist : list pydict)
        (parts : pyval) :
  last_msg !! "parts" = Some parts ->
  encode Gemini (earlier ++ [last_msg]) hist = Ok (GenerateContent "gemini-2.0-flash-lite" parts).
Proof. intros Hp. cbn. rewrite list_last_snoc. cbn. by rewrite (getitem_Some _ _ _ Hp). Qed.

(** ** Error containment *)

Lemma only_Exceptions_to_chat_message m : only_Exceptions (to_chat_message m).
Proof. unfold to_chat_message. eauto 6 with py. Qed.

Lemma only_Exceptions_to_cohere_turn m : only_Exceptions (to_cohere_turn m).
Proof. unfold to_cohere_turn. eauto 6 with py. Qed.

Lemma only_Exceptions_decode p r : only_Exceptions (decode p r).
Proof. destruct p; cbn; eauto with py. Qed.

#[export] Hint Resolve only_Exceptions_to_chat_message only_Exceptions_to_cohere_turn
  only_Exceptions_decode : py.

Lemma only_Exceptions_encode p messages hist : only_Exceptions (encode p messages hist).
Proof. destruct p; cbn; eauto 10 with py. Qed.

#[export] Hint Resolve only_Exceptions_encode : py.

Section Containment.
Context `{Vendor}.

Lemma only_Exceptions_exchange c p messages hist :
  only_Exceptions (exchange c p messages hist).
Proof. unfold exchange. eauto with py. Qed.

(** The body of the [try] never changes the world. *)
Lemma get_model_response_body_pure c id messages w :
  exists o, (match provider_of_id id with
             | Some Gemini => plift (exchange c Gemini messages messages)
             | Some p => let* hist := messages_get in plift (exchange c p messages hist)
             | None => pret PyNone
             end)%py w = (o, w) /\ only_Exceptions o.
Proof.
  destruct w as [[k p [ms|]] pg stop];
    destruct (provider_of_id id) as [[]|]; cbn;
    (eexists; split; [reflexivity|]);
    first [apply only_Exceptions_exchange | by intros ? [= <-] | done].
Qed.

Lemma get_model_response_total c id messages w :
  exists v, get_model_response c id messages w = (Ok v, w).
Proof.
  destruct (get_model_response_body_pure c id messages w) as ([a|e] & Hrun & Hexc);
    unfold get_model_response, ptry; rewrite Hrun; [by eexists|].
  rewrite (Hexc e eq_refl). by eexists.
Qed.
Lemma get_model_response_raises_only P c id messages :
  raises_only P (get_model_response c id messages).
Proof.
  intros w e w' Hr. destruct (get_model_response_total c id messages w) as [v Hv]. congruence.
Qed.
End Containment.

#[export] Hint Resolve get_model_response_raises_only : py.

(** C9: [get_model_response] never raises, whatever the provider id, the
    messages and the session state, and it changes neither the session
    state nor the page: every failure becomes the returned text. *)
Theorem get_model_response_never_raises `{Vendor} c id messages w :
  exists v, get_model_response c id messages w = (Ok v, w).
Proof. apply get_model_response_total. Qed.

Section Replies.
Context `{Vendor}.

(** The call of line 137: [messages] is the stored list itself, so every
    branch reads the same history, and the call returns [model_reply]. *)
Lemma get_model_response_run c p hist w :
  ss_messages (w_session w) = Some hist ->
  get_model_response c (provider_id p) hist w = (Ok (model_reply c p hist), w).
Proof.
  intros Hms. destruct w as [s pg stop]. unfold get_model_response, model_reply, ptry.
  rewrite provider_of_id_id. pose proof (only_Exceptions_exchange c p hist hist) as Hexc.
  destruct p; try rewrite (pbind_Ok _ _ _ _ _ (messages_get_run _ _ _ hist Hms));
    cbn; destruct (exchange _ _ _ _) as [v|e] eqn:Hx; try done;
    by rewrite (Hexc e eq_refl).
Qed.

(** C3: when the vendor call fails with a message, the reply of the turn
    is ["An error occurred: "] followed by that message, returned as a
    value: the failure does not escape [get_model_response]. *)
Theorem get_model_response_vendor_error c p hist w req msg :
  ss_messages (w_session w) = Some hist ->
  encode p hist hist = Ok req ->
  vendor_send c req = Raise msg ->
  get_model_response c (provider_id p) hist w =
    (Ok (PyStr ("An error occurred: " ++ msg)), w).
Proof.
  intros Hms He Hs. rewrite (get_model_response_run _ _ _ _ Hms).
  unfold model_reply, exchange. rewrite He. cbn. by rewrite Hs.
Qed.

(** C32: when the vendor answers but its response lacks what the branch
    reads (no [.text], an empty [choices] or [content] list), the reply
    of the turn is the error text of that failure, returned as a value:
    a decoding failure is handled as a transport failure (spec, section
    7). *)
Theorem get_model_response_decode_error c p hist w req r e :
  ss_messages (w_session w) = Some hist ->
  encode p hist hist = Ok req -> vendor_send c req = Ok r -> decode p r = Raise e ->
  get_model_response c (provider_id p) hist w = (Ok (error_reply e), w).
Proof.
  intros Hms He Hs Hd. rewrite (get_model_response_run _ _ _ _ Hms).
  unfold model_reply, exchange. rewrite He. cbn. rewrite Hs. cbn. by rewrite Hd.
Qed.

(** A message without ["content"] stops the chat-completion comprehension
    of lines 72 and 80 with [KeyError('content')]. *)
Lemma encode_missing_content p messages earlier m later :
  p = OpenAI \/ p = Groq \/ p = Anthropic ->
  Forall role_content earlier -> is_Some (m !! "role") -> m !! "content" = None ->
  encode p messages (earlier ++ m :: later) = Raise (KeyError "content").
Proof.
  intros Hp Hearlier [r Hr] Hc.
  assert (Hx : to_chat_message m = Raise (KeyError "content")).
  { unfold to_chat_message, getitem. by rewrite Hr, Hc. }
  assert (Hall : omapM to_chat_message (earlier ++ m :: later) = Raise (KeyError "content")).
  { by apply (omapM_app_Raise _ _ _ _ (map chat_view earlier)); [apply omapM_chat|]. }
  by destruct Hp as [->|[->| ->]]; cbn; rewrite Hall.
Qed.

(** C31: a history holding a message without ["content"] (a Gemini user
    message, stored with ["parts"]) makes the OpenAI, Groq and Anthropic
    branches answer the text ["An error occurred: 'content'"]: the
    [KeyError] of the comprehension becomes the reply, with Python's
    quoted key, and no request is sent. *)
Theorem model_reply_missing_content c p earlier m later :
  p = OpenAI \/ p = Groq \/ p = Anthropic ->
  Forall role_content earlier -> is_Some (m !! "role") -> m !! "content" = None ->
  model_reply c p (earlier ++ m :: later) = PyStr "An error occurred: 'content'".
Proof.
  intros Hp Hearlier Hr Hc. unfold model_reply, exchange.
  by rewrite (encode_missing_content p _ earlier m later Hp Hearlier Hr Hc).
Qed.

(** C26: for OpenAI, Groq, Anthropic and Cohere, [get_model_response]
    does not depend on its [messages] parameter: those branches read
    [st.session_state.messages] itself (lines 72, 80, 85, 86); only the
    Gemini branch reads the parameter (line 67). *)
Theorem get_model_response_ignores_messages c p messages messages' w :
  p <> Gemini ->
  get_model_response c (provider_id p) messages w = get_model_response c (provider_id p) messages' w.
Proof. intros Hp. unfold get_model_response. rewrite provider_of_id_id. by destruct p. Qed.
End Replies.

(** ** Witnesses on a concrete history *)

Definition ex_dict (role content : string) : pydict :=
  <["content" := PyStr content]> (<["role" := PyStr role]> ∅).

Definition ex_history : list pydict :=
  [ex_dict "user" "Hello"; ex_dict "assistant" "Hi there"; ex_dict "user" "Bye"].

(** A vendor whose every call fails with a quota error. *)
Definition quota_vendor : Vendor :=
  stub_vendor (fun _ _ => Ok tt) (fun _ => Raise "quota exceeded").

Lemma ex_history_role_content : Forall role_content ex_history.
Proof. repeat constructor; eexists; reflexivity. Qed.

Lemma encode_chat_completions_witness :
  (Groq = OpenAI \/ Groq = Groq) /\ Forall role_content ex_history /\
  encode Groq [] ex_history = Ok (ChatCompletionsCreate (map chat_view ex_history) (chat_model Groq)).
Proof.
  split; [by right|]. split; [apply ex_history_role_content|].
  apply (encode_chat_completions Groq [] ex_history); [by right | apply ex_history_role_content].
Defined.

Lemma encode_anthropic_witness :
  Forall role_content ex_history /\
  encode Anthropic [] ex_history =
    Ok (MessagesCreate "claude-3-5-sonnet-20240620" 1024 (map chat_view ex_history)).
Proof.
  split; [apply ex_history_role_content|].
  apply (encode_anthropic [] ex_history). apply ex_history_role_content.
Defined.

(** On the 3-turn history of the specification's example, the chat
    history has the two roles ["USER"; "CHATBOT"] and the message is the
    third turn's text. *)
Lemma encode_cohere_witness :
  Forall role_content (take 2 ex_history ++ [ex_dict "user" "Bye"]) /\
  encode Cohere [] (take 2 ex_history ++ [ex_dict "user" "Bye"]) =
    Ok (CohereChat (PyStr "Bye") [mk_cohere_turn "USER" (PyStr "Hello");
                                  mk_cohere_turn "CHATBOT" (PyStr "Hi there")]
                   "command-a-03-2025").
Proof.
  split; [apply ex_history_role_content|].
  apply (encode_cohere [] (take 2 ex_history) (ex_dict "user" "Bye")).
  apply ex_history_role_content.
Defined.

Lemma encode_gemini_witness :
  (<["parts" := PyList [PyStr "Bye"]]> (<["role" := PyStr "user"]> ∅) : pydict) !! "parts"
    = Some (PyList [PyStr "Bye"]) /\
  encode Gemini (take 2 ex_history ++ [<["parts" := PyList [PyStr "Bye"]]> (<["role" := PyStr "user"]> ∅)])
         ex_history = Ok (GenerateContent "gemini-2.0-flash-lite" (PyList [PyStr "Bye"])).
Proof.
  split; [reflexivity|]. by apply encode_gemini.
Defined.

Lemma get_model_response_vendor_error_witness :
  let w := mk_world (mk_session (Some "sk-test") (Some "openai") (Some ex_history)) [] in
  ss_messages (w_session w) = Some ex_history /\
  encode OpenAI ex_history ex_history = Ok (ChatCompletionsCreate (map chat_view ex_history) "openai/gpt-oss-20b") /\
  @get_model_response quota_vendor (mk_client OpenAI "sk-test") (provider_id OpenAI) ex_history w =
    (Ok (PyStr ("An error occurred: " ++ "quota exceeded")), w).
Proof.
  intros w. split; [reflexivity|]. split; [vm_compute; reflexivity|].
  apply (@get_model_response_vendor_error quota_vendor _ OpenAI ex_history w
           (ChatCompletionsCreate (map chat_view ex_history) "openai/gpt-oss-20b")
           "quota exceeded"); vm_compute; reflexivity.
Defined.

Lemma get_model_response_ignores_messages_witness :
  OpenAI <> Gemini /\
  @get_model_response quota_vendor (mk_client OpenAI "sk") (provider_id OpenAI) ex_history
    (mk_world (mk_session (Some "sk") (Some "openai") (Some ex_history)) []) =
  @get_model_response quota_vendor (mk_client OpenAI "sk") (provider_id OpenAI) []
    (mk_world (mk_session (Some "sk") (Some "openai") (Some ex_history)) []).
Proof. split; [discriminate|]. apply get_model_response_ignores_messages. discriminate. Defined.

(** A Gemini user message left in the history sent to OpenAI. *)
Lemma model_reply_missing_content_witness :
  let gm := <["parts" := PyList [PyStr "Hello"]]> (<["role" := PyStr "user"]> ∅) : pydict in
  Forall role_content [ex_dict "assistant" "Hi"] /\ is_Some (gm !! "role") /\ gm !! "content" = None /\
  @model_reply quota_vendor (mk_client OpenAI "sk") OpenAI ([ex_dict "assistant" "Hi"] ++ gm :: [])
    = PyStr "An error occurred: 'content'".
Proof.
  intros gm.
  assert (Hf : Forall role_content [ex_dict "assistant" "Hi"]).
  { repeat constructor; by eexists. }
  assert (Hr : is_Some (gm !! "role")) by (by eexists).
  assert (Hc : gm !! "content" = None) by reflexivity.
  split; [exact Hf|]. split; [exact Hr|]. split; [exact Hc|].
  apply model_reply_missing_content; [by left|exact Hf|exact Hr|exact Hc].
Defined.

(** A vendor library whose chat completions come back without choices. *)
Definition no_choices_vendor : Vendor :=
  stub_vendor (fun _ _ => Ok tt) (fun _ => Ok (RespChoices [])).

Lemma get_model_response_decode_error_witness :
  let hist := [ex_dict "user" "Hello"] in
  let w := mk_world (mk_session (Some "sk") (Some "groq") (Some hist)) [] in
  ss_messages (w_session w) = Some hist /\
  encode Groq hist hist = Ok (ChatCompletionsCreate [mk_chat_message (PyStr "user") (PyStr "Hello")] "llama3-8b-8192") /\
  @get_model_response no_choices_vendor (mk_client Groq "gk") (provider_id Groq) hist w =
    (Ok (error_reply list_index_error), w).
Proof.
  intros hist w. split; [reflexivity|]. split; [reflexivity|].
  apply (get_model_response_decode_error _ _ _ _
           (ChatCompletionsCreate [mk_chat_message (PyStr "user") (PyStr "Hello")] "llama3-8b-8192")
           (RespChoices [])); reflexivity.
Defined.
