(* ===== verification/Conversation.v ===== *)
(** * The abstract conversation of the specification

    The specification describes the conversation store as a list of
    turns, each a speaker (USER or ASSISTANT) and a text, independent of
    the vendor; [ask] appends the user's turn and the assistant's reply;
    and each provider variant encodes the conversation into its request
    (spec, sections 3 and 4.3).  This file states that contract over
    abstract turns, with no Python dict in sight; [Session] gives the
    concrete representation of a turn as a message dict and [Refinement]
    proves the script implements this contract.

    A user turn's text is the prompt, a string; an assistant turn's text
    is whatever the adapter returned, a Python value (a vendor may answer
    [None]). *)

From stdpp Require Import base list strings.
From S2P Require Import Prelude Python Registry Vendor.

Open Scope string_scope.
Open Scope list_scope.

Inductive turn : Type :=
| TUser (text : string)
| TAssistant (text : pyval).

Definition conversation : Type := list turn.

Definition turn_role (t : turn) : string :=
  match t with TUser _ => "user" | TAssistant _ => "assistant" end.

Definition turn_text (t : turn) : pyval :=
  match t with TUser u => PyStr u | TAssistant r => r end.

(** [ask]: the user's turn, then the assistant's reply, at the end. *)
Definition ask_spec (conv : conversation) (prompt : string) (reply : pyval) : conversation :=
  conv ++ [TUser prompt; TAssistant reply].

(** A conversation of complete exchanges: user, assistant, user, ... *)
Definition exchanges (pairs : list (string * pyval)) : conversation :=
  concat (map (fun '(u, r) => [TUser u; TAssistant r]) pairs).

(** A conversation of attempts: each user turn is followed by the
    assistant's reply, or by nothing when the reply was never stored.
    This is the invariant of section 3: turns alternate, except that a
    user turn may be followed by another user turn. *)
Definition attempts (asks : list (string * option pyval)) : conversation :=
  concat (map (fun '(u, r) => TUser u :: from_option (fun r => [TAssistant r]) [] r) asks).

Lemma exchanges_attempts pairs :
  exchanges pairs = attempts (map (fun '(u, r) => (u, Some r)) pairs).
Proof. induction pairs as [|[u r] pairs IH]; [done|]. unfold exchanges, attempts in *. cbn. by rewrite IH. Qed.

Lemma attempts_snoc asks u r :
  attempts (asks ++ [(u, r)]) = attempts asks ++ TUser u :: from_option (fun r => [TAssistant r]) [] r.
Proof. unfold attempts. rewrite map_app, concat_app. cbn. by rewrite app_nil_r. Qed.

(** In a conversation of attempts, every assistant turn comes right
    after a user turn. *)
Lemma attempts_lookup_assistant asks i r :
  attempts asks !! i = Some (TAssistant r) -> exists j u, i = S j /\ attempts asks !! j = Some (TUser u).
Proof.
  revert i. induction asks as [|[u [r'|]] asks IH]; intros i; [done| |]; cbn -[attempts];
    change (attempts ((?u, ?o) :: ?asks))
      with (TUser u :: from_option (fun r => [TAssistant r]) [] o ++ attempts asks).
  - destruct i as [|[|i]]; cbn; [done|by eauto|].
    intros (j & u' & -> & Hl)%IH. by exists (S (S j)), u'.
  - destruct i as [|i]; cbn; [done|]. intros (j & u' & -> & Hl)%IH. by exists (S j), u'.
Qed.

(** ** The encodings of section 4.3, on abstract turns *)

Definition spec_chat_message (t : turn) : chat_message :=
  mk_chat_message (PyStr (turn_role t)) (turn_text t).

Definition spec_cohere_turn (t : turn) : cohere_turn :=
  mk_cohere_turn (match t with TUser _ => "USER" | TAssistant _ => "CHATBOT" end) (turn_text t).

(** The request of each variant for a conversation whose last turn is
    the user's [prompt]: Gemini sends that text alone, OpenAI and Groq
    every turn as a role/content pair, Anthropic the same with a model
    and a budget of 1024 tokens, Cohere every earlier turn with renamed
    roles and the prompt as the message. *)
Definition spec_encode (p : provider) (earlier : conversation) (prompt : string) : request :=
  match p with
  | Gemini => GenerateContent "gemini-2.0-flash-lite" (PyList [PyStr prompt])
  | OpenAI => ChatCompletionsCreate (map spec_chat_message (earlier ++ [TUser prompt])) "openai/gpt-oss-20b"
  | Groq => ChatCompletionsCreate (map spec_chat_message (earlier ++ [TUser prompt])) "llama3-8b-8192"
  | Anthropic =>
      MessagesCreate "claude-3-5-sonnet-20240620" 1024 (map spec_chat_message (earlier ++ [TUser prompt]))
  | Cohere => CohereChat (PyStr prompt) (map spec_cohere_turn earlier) "command-a-03-2025"
  end.

