(* ===== verification/Session.v ===== *)
(** * The session controller: the script of [src/main.py] run by Streamlit

    One run of the script, statement by statement:
    - [page_setup] (lines 12-20): the page configuration, title and
      caption;
    - [sidebar] (lines 23-53): the header and select box are rendered,
      the provider chosen is looked up in [providers], the key input and
      the button are rendered; in [set_key_button], when "Set API Key"
      is pressed, an empty key is refused, otherwise the session state
      is cleared if a different provider was stored, the key and
      provider are stored, and [st.rerun()] ends the run;
    - [messages_init] (lines 58-59);
    - when a key and a provider are stored (line 93), the [try] block of
      lines 95-150: [init_client] (lines 96-106), [display_messages]
      (lines 109-119), the chat input and, when a prompt was submitted,
      [chat_turn] (lines 122-149); its handler (lines 152-153) renders any
      [Exception] as a client-initialisation error;
    - otherwise the info message of line 155.
    [run_page] is one user interaction: a run with the inputs of the
    page, and when that run asks for a rerun, the run Streamlit starts
    next, with the same select box and text input and the button
    released.  [run_page_at] is the same interaction when the user's
    next action stops it; the run lemmas with the suffix [_at] follow
    the stop point through each statement. *)

From stdpp Require Import base list strings gmap.
From S2P Require Import Prelude Python Registry Store Vendor Adapter Conversation.

Open Scope string_scope.
Open Scope list_scope.
Local Open Scope py_scope.

(** The values of the input widgets in a run: the select box, the text
    input, whether the button was pressed in this run, and the prompt
    submitted through the chat input, if any. *)
Record ui_input : Type := mk_input {
  in_provider_name : string;
  in_api_key : string;
  in_set_key : bool;
  in_prompt : option string
}.

(** The messages of lines 126, 128 and 146/149. *)
Definition user_message (provider_id prompt : string) : pydict :=
  if bool_decide (provider_id = "gemini")
  then <["parts" := PyList [PyStr prompt]]> (<["role" := PyStr "user"]> ∅)
  else <["content" := PyStr prompt]> (<["role" := PyStr "user"]> ∅).

Definition assistant_message (response : pyval) : pydict :=
  <["content" := response]> (<["role" := PyStr "assistant"]> ∅).

Definition failed_client_text : string :=
  "Failed to initialize the client. Please check your API key. Error: ".

Definition configure_info_text : string :=
  "Please configure your API key in the sidebar to start chatting.".

(** Lines 12-20: the page configuration, the title and the caption. *)
Definition app_title : string := "Multi-Provider Chatbot 🤖".

Definition page_head : list element :=
  [ElPageConfig app_title "🤖" "centered" "expanded";
   ElTitle app_title;
   ElCaption "Select a provider, enter your API key, and start chatting."].

Definition page_setup : Script unit := pfor emit page_head.

(** The label of the text input of line 39. *)
Definition api_key_label (selected_provider_name : string) : string :=
  "Enter your " ++ selected_provider_name ++ " API Key".

Definition chat_input_placeholder : string := "What would you like to ask?".

Section Script.
Context `{Vendor}.

(** Lines 41-53: the "Set API Key" button, once the provider id is
    known. *)
Definition set_key_button (inp : ui_input) (selected_provider : string) : Script unit :=
  if in_set_key inp then
    if bool_decide (in_api_key inp = "") then emit (ElSidebar (ElError "API key is required."))
    else
      let* s := get_session in
      (match ss_provider s with
       | Some p => if bool_decide (p <> selected_provider) then session_clear else pret tt
       | None => pret tt
       end) ;;;
      modify_session (set_api_key (in_api_key inp)) ;;;
      modify_session (set_provider selected_provider) ;;;
      emit (ElSidebar (ElSuccess (in_provider_name inp ++ " API key set successfully!")%string)) ;;;
      praise RerunRequest
  else pret tt.

(** Lines 23-53: the header and the select box are rendered before the
    lookup of line 37, the text input and the button after it. *)
Definition sidebar (inp : ui_input) : Script unit :=
  emit (ElSidebar (ElHeader "Configuration")) ;;;
  emit (ElSidebar (ElSelectbox "Choose an AI Provider:" provider_names)) ;;;
  let* selected_provider := plift (providers_getitem (in_provider_name inp)) in
  emit (ElSidebar (ElTextInput (api_key_label (in_provider_name inp)))) ;;;
  emit (ElSidebar (ElButton "Set API Key")) ;;;
  set_key_button inp selected_provider.

(** Lines 96-106: the if/elif chain builds the client of a known id;
    for an unknown id no branch runs and [client] stays unbound. *)
Definition init_client (provider_id api_key : string) : Script (option client) :=
  match provider_of_id provider_id with
  | Some p =>
      let* _ := plift (vendor_outcome (vendor_init p api_key)) in
      pret (Some (mk_client p api_key))
  | None => pret None
  end.

(** Lines 110-116: the text shown for a message. *)
Definition display_content (provider_id : string) (message : pydict) : outcome exn pyval :=
  let role := dict_get message "role" in
  if bool_decide (provider_id = "gemini") && py_eq_str role "user"
  then obind (getitem message "parts") index0
  else if py_eq_str role "user" || py_eq_str role "assistant"
  then getitem message "content"
  else Ok (PyStr "").

(** Lines 110-119, for one message. *)
Definition display_message (provider_id : string) (message : pydict) : Script unit :=
  let role := dict_get message "role" in
  let* content := plift (display_content provider_id message) in
  if truthy content
  then emit (ElChatMessage role) ;;; emit (ElMarkdown content)
  else pret tt.

(** Line 109. *)
Definition display_messages (provider_id : string) : Script unit :=
  let* ms := messages_get in pfor (display_message provider_id) ms.

(** Lines 124-149, once a non-empty prompt was submitted.  Both
    branches of lines 142-149 append the same dict. *)
Definition chat_turn (client_opt : option client) (provider_id prompt : string)
  : Script unit :=
  messages_append (user_message provider_id prompt) ;;;
  emit (ElChatMessage (PyStr "user")) ;;;
  emit (ElMarkdown (PyStr prompt)) ;;;
  emit (ElChatMessage (PyStr "assistant")) ;;;
  let* c := (match client_opt with
             | Some c => pret c
             | None => praise (NameError "client")
             end) in
  let* ms := messages_get in
  let* response := get_model_response c provider_id ms in
  emit (ElMarkdown response) ;;;
  messages_append (assistant_message response).

(** Lines 95-150: the body of the [try]; the chat input of line 122 is
    rendered once the transcript is. *)
Definition configured_body (inp : ui_input) (provider_id api_key : string) : Script unit :=
  let* client_opt := init_client provider_id api_key in
  display_messages provider_id ;;;
  emit (ElChatInput chat_input_placeholder) ;;;
  match in_prompt inp with
  | Some prompt => if bool_decide (prompt = "") then pret tt
                   else chat_turn client_opt provider_id prompt
  | None => pret tt
  end.

(** Lines 57-155. *)
Definition main_section (inp : ui_input) : Script unit :=
  messages_init ;;;
  let* s := get_session in
  match ss_api_key s, ss_provider s with
  | Some api_key, Some provider_id =>
      ptry is_Exception (configured_body inp provider_id api_key)
        (fun e => emit (ElError (failed_client_text ++ exn_str e)%string))
  | _, _ => emit (ElInfo configure_info_text)
  end.

(** The whole file, lines 12-155. *)
Definition script (inp : ui_input) : Script unit :=
  page_setup ;;; sidebar inp ;;; main_section inp.

(** The inputs of the run [st.rerun()] starts: the widgets keep their
    values, the button is released and no prompt is pending. *)
Definition rerun_input (inp : ui_input) : ui_input :=
  mk_input (in_provider_name inp) (in_api_key inp) false None.

(** What the user sees after an interaction: the session state, the
    page of the last run, and the exception that ended it, if any. *)
Record page : Type := mk_page {
  pg_session : session;
  pg_elements : list element;
  pg_uncaught : option exn
}.

Definition page_of (r : outcome exn unit * world) : page :=
  match r with
  | (Ok _, w) => mk_page (w_session w) (w_page w) None
  | (Raise e, w) => mk_page (w_session w) (w_page w) (Some e)
  end.

Definition run_page (inp : ui_input) (s : session) : page :=
  match script inp (mk_world s []) with
  | (Raise RerunRequest, w) => page_of (script (rerun_input inp) (mk_world (w_session w) []))
  | r => page_of r
  end.

(** An interaction that the user's next action may stop: [stop] is the
    stop point of its first run, and the run [st.rerun()] starts keeps
    what is left of it.  A stopped run ends with [StopRequest], with the
    session state it reached. *)
Definition run_page_at (inp : ui_input) (s : session) (stop : option nat) : page :=
  match script inp (mk_world_at s [] stop) with
  | (Raise RerunRequest, w) => page_of (script (rerun_input inp) (mk_world_at (w_session w) [] (w_stop w)))
  | r => page_of r
  end.
End Script.

(** ** Turns as message dicts *)

(** How the script stores an abstract turn under a provider: the user
    message of lines 125-128 and the assistant message of lines 146/148. *)
Definition turn_message (provider_id : string) (t : turn) : pydict :=
  match t with
  | TUser u => user_message provider_id u
  | TAssistant r => assistant_message r
  end.

(** The elements rendered for a turn: its bubble, unless its text is
    empty or [None] (line 117). *)
Definition render_turn (t : turn) : list element :=
  if truthy (turn_text t)
  then [ElChatMessage (PyStr (turn_role t)); ElMarkdown (turn_text t)]
  else [].

Lemma user_message_role pid u : dict_get (user_message pid u) "role" = PyStr "user".
Proof. unfold user_message. by case_bool_decide. Qed.

Lemma assistant_message_role r : dict_get (assistant_message r) "role" = PyStr "assistant".
Proof. reflexivity. Qed.

Lemma turn_message_role pid t : dict_get (turn_message pid t) "role" = PyStr (turn_role t).
Proof. destruct t; [apply user_message_role | apply assistant_message_role]. Qed.

Lemma display_content_turn pid t :
  display_content pid (turn_message pid t) = Ok (turn_text t).
Proof.
  unfold display_content. rewrite turn_message_role.
  destruct t as [u|r]; unfold turn_message, user_message; cbn;
    repeat case_bool_decide; cbn; try congruence; try tauto; reflexivity.
Qed.

Section Display.
Context `{Vendor}.

Lemma display_message_turn_at pid t s pg stop :
  stop_after (length (render_turn t)) stop ->
  display_message pid (turn_message pid t) (mk_world_at s pg stop) =
    (Ok tt, mk_world_at s (pg ++ render_turn t) (countdown (length (render_turn t)) stop)).
Proof.
  unfold display_message. rewrite turn_message_role, display_content_turn. cbn [pbind plift].
  unfold render_turn. destruct (truthy (turn_text t)); cbn [length].
  - intros Hst. apply (stop_after_app 1 1) in Hst as [H1 H2].
    rewrite (pbind_Ok _ _ _ _ _ (emit_run_at _ _ _ _ H1)), (emit_run_at _ _ _ _ H2).
    by rewrite countdown_countdown, <-app_assoc.
  - intros _. by rewrite app_nil_r, countdown_0.
Qed.

Lemma display_messages_render_at pid (conv : conversation) s pg stop :
  ss_messages s = Some (map (turn_message pid) conv) ->
  let els := concat (map render_turn conv) in
  stop_after (length els) stop ->
  display_messages pid (mk_world_at s pg stop) =
    (Ok tt, mk_world_at s (pg ++ els) (countdown (length els) stop)).
Proof.
  intros Hms els. unfold display_messages.
  rewrite (pbind_Ok _ _ _ _ _ (messages_get_run _ _ _ _ Hms)). subst els. clear Hms.
  revert pg stop. induction conv as [|t conv IH]; intros pg stop; cbn [map concat pfor].
  - intros _. by rewrite app_nil_r, countdown_0.
  - rewrite length_app. intros Hst. apply stop_after_app in Hst as [H1 H2].
    rewrite (pbind_Ok _ _ _ _ _ (display_message_turn_at pid t s pg stop H1)), (IH _ _ H2).
    by rewrite countdown_countdown, app_assoc.
Qed.

Lemma display_messages_render pid (conv : conversation) s pg :
  ss_messages s = Some (map (turn_message pid) conv) ->
  display_messages pid (mk_world s pg) =
    (Ok tt, mk_world s (pg ++ concat (map render_turn conv))).
Proof. intros Hms. by apply (display_messages_render_at pid conv s pg None Hms). Qed.
End Display.

(** ** The chat turn *)

Section ChatTurn.
Context `{Vendor}.

(** The elements rendered for a chat turn (lines 132-138). *)
Definition turn_elements (prompt : string) (reply : pyval) : list element :=
  [ElChatMessage (PyStr "user"); ElMarkdown (PyStr prompt);
   ElChatMessage (PyStr "assistant"); ElMarkdown reply].

Lemma chat_turn_run_at p key prompt s pg stop hist :
  ss_messages s = Some hist -> stop_after 4 stop ->
  let um := user_message (provider_id p) prompt in
  let reply := model_reply (mk_client p key) p (hist ++ [um]) in
  chat_turn (Some (mk_client p key)) (provider_id p) prompt (mk_world_at s pg stop) =
    (Ok tt, mk_world_at (set_messages (hist ++ [um; assistant_message reply]) s)
                        (pg ++ turn_elements prompt reply) (countdown 4 stop)).
Proof.
  intros Hms Hst um reply. unfold chat_turn.
  apply (stop_after_app 1 3) in Hst as [H1 Hst]. apply (stop_after_app 1 2) in Hst as [H2 Hst].
  apply (stop_after_app 1 1) in Hst as [H3 H4].
  rewrite (pbind_Ok _ _ _ _ _ (messages_append_run _ _ _ _ _ Hms)).
  rewrite (pbind_Ok _ _ _ _ _ (emit_run_at _ _ _ _ H1)), (pbind_Ok _ _ _ _ _ (emit_run_at _ _ _ _ H2)).
  rewrite (pbind_Ok _ _ _ _ _ (emit_run_at _ _ _ _ H3)). cbn [pbind pret].
  erewrite pbind_Ok; [|apply messages_get_run; reflexivity].
  erewrite pbind_Ok; [|apply get_model_response_run; reflexivity].
  rewrite (pbind_Ok _ _ _ _ _ (emit_run_at _ _ _ _ H4)).
  erewrite messages_append_run; [|reflexivity].
  rewrite !countdown_countdown. by rewrite <-!app_assoc.
Qed.

Lemma chat_turn_run p key prompt s pg hist :
  ss_messages s = Some hist ->
  let um := user_message (provider_id p) prompt in
  let reply := model_reply (mk_client p key) p (hist ++ [um]) in
  chat_turn (Some (mk_client p key)) (provider_id p) prompt (mk_world s pg) =
    (Ok tt, mk_world (set_messages (hist ++ [um; assistant_message reply]) s)
                     (pg ++ turn_elements prompt reply)).
Proof. intros Hms. by apply (chat_turn_run_at p key prompt s pg None hist Hms). Qed.
End ChatTurn.

(** ** Runs of the script *)

Lemma set_messages_history s ms : ss_messages s = Some ms -> set_messages (history s) s = s.
Proof. destruct s as [k p ms']. cbn. by intros ->. Qed.

(** The widgets of the sidebar, for the selected provider name. *)
Definition sidebar_widgets (selected_provider_name : string) : list element :=
  map ElSidebar
    [ElHeader "Configuration"; ElSelectbox "Choose an AI Provider:" provider_names;
     ElTextInput (api_key_label selected_provider_name); ElButton "Set API Key"].

Lemma pfor_emit_run_at (els : list element) s pg stop :
  stop_after (length els) stop ->
  pfor emit els (mk_world_at s pg stop) = (Ok tt, mk_world_at s (pg ++ els) (countdown (length els) stop)).
Proof.
  revert pg stop. induction els as [|el els IH]; intros pg stop; cbn [pfor length].
  - intros _. by rewrite app_nil_r, countdown_0.
  - intros Hst. apply (stop_after_app 1) in Hst as [H1 H2].
    rewrite (pbind_Ok _ _ _ _ _ (emit_run_at _ _ _ _ H1)), (IH _ _ H2).
    by rewrite countdown_countdown, <-app_assoc.
Qed.

Lemma pfor_emit_run (els : list element) s pg :
  pfor emit els (mk_world s pg) = (Ok tt, mk_world s (pg ++ els)).
Proof. by apply (pfor_emit_run_at els s pg None). Qed.

Section Runs.
Context `{Vendor}.

(** Every run starts with the page configuration, the title and the
    caption. *)
Lemma script_run_at inp s stop :
  stop_after 3 stop ->
  script inp (mk_world_at s [] stop) = (sidebar inp ;;; main_section inp) (mk_world_at s page_head (countdown 3 stop)).
Proof. intros Hst. unfold script, page_setup. by rewrite (pbind_Ok _ _ _ _ _ (pfor_emit_run_at page_head _ _ _ Hst)). Qed.

Lemma script_run inp s :
  script inp (mk_world s []) = (sidebar inp ;;; main_section inp) (mk_world s page_head).
Proof. by apply (script_run_at inp s None). Qed.

(** Once the provider name resolves, the sidebar renders its widgets and
    runs the button's block. *)
Lemma sidebar_run_at inp s pg stop id :
  providers_getitem (in_provider_name inp) = Ok id -> stop_after 4 stop ->
  sidebar inp (mk_world_at s pg stop) =
    set_key_button inp id (mk_world_at s (pg ++ sidebar_widgets (in_provider_name inp)) (countdown 4 stop)).
Proof.
  intros Hid Hst. unfold sidebar.
  apply (stop_after_app 1 3) in Hst as [H1 Hst]. apply (stop_after_app 1 2) in Hst as [H2 Hst].
  apply (stop_after_app 1 1) in Hst as [H3 H4].
  rewrite (pbind_Ok _ _ _ _ _ (emit_run_at _ _ _ _ H1)), (pbind_Ok _ _ _ _ _ (emit_run_at _ _ _ _ H2)).
  unfold pbind at 1. cbn [plift]. rewrite Hid.
  rewrite (pbind_Ok _ _ _ _ _ (emit_run_at _ _ _ _ H3)), (pbind_Ok _ _ _ _ _ (emit_run_at _ _ _ _ H4)).
  by rewrite !countdown_countdown, <-!app_assoc.
Qed.

Lemma sidebar_run inp s pg id :
  providers_getitem (in_provider_name inp) = Ok id ->
  sidebar inp (mk_world s pg) = set_key_button inp id (mk_world s (pg ++ sidebar_widgets (in_provider_name inp))).
Proof. intros Hid. by apply (sidebar_run_at inp s pg None id Hid). Qed.

(** Without a button press the sidebar only renders its widgets. *)
Lemma sidebar_idle_at inp s pg stop :
  in_set_key inp = false -> in_provider_name inp ∈ provider_names -> stop_after 4 stop ->
  sidebar inp (mk_world_at s pg stop) =
    (Ok tt, mk_world_at s (pg ++ sidebar_widgets (in_provider_name inp)) (countdown 4 stop)).
Proof.
  intros Hb Hname Hst. destruct (providers_getitem_total _ Hname) as (id & Hid & _).
  rewrite (sidebar_run_at _ _ _ _ _ Hid Hst). unfold set_key_button. by rewrite Hb.
Qed.

Lemma sidebar_idle inp s pg :
  in_set_key inp = false -> in_provider_name inp ∈ provider_names ->
  sidebar inp (mk_world s pg) = (Ok tt, mk_world s (pg ++ sidebar_widgets (in_provider_name inp))).
Proof. intros Hb Hname. by apply (sidebar_idle_at inp s pg None). Qed.

Lemma init_client_ok p key w :
  vendor_init p key = Ok tt ->
  init_client (provider_id p) key w = (Ok (Some (mk_client p key)), w).
Proof. intros Hi. unfold init_client. rewrite provider_of_id_id. cbn. by rewrite Hi. Qed.

(** The configured part of a run with a prompt, from a stored
    conversation: the transcript, then the chat turn. *)
Lemma configured_body_chat_at inp p key conv prompt s pg stop :
  in_prompt inp = Some prompt -> prompt <> "" ->
  ss_messages s = Some (map (turn_message (provider_id p)) conv) ->
  vendor_init p key = Ok tt ->
  let els := concat (map render_turn conv) in
  stop_after (length els + 1 + 4) stop ->
  let hist := map (turn_message (provider_id p)) conv ++ [user_message (provider_id p) prompt] in
  let reply := model_reply (mk_client p key) p hist in
  configured_body inp (provider_id p) key (mk_world_at s pg stop) =
    (Ok tt, mk_world_at (set_messages (hist ++ [assistant_message reply]) s)
                        (pg ++ els ++ ElChatInput chat_input_placeholder :: turn_elements prompt reply)
                        (countdown (length els + 1 + 4) stop)).
Proof.
  intros Hp Hne Hms Hi els Hst hist reply. unfold configured_body.
  apply stop_after_app in Hst as [Hst H4]. apply stop_after_app in Hst as [H0 H1].
  rewrite (pbind_Ok _ _ _ _ _ (init_client_ok _ _ _ Hi)).
  rewrite (pbind_Ok _ _ _ _ _ (display_messages_render_at _ _ _ _ _ Hms H0)).
  rewrite (pbind_Ok _ _ _ _ _ (emit_run_at _ _ _ _ H1)).
  rewrite Hp, countdown_countdown. case_bool_decide; [done|].
  rewrite (chat_turn_run_at p key prompt _ _ _ _ Hms H4).
  rewrite !countdown_countdown. unfold hist, reply. by rewrite <-!app_assoc.
Qed.

Lemma configured_body_chat inp p key conv prompt s pg :
  in_prompt inp = Some prompt -> prompt <> "" ->
  ss_messages s = Some (map (turn_message (provider_id p)) conv) ->
  vendor_init p key = Ok tt ->
  let hist := map (turn_message (provider_id p)) conv ++ [user_message (provider_id p) prompt] in
  let reply := model_reply (mk_client p key) p hist in
  configured_body inp (provider_id p) key (mk_world s pg) =
    (Ok tt, mk_world (set_messages (hist ++ [assistant_message reply]) s)
                     (pg ++ concat (map render_turn conv) ++
                      ElChatInput chat_input_placeholder :: turn_elements prompt reply)).
Proof. intros Hp Hne Hms Hi. by apply (configured_body_chat_at inp p key conv prompt s pg None). Qed.

Lemma run_page_chat_eq inp s p key conv prompt :
  in_set_key inp = false ->
  in_provider_name inp ∈ provider_names ->
  in_prompt inp = Some prompt -> prompt <> "" ->
  ss_api_key s = Some key -> ss_provider s = Some (provider_id p) ->
  ss_messages s = Some (map (turn_message (provider_id p)) conv) ->
  vendor_init p key = Ok tt ->
  let hist := map (turn_message (provider_id p)) conv ++ [user_message (provider_id p) prompt] in
  let reply := model_reply (mk_client p key) p hist in
  run_page inp s =
    mk_page (set_messages (hist ++ [assistant_message reply]) s)
            (page_head ++ sidebar_widgets (in_provider_name inp) ++ concat (map render_turn conv) ++
             ElChatInput chat_input_placeholder :: turn_elements prompt reply) None.
Proof.
  intros Hb Hname Hp Hne Hk Hprov Hms Hi hist reply.
  unfold run_page. rewrite script_run.
  rewrite (pbind_Ok _ _ _ _ _ (sidebar_idle _ _ _ Hb Hname)).
  unfold main_section. rewrite (pbind_Ok _ _ _ _ _ (messages_init_run _ _ _)). cbn.
  rewrite (set_messages_history _ _ Hms), Hk, Hprov.
  rewrite (ptry_Ok _ _ _ _ _ _ (configured_body_chat inp p key conv prompt
             s (page_head ++ sidebar_widgets (in_provider_name inp)) Hp Hne Hms Hi)).
  cbn. reflexivity.
Qed.

(** C1: a prompt submitted to a configured session, whose client can be
    built, appends exactly two messages to the stored history, the
    user's message and then the assistant's message carrying the
    adapter's reply on the history that ends with the user's message;
    the page shows the transcript and the new exchange, and the run
    ends normally. *)
Theorem run_page_chat inp s p key conv prompt :
  in_set_key inp = false ->
  in_provider_name inp ∈ provider_names ->
  in_prompt inp = Some prompt -> prompt <> "" ->
  ss_api_key s = Some key -> ss_provider s = Some (provider_id p) ->
  ss_messages s = Some (map (turn_message (provider_id p)) conv) ->
  vendor_init p key = Ok tt ->
  let hist := map (turn_message (provider_id p)) conv ++ [user_message (provider_id p) prompt] in
  let reply := model_reply (mk_client p key) p hist in
  run_page inp s =
    mk_page (set_messages (hist ++ [assistant_message reply]) s)
            (page_head ++ sidebar_widgets (in_provider_name inp) ++ concat (map render_turn conv) ++
             ElChatInput chat_input_placeholder :: turn_elements prompt reply) None.
Proof. apply run_page_chat_eq. Qed.
(** C37: a rerun of a configured session without a press and without a
    prompt, whose client can be built, shows the page head, the sidebar,
    the whole stored conversation in order (each turn with its role,
    empty texts skipped) and the chat input, changes nothing, and ends
    normally. *)
Theorem run_page_transcript inp s p key conv :
  in_set_key inp = false -> in_provider_name inp ∈ provider_names -> in_prompt inp = None ->
  ss_api_key s = Some key -> ss_provider s = Some (provider_id p) ->
  ss_messages s = Some (map (turn_message (provider_id p)) conv) ->
  vendor_init p key = Ok tt ->
  run_page inp s =
    mk_page s (page_head ++ sidebar_widgets (in_provider_name inp) ++ concat (map render_turn conv) ++
               [ElChatInput chat_input_placeholder]) None.
Proof.
  intros Hb Hname Hp Hk Hprov Hms Hi.
  unfold run_page. rewrite script_run.
  rewrite (pbind_Ok _ _ _ _ _ (sidebar_idle _ _ _ Hb Hname)).
  unfold main_section. rewrite (pbind_Ok _ _ _ _ _ (messages_init_run _ _ _)). cbn.
  rewrite (set_messages_history _ _ Hms), Hk, Hprov.
  unfold ptry, configured_body.
  rewrite (pbind_Ok _ _ _ _ _ (init_client_ok _ _ _ Hi)).
  rewrite (pbind_Ok _ _ _ _ _ (display_messages_render _ conv _ _ Hms)). cbn. rewrite Hp. cbn.
  reflexivity.
Qed.
End Runs.

(** The scenario of the specification: with the OpenAI provider and the
    key ["sk-test"] set, asking ["Hello"] of a vendor that answers
    ["Hi there"] leaves the history [[{user, Hello}; {assistant, Hi there}]]. *)
Lemma run_page_chat_witness :
  pg_session (@run_page (fixed_reply_vendor "Hi there")
                (mk_input "OpenAI" "sk-test" false (Some "Hello"))
                (mk_session (Some "sk-test") (Some "openai") (Some []))) =
    mk_session (Some "sk-test") (Some "openai")
      (Some [ex_dict "user" "Hello"; ex_dict "assistant" "Hi there"]).
Proof.
  rewrite (@run_page_chat (fixed_reply_vendor "Hi there") _ _ OpenAI "sk-test" [] "Hello");
    try reflexivity; try done; by apply list_elem_of_In; cbn; tauto.
Defined.

(** ** Frame lemmas of the configured body *)

Lemma only_Exceptions_display_content pid m : only_Exceptions (display_content pid m).
Proof.
  unfold display_content.
  destruct (_ && _); [|destruct (_ || _)]; eauto with py.
Qed.

#[export] Hint Resolve only_Exceptions_display_content : py.

Section Frames.
Context `{Vendor}.

Lemma init_client_frame pid key :
  (forall T (f : world -> T), preserves f (init_client pid key)) /\
  raises_only is_Exception (init_client pid key).
Proof.
  unfold init_client. destruct (provider_of_id pid); split; frame_split; eauto with py.
Qed.

Lemma display_messages_frame pid :
  preserves w_session (display_messages pid) /\
  raises_only is_Exception_or_stop (display_messages pid).
Proof.
  unfold display_messages, display_message.
  split; frame_split; destruct (truthy _); frame_split.
Qed.

Lemma get_model_response_grows c id ms : grows w_page (get_model_response c id ms).
Proof.
  unfold get_model_response. frame_split.
  destruct (provider_of_id id) as [[]|]; frame_split.
Qed.

(** A run of the main part only appends to the page. *)
Lemma main_section_grows inp : grows w_page (main_section inp).
Proof.
  unfold main_section, configured_body, init_client, display_messages, display_message,
    chat_turn.
  frame_split. all: repeat (case_match; frame_split).
  all: eauto using get_model_response_grows with py.
Qed.

(** Without a prompt, the configured body only reads the session state
    and raises only what its handler catches or the stop. *)
Lemma configured_body_idle_frame inp pid key :
  in_prompt inp = None ->
  preserves w_session (configured_body inp pid key) /\
  raises_only is_Exception_or_stop (configured_body inp pid key).
Proof.
  intros Hp. unfold configured_body. rewrite Hp.
  destruct (init_client_frame pid key) as [Hip Hie], (display_messages_frame pid) as [Hdp Hde].
  split; frame_split; first [apply Hip | apply Hdp | apply Hde | eauto with py].
Qed.

Lemma chat_turn_raises_only c pid prompt :
  raises_only is_Exception_or_stop (chat_turn c pid prompt).
Proof.
  unfold chat_turn. frame_split. destruct c; frame_split; by intros ? [= <-].
Qed.

Lemma configured_body_raises_only inp pid key :
  raises_only is_Exception_or_stop (configured_body inp pid key).
Proof.
  unfold configured_body. destruct (init_client_frame pid key) as [_ Hie].
  destruct (display_messages_frame pid) as [_ Hde].
  frame_split; first [apply Hde | repeat (case_match; frame_split)].
Qed.

(** The main part raises nothing but the stop: every [Exception] of the
    configured part is caught. *)
Lemma main_section_raises_stop inp : raises_only is_stop (main_section inp).
Proof.
  unfold main_section. frame_split. repeat case_match; frame_split.
  apply raises_only_ptry_or; [apply configured_body_raises_only|intros; by apply emit_raises_only].
Qed.

(** From a world without a stop request, the main part renders as the
    code says and raises nothing. *)
Lemma main_section_stop_free inp : stop_free (main_section inp).
Proof.
  unfold main_section, configured_body, init_client, display_messages, display_message,
    chat_turn.
  stop_split. all: apply (stop_free_frame is_Exception); [reflexivity|..]; frame_split.
Qed.

Lemma main_section_ok inp s pg : exists w', main_section inp (mk_world s pg) = (Ok tt, w') /\ w_stop w' = None.
Proof.
  destruct (main_section inp (mk_world s pg)) as [[[]|e] w'] eqn:Hm;
    destruct (main_section_stop_free inp _ _ _ Hm eq_refl) as [Hw' He]; [by eexists|].
  pose proof (main_section_raises_stop inp _ _ _ Hm). by destruct e.
Qed.

(** A run of the main part without a prompt creates [messages] when it
    is missing and changes nothing else in the session state. *)
Lemma main_section_idle inp s pg :
  in_prompt inp = None ->
  exists pg', main_section inp (mk_world s pg) = (Ok tt, mk_world (set_messages (history s) s) pg').
Proof.
  intros Hp. destruct (main_section_ok inp s pg) as ([s' pg' stop'] & Hm & Hw). cbn in Hw. subst stop'.
  exists pg'. rewrite Hm. do 2 f_equal. revert Hm. unfold main_section.
  rewrite (pbind_Ok _ _ _ _ _ (messages_init_run _ _ _)). cbn.
  destruct (ss_api_key s) as [key|], (ss_provider s) as [pid|]; cbn; try by intros [= <-].
  destruct (configured_body_idle_frame inp pid key Hp) as [Hpres _].
  intros Hrun. apply (preserves_ptry w_session _ _ _ Hpres (fun _ => emit_preserves _) _ _ _ Hrun).
Qed.
End Frames.

(** ** Setting the key *)

Section SetKey.
Context `{Vendor}.

(** The session the sidebar leaves before the rerun (lines 46-51). *)
Definition keyed_session (id key : string) (s : session) : session :=
  set_provider id (set_api_key key
    (match ss_provider s with
     | Some p => if bool_decide (p <> id) then empty_session else s
     | None => s
     end)).

Lemma sidebar_set_key inp s pg id :
  in_set_key inp = true -> in_api_key inp <> "" ->
  providers_getitem (in_provider_name inp) = Ok id ->
  exists pg', sidebar inp (mk_world s pg) =
    (Raise RerunRequest, mk_world (keyed_session id (in_api_key inp) s) pg').
Proof.
  intros Hb Hk Hid. rewrite (sidebar_run _ _ _ _ Hid). unfold set_key_button. rewrite Hb.
  case_bool_decide; [done|]. unfold keyed_session. cbn.
  destruct (ss_provider s) as [p|]; [case_bool_decide|]; cbn; by eexists.
Qed.

(** The button block, wherever the run is stopped: the session state
    is untouched, or, after a press with a non-empty key, it is the
    keyed session (the stop can only come at the success message, once
    the key and provider are stored). *)
Lemma set_key_button_effect inp id w o w' :
  set_key_button inp id w = (o, w') ->
  w_session w' = w_session w \/
  (in_set_key inp = true /\ in_api_key inp <> "" /\
   w_session w' = keyed_session id (in_api_key inp) (w_session w)).
Proof.
  unfold set_key_button. destruct (in_set_key inp); [|intros [= _ <-]; by left].
  case_bool_decide as Hk; [intros Hr; left; exact (emit_preserves _ _ _ _ Hr)|].
  destruct w as [s pg stop]. unfold keyed_session. cbn.
  destruct (ss_provider s) as [p|]; [case_bool_decide|]; cbn;
    destruct stop as [[|n]|]; intros [= _ <-]; by right.
Qed.

(** A press of "Set API Key" with a non-empty key: the rerun's page
    ends normally with the keyed session and its history. *)
Lemma run_page_set_key inp s id :
  in_set_key inp = true -> in_api_key inp <> "" ->
  providers_getitem (in_provider_name inp) = Ok id ->
  exists els, run_page inp s =
    mk_page (set_messages (history (keyed_session id (in_api_key inp) s))
                          (keyed_session id (in_api_key inp) s)) els None.
Proof.
  intros Hb Hk Hid. unfold run_page. rewrite script_run.
  destruct (sidebar_set_key inp s page_head id Hb Hk Hid) as [pg Hsb].
  rewrite (pbind_Raise _ _ _ _ _ Hsb), script_run. unfold rerun_input. cbn.
  rewrite (pbind_Ok _ _ _ _ _ (sidebar_idle (mk_input _ _ false None) _ _ eq_refl
             (providers_getitem_name _ _ Hid))). cbn [w_session w_page in_provider_name].
  destruct (main_section_idle (mk_input (in_provider_name inp) (in_api_key inp) false None)
              (keyed_session id (in_api_key inp) s) (page_head ++ sidebar_widgets (in_provider_name inp)) eq_refl) as [pg' ->].
  by eexists.
Qed.

(** C4: pressing "Set API Key" with a non-empty key for a provider other
    than the stored one empties the conversation: after the rerun the
    session holds the new key, the new provider and an empty history,
    and the page ends normally. *)
Theorem set_key_other_provider_clears inp s id old :
  in_set_key inp = true -> in_api_key inp <> "" ->
  providers_getitem (in_provider_name inp) = Ok id ->
  ss_provider s = Some old -> old <> id ->
  pg_session (run_page inp s) = mk_session (Some (in_api_key inp)) (Some id) (Some []) /\
  pg_uncaught (run_page inp s) = None.
Proof.
  intros Hb Hk Hid Hold Hne.
  destruct (run_page_set_key inp s id Hb Hk Hid) as [els ->]. cbn.
  unfold keyed_session. rewrite Hold. by case_bool_decide.
Qed.

(** C8: pressing "Set API Key" for the provider already stored keeps
    the conversation, even when the key differs: only the key is
    replaced. *)
Theorem set_key_same_provider_keeps inp s id :
  in_set_key inp = true -> in_api_key inp <> "" ->
  providers_getitem (in_provider_name inp) = Ok id ->
  ss_provider s = Some id ->
  pg_session (run_page inp s) = mk_session (Some (in_api_key inp)) (Some id) (Some (history s)) /\
  pg_uncaught (run_page inp s) = None.
Proof.
  intros Hb Hk Hid Hold.
  destruct (run_page_set_key inp s id Hb Hk Hid) as [els ->]. cbn.
  unfold keyed_session. rewrite Hold. by case_bool_decide.
Qed.

Lemma sidebar_empty_key inp s pg :
  in_set_key inp = true -> in_api_key inp = "" ->
  in_provider_name inp ∈ provider_names ->
  sidebar inp (mk_world s pg) =
    (Ok tt, mk_world s (pg ++ sidebar_widgets (in_provider_name inp) ++
                        [ElSidebar (ElError "API key is required.")])).
Proof.
  intros Hb Hk Hname. destruct (providers_getitem_total _ Hname) as (id & Hid & _).
  rewrite (sidebar_run _ _ _ _ Hid). unfold set_key_button. rewrite Hb, Hk.
  case_bool_decide; [|done]. rewrite emit_run. cbn. by rewrite <-app_assoc.
Qed.

(** C12: pressing "Set API Key" with an empty key shows the error
    "API key is required." right under the sidebar's widgets, does not
    rerun, and changes nothing in the session state but the creation of
    a missing history. *)
Theorem set_key_empty_rejected inp s :
  in_set_key inp = true -> in_api_key inp = "" ->
  in_provider_name inp ∈ provider_names -> in_prompt inp = None ->
  exists els, run_page inp s =
    mk_page (set_messages (history s) s)
            (page_head ++ sidebar_widgets (in_provider_name inp) ++
             ElSidebar (ElError "API key is required.") :: els) None.
Proof.
  intros Hb Hk Hname Hp. unfold run_page. rewrite script_run.
  rewrite (pbind_Ok _ _ _ _ _ (sidebar_empty_key inp _ _ Hb Hk Hname)).
  destruct (main_section_idle inp s (page_head ++ sidebar_widgets (in_provider_name inp) ++
              [ElSidebar (ElError "API key is required.")]) Hp) as [pg Hm].
  destruct (main_section_grows inp _ _ _ Hm) as [els Hels].
  rewrite Hm. cbn in *. subst pg. exists els. by rewrite <-?app_assoc.
Qed.
End SetKey.

(** ** Client construction failure and uncaught exceptions *)

Section Failures.
Context `{Vendor}.

(** C11: when the vendor refuses to build the client of the stored
    provider, the page shows only "Failed to initialize the client"
    followed by the vendor's message (no transcript, no chat input),
    the session state is unchanged, and a prompt among the inputs of
    that run is not stored. *)
Theorem run_page_client_failure inp s p key msg :
  in_set_key inp = false -> in_provider_name inp ∈ provider_names ->
  ss_api_key s = Some key -> ss_provider s = Some (provider_id p) ->
  is_Some (ss_messages s) ->
  vendor_init p key = Raise msg ->
  run_page inp s =
    mk_page s (page_head ++ sidebar_widgets (in_provider_name inp) ++
               [ElError (failed_client_text ++ msg)%string]) None.
Proof.
  intros Hb Hname Hk Hprov [ms Hms] Hi. unfold run_page. rewrite script_run.
  rewrite (pbind_Ok _ _ _ _ _ (sidebar_idle _ _ _ Hb Hname)).
  unfold main_section. rewrite (pbind_Ok _ _ _ _ _ (messages_init_run _ _ _)). cbn.
  rewrite (set_messages_history _ _ Hms), Hk, Hprov.
  unfold ptry, configured_body, init_client. rewrite provider_of_id_id. cbn.
  rewrite Hi. reflexivity.
Qed.

(** Streamlit's [ScriptControlException]s: the rerun and the stop. *)
Definition is_script_control (e : exn) : bool := negb (is_Exception e).

Lemma set_key_button_raises_control inp id : raises_only is_script_control (set_key_button inp id).
Proof.
  unfold set_key_button. destruct (in_set_key inp); [|frame_split].
  case_bool_decide; frame_split. repeat case_match; frame_split.
Qed.

(** Once the provider name resolves, the sidebar raises only the rerun
    request or the stop. *)
Lemma sidebar_raises_control inp id :
  providers_getitem (in_provider_name inp) = Ok id -> raises_only is_script_control (sidebar inp).
Proof.
  intros Hid [s pg stop]. unfold sidebar. apply raises_only_pbind; [eauto with py|intros _].
  apply raises_only_pbind; [eauto with py|intros _].
  intros w e w'. unfold pbind at 1. cbn [plift]. rewrite Hid.
  revert w e w'. frame_split. apply set_key_button_raises_control.
Qed.

Lemma sidebar_stop_free inp : stop_free (sidebar inp).
Proof. unfold sidebar, set_key_button, session_clear. stop_split. Qed.

(** An interaction, by what the sidebar of its first run does: the main
    part runs after it, or the rerun starts over, or the exception ends
    the run. *)
Lemma run_page_sidebar inp s o w :
  sidebar inp (mk_world s page_head) = (o, w) ->
  run_page inp s =
    match o with
    | Ok _ => page_of (main_section inp w)
    | Raise RerunRequest =>
        page_of ((sidebar (rerun_input inp) ;;; main_section (rerun_input inp))
                   (mk_world (w_session w) page_head))
    | Raise e => mk_page (w_session w) (w_page w) (Some e)
    end.
Proof.
  intros Hsb. unfold run_page. rewrite script_run. unfold pbind at 1. rewrite Hsb.
  destruct o as [[]|[]]; try reflexivity.
  destruct (main_section inp w) as [[[]|e] w'] eqn:Hm; [done|].
  pose proof (main_section_raises_stop inp _ _ _ Hm). by destruct e.
Qed.

(** A provider name that is not a key of [providers]: the lookup of
    line 37 raises [KeyError] after the header and the select box. *)
Lemma sidebar_unknown_name_at inp s pg stop e :
  providers_getitem (in_provider_name inp) = Raise e -> stop_after 2 stop ->
  sidebar inp (mk_world_at s pg stop) =
    (Raise (KeyError (in_provider_name inp)),
     mk_world_at s (pg ++ take 2 (sidebar_widgets (in_provider_name inp))) (countdown 2 stop)).
Proof.
  intros Hid Hst. pose proof Hid as He. apply providers_getitem_Raise in He as ->.
  apply (stop_after_app 1 1) in Hst as [H1 H2]. unfold sidebar.
  rewrite (pbind_Ok _ _ _ _ _ (emit_run_at _ _ _ _ H1)), (pbind_Ok _ _ _ _ _ (emit_run_at _ _ _ _ H2)).
  unfold pbind at 1. cbn [plift]. rewrite Hid. by rewrite countdown_countdown, <-app_assoc.
Qed.

Lemma sidebar_unknown_name inp s pg e :
  providers_getitem (in_provider_name inp) = Raise e ->
  sidebar inp (mk_world s pg) = (Raise (KeyError (in_provider_name inp)),
                   mk_world s (pg ++ take 2 (sidebar_widgets (in_provider_name inp)))).
Proof. intros Hid. by apply (sidebar_unknown_name_at inp s pg None e Hid). Qed.

Lemma run_page_unknown_name inp s e :
  providers_getitem (in_provider_name inp) = Raise e ->
  run_page inp s = mk_page s (page_head ++ take 2 (sidebar_widgets (in_provider_name inp)))
                           (Some (KeyError (in_provider_name inp))).
Proof. intros Hid. by rewrite (run_page_sidebar _ _ _ _ (sidebar_unknown_name inp _ _ _ Hid)). Qed.

(** C18: when the select box offers one of its own options, no user
    interaction ends with an uncaught exception: the rerun request of
    the sidebar is served by the second run, and every exception of the
    configured part is caught. *)
Theorem run_page_no_uncaught inp s :
  in_provider_name inp ∈ provider_names -> pg_uncaught (run_page inp s) = None.
Proof.
  intros Hname. destruct (providers_getitem_total _ Hname) as (id & Hid & _).
  destruct (sidebar inp (mk_world s page_head)) as [[[]|e] [s1 pg1 stop1]] eqn:Hsb;
    destruct (sidebar_stop_free inp _ _ _ Hsb eq_refl) as [Hw He]; cbn in Hw; subst stop1;
    rewrite (run_page_sidebar _ _ _ _ Hsb).
  - by destruct (main_section_ok inp s1 pg1) as (w' & -> & _).
  - assert (e = RerunRequest) as ->.
    { pose proof (sidebar_raises_control inp id Hid _ _ _ Hsb). by destruct e. }
    unfold pbind. rewrite (sidebar_idle (rerun_input inp) _ _ eq_refl Hname).
    match goal with |- context [main_section ?i (mk_world_at ?s0 ?pg0 None)] =>
      by destruct (main_section_ok i s0 pg0) as (w' & -> & _) end.
Qed.

Lemma script_stop_free inp : stop_free (script inp).
Proof.
  unfold script. apply stop_free_pbind; [unfold page_setup; stop_split|intros _].
  apply stop_free_pbind; [apply sidebar_stop_free|intros _; apply main_section_stop_free].
Qed.

(** Without a stop request, an interaction is the one of [run_page]. *)
Lemma run_page_at_None inp s : run_page_at inp s None = run_page inp s.
Proof.
  unfold run_page_at, run_page.
  destruct (script inp (mk_world s [])) as [o [s1 pg1 stop1]] eqn:Hr.
  destruct (script_stop_free inp _ _ _ Hr eq_refl) as [Hw _]. cbn in Hw. by subst stop1.
Qed.
End Failures.

(** ** Witnesses *)

Definition ex_session : session :=
  mk_session (Some "sk-test") (Some "openai")
    (Some [ex_dict "user" "Hello"; ex_dict "assistant" "Hi there"]).

Lemma set_key_other_provider_clears_witness :
  pg_session (@run_page (fixed_reply_vendor "ok") (mk_input "Google Gemini" "g-key" true None) ex_session)
    = mk_session (Some "g-key") (Some "gemini") (Some []) /\
  pg_uncaught (@run_page (fixed_reply_vendor "ok") (mk_input "Google Gemini" "g-key" true None) ex_session)
    = None.
Proof.
  apply (set_key_other_provider_clears (mk_input "Google Gemini" "g-key" true None) ex_session
           "gemini" "openai"); try reflexivity; discriminate.
Defined.

Lemma set_key_same_provider_keeps_witness :
  pg_session (@run_page (fixed_reply_vendor "ok") (mk_input "OpenAI" "sk-new" true None) ex_session)
    = mk_session (Some "sk-new") (Some "openai") (Some (history ex_session)) /\
  pg_uncaught (@run_page (fixed_reply_vendor "ok") (mk_input "OpenAI" "sk-new" true None) ex_session)
    = None.
Proof.
  apply (set_key_same_provider_keeps (mk_input "OpenAI" "sk-new" true None) ex_session "openai");
    try reflexivity; discriminate.
Defined.

Lemma set_key_empty_rejected_witness :
  exists els, @run_page (fixed_reply_vendor "ok") (mk_input "OpenAI" "" true None) ex_session =
    mk_page (set_messages (history ex_session) ex_session)
            (page_head ++ sidebar_widgets "OpenAI" ++ ElSidebar (ElError "API key is required.") :: els) None.
Proof.
  apply (set_key_empty_rejected (mk_input "OpenAI" "" true None) ex_session); try reflexivity.
  apply list_elem_of_In. cbn. tauto.
Defined.

(** C10: rendering a stored conversation raises nothing, leaves the
    session state alone, and renders each turn's role and text in order,
    skipping the turns whose text is empty, for every provider (the
    Gemini user messages, which have no ["content"], included), when
    the run is not stopped before the transcript is complete; the stop
    point then moves by the number of elements rendered. *)
Theorem transcript_rendering `{Vendor} pid (conv : conversation) s pg stop :
  ss_messages s = Some (map (turn_message pid) conv) ->
  let els := concat (map render_turn conv) in
  stop_after (length els) stop ->
  display_messages pid (mk_world_at s pg stop) =
    (Ok tt, mk_world_at s (pg ++ els) (countdown (length els) stop)).
Proof. apply display_messages_render_at. Qed.

Lemma transcript_rendering_witness :
  let s := mk_session (Some "g") (Some "gemini")
             (Some (map (turn_message "gemini") [TUser "Hello"; TAssistant (PyStr "Hi there")])) in
  display_messages "gemini" (mk_world_at s [] (Some 5)) =
    (Ok tt, mk_world_at s
              [ElChatMessage (PyStr "user"); ElMarkdown (PyStr "Hello");
               ElChatMessage (PyStr "assistant"); ElMarkdown (PyStr "Hi there")] (Some 1)).
Proof.
  intros s. apply (@transcript_rendering (fixed_reply_vendor "ok") "gemini"
                     [TUser "Hello"; TAssistant (PyStr "Hi there")] s [] (Some 5)).
  - reflexivity.
  - vm_compute. lia.
Defined.

(** A vendor library that refuses every key. *)
Definition refusing_vendor : Vendor :=
  stub_vendor (fun _ _ => Raise "invalid api key") (fun _ => Raise "unreachable").

Lemma run_page_client_failure_witness :
  @run_page refusing_vendor (mk_input "OpenAI" "sk-test" false (Some "Hello")) ex_session =
    mk_page ex_session (page_head ++ sidebar_widgets "OpenAI" ++
                        [ElError (failed_client_text ++ "invalid api key")%string]) None.
Proof.
  apply (run_page_client_failure (mk_input "OpenAI" "sk-test" false (Some "Hello")) ex_session OpenAI "sk-test" "invalid api key");
    try reflexivity; [|by eexists].
  apply list_elem_of_In. cbn. tauto.
Defined.

Lemma run_page_no_uncaught_witness :
  pg_uncaught (@run_page refusing_vendor (mk_input "Cohere" "co-key" false (Some "Hi")) ex_session)
    = None.
Proof.
  apply run_page_no_uncaught. apply list_elem_of_In. cbn. tauto.
Defined.

(** ** Reruns without a submission *)

Section Idle.
Context `{Vendor}.

(** The main part starts by creating the history, so a session whose
    [messages] key is absent runs as the one with the empty history. *)
Lemma main_section_normalize inp s pg :
  main_section inp (mk_world (set_messages (history s) s) pg) = main_section inp (mk_world s pg).
Proof. unfold main_section. by rewrite !(pbind_Ok _ _ _ _ _ (messages_init_run _ _ _)). Qed.

Lemma run_page_normalize inp s :
  in_set_key inp = false -> in_provider_name inp ∈ provider_names ->
  run_page inp (set_messages (history s) s) = run_page inp s.
Proof.
  intros Hb Hname. rewrite !(run_page_sidebar _ _ _ _ (sidebar_idle inp _ _ Hb Hname)).
  cbn [w_session w_page]. by rewrite main_section_normalize.
Qed.

(** Without a press and without a prompt, an interaction only creates a
    missing history. *)
Lemma run_page_idle_session inp s :
  in_set_key inp = false -> in_prompt inp = None ->
  pg_session (run_page inp s) = s \/ pg_session (run_page inp s) = set_messages (history s) s.
Proof.
  intros Hb Hp. destruct (providers_getitem (in_provider_name inp)) as [id|e] eqn:Hid.
  - right. rewrite (run_page_sidebar _ _ _ _ (sidebar_idle inp _ _ Hb (providers_getitem_name _ _ Hid))).
    cbn [w_session w_page].
    by destruct (main_section_idle inp s (page_head ++ sidebar_widgets (in_provider_name inp)) Hp)
      as [pg ->].
  - left. by rewrite (run_page_unknown_name _ _ _ Hid).
Qed.

(** C33: Streamlit reruns the script on every widget change (a new
    provider in the select box, a character typed in the key input);
    such a rerun, without a press of the button and without a prompt,
    keeps the stored history (the test of line 58 creates [messages]
    only when it is missing) and is stable: running it again on the
    state it leaves gives the same session state and the same page. *)
Theorem idle_rerun_stable inp s :
  in_set_key inp = false -> in_prompt inp = None ->
  history (pg_session (run_page inp s)) = history s /\
  run_page inp (pg_session (run_page inp s)) = run_page inp s.
Proof.
  intros Hb Hp. split; [by destruct (run_page_idle_session inp s Hb Hp) as [-> | ->]|].
  destruct (providers_getitem (in_provider_name inp)) as [id|e] eqn:Hid.
  - destruct (run_page_idle_session inp s Hb Hp) as [-> | ->]; [done|].
    apply run_page_normalize; [done|]. by apply (providers_getitem_name _ id).
  - rewrite (run_page_unknown_name _ _ _ Hid). cbn [pg_session].
    by rewrite (run_page_unknown_name _ _ _ Hid).
Qed.

(** C34: the text typed in the key input has no effect until "Set API
    Key" is pressed: an interaction without a press gives the same
    session state, the same page and the same outcome whatever the key
    input holds, so a key typed but not set is neither stored nor
    shown. *)
Theorem typed_key_inert name key1 key2 prompt s :
  run_page (mk_input name key1 false prompt) s = run_page (mk_input name key2 false prompt) s.
Proof. reflexivity. Qed.
End Idle.

Lemma idle_rerun_stable_witness :
  in_set_key (mk_input "Cohere" "" false None) = false /\ in_prompt (mk_input "Cohere" "" false None) = None /\
  history (pg_session (@run_page refusing_vendor (mk_input "Cohere" "" false None) ex_session)) =
    history ex_session /\
  @run_page refusing_vendor (mk_input "Cohere" "" false None)
    (pg_session (@run_page refusing_vendor (mk_input "Cohere" "" false None) ex_session)) =
  @run_page refusing_vendor (mk_input "Cohere" "" false None) ex_session.
Proof. split; [done|]. split; [done|]. by apply idle_rerun_stable. Defined.

(** ** The empty prompt *)

Section EmptyPrompt.
Context `{Vendor}.

(** Submitting the empty string is the same as submitting nothing: the
    walrus test of line 122 finds it falsy. *)
Lemma configured_body_empty_prompt name key b :
  configured_body (mk_input name key b (Some "")) = configured_body (mk_input name key b None).
Proof. unfold configured_body. cbn [in_prompt]. by rewrite bool_decide_true. Qed.

Lemma run_page_empty_prompt name key b s :
  run_page (mk_input name key b (Some "")) s = run_page (mk_input name key b None) s.
Proof.
  unfold run_page, script, main_section. by rewrite configured_body_empty_prompt.
Qed.

(** C25: an interaction that submits the empty prompt is the interaction
    that submits none, from every session state: same session state,
    same page, same outcome.  No empty user message is ever stored. *)
Theorem empty_prompt_ignored name key b s :
  run_page (mk_input name key b (Some "")) s = run_page (mk_input name key b None) s.
Proof. apply run_page_empty_prompt. Qed.
End EmptyPrompt.

Lemma run_page_transcript_witness :
  let conv := [TUser "Hello"; TAssistant (PyStr "Hi there")] in
  "OpenAI" ∈ provider_names /\
  @run_page (fixed_reply_vendor "ok") (mk_input "OpenAI" "" false None) ex_session =
    mk_page ex_session (page_head ++ sidebar_widgets "OpenAI" ++ concat (map render_turn conv) ++
                        [ElChatInput chat_input_placeholder]) None.
Proof.
  intros conv. assert (Hname : "OpenAI" ∈ provider_names) by (apply list_elem_of_In; cbn; tauto).
  split; [exact Hname|].
  apply (run_page_transcript (mk_input "OpenAI" "" false None) ex_session OpenAI "sk-test" conv);
    try reflexivity; exact Hname.
Defined.
