(* ===== verification/Page.v ===== *)
(** * The page a user interaction leaves on the screen

    Every run renders, in order: the page head (lines 12-20); inside
    [with st.sidebar:] (line 23) the header, the select box, the key
    input and the button, then the button's feedback; and the elements
    of the main part (lines 57-155): transcript bubbles, the chat input,
    errors and the info message.  When the button sets a key, the run
    ends with [st.rerun()] and the page is the one the next run renders.

    [run_page_layout] gives that shape for every interaction whose
    provider name is an option of the select box; the theorems read off
    the sidebar of every page (its widgets and the error of an empty
    key, never the success message of line 52) and its first elements. *)

From stdpp Require Import base list strings gmap.
From S2P Require Import Prelude Python Registry Store Vendor Adapter Conversation Session.

Open Scope string_scope.
Open Scope list_scope.
Local Open Scope py_scope.

(** ** Containers and element kinds *)

(** [st.success(...)] elements, in whichever container. *)
Fixpoint is_success (el : element) : bool :=
  match el with
  | ElSuccess _ => true
  | ElSidebar el' => is_success el'
  | _ => false
  end.

Definition successes (els : list element) : list element := List.filter is_success els.

(** The kinds of element the main part renders. *)
Definition is_main_element (el : element) : bool :=
  match el with
  | ElChatMessage _ | ElMarkdown _ | ElChatInput _ | ElError _ | ElInfo _ => true
  | _ => false
  end.

(** What the sidebar leaves under its widgets once the interaction is
    over: the error of line 43 after a press with an empty key, and
    nothing otherwise (the success message is discarded with its run). *)
Definition sidebar_feedback (inp : ui_input) : list element :=
  if in_set_key inp && bool_decide (in_api_key inp = "")
  then [ElSidebar (ElError "API key is required.")] else [].

(** ** Lemmas on the page *)

Lemma filter_main_nil (P : element -> bool) els :
  (forall el, is_main_element el = true -> P el = false) ->
  Forall (fun el => is_main_element el = true) els -> List.filter P els = [].
Proof.
  intros HP. induction 1 as [|el els Hel _ IH]; [done|]. cbn. by rewrite HP.
Qed.

Lemma app_eq_self_r {A} (l k : list A) : l ++ k = l -> k = [].
Proof. intros Hl. apply (f_equal length) in Hl. rewrite length_app in Hl. destruct k; [done|cbn in *; lia]. Qed.

Lemma emit_filter (P : element -> bool) el :
  P el = false -> preserves (fun w => List.filter P (w_page w)) (emit el).
Proof.
  intros Hel w o w'. unfold emit.
  destruct (w_stop w) as [[|n]|]; intros [= _ <-]; [done|..];
    cbn; rewrite List.filter_app; cbn; rewrite Hel; apply app_nil_r.
Qed.

Lemma modify_session_page {T} (F : list element -> T) g :
  preserves (fun w => F (w_page w)) (modify_session g).
Proof. by apply preserves_pmodify. Qed.

Lemma messages_append_page {T} (F : list element -> T) m :
  preserves (fun w => F (w_page w)) (messages_append m).
Proof. unfold messages_append. frame_split. apply modify_session_page. Qed.

Lemma get_model_response_preserves `{Vendor} {T} (f : world -> T) c id ms :
  preserves f (get_model_response c id ms).
Proof.
  intros w o w' Hr. destruct (get_model_response_total c id ms w) as [v Hv]. congruence.
Qed.

#[local] Hint Resolve emit_filter modify_session_page messages_append_page
  get_model_response_preserves preserves_praise : py.
#[local] Hint Extern 1 (negb (is_main_element _) = false) => reflexivity : py.

Section Layout.
Context `{Vendor}.

(** The main part renders only elements of its own kinds. *)
Lemma main_section_main_only inp :
  preserves (fun w => List.filter (fun el => negb (is_main_element el)) (w_page w)) (main_section inp).
Proof.
  unfold main_section, configured_body, init_client, display_messages, display_message,
    chat_turn.
  frame_split. all: repeat (case_match; frame_split).
Qed.

Lemma main_section_page inp s pg :
  exists els, pg_elements (page_of (main_section inp (mk_world s pg))) = pg ++ els /\
              Forall (fun el => is_main_element el = true) els.
Proof.
  destruct (main_section_ok inp s pg) as (w' & Hm & _).
  destruct (main_section_grows inp _ _ _ Hm) as [els Hels]. cbn in Hels.
  pose proof (main_section_main_only inp _ _ _ Hm) as Hs. cbn in Hs.
  exists els. rewrite Hm. split; [exact Hels|].
  rewrite Hels, List.filter_app in Hs. apply app_eq_self_r in Hs.
  apply Forall_forall. intros el Hel. destruct (is_main_element el) eqn:Hk; [done|].
  assert (Hin : In el (List.filter (fun el => negb (is_main_element el)) els)).
  { apply List.filter_In. split; [by apply list_elem_of_In|by rewrite Hk]. }
  by rewrite Hs in Hin.
Qed.

(** An interaction whose provider name is an option of the select box
    ends with a run of the main part after the page head, the sidebar's
    widgets and their feedback. *)
Lemma run_page_main_page inp s :
  in_provider_name inp ∈ provider_names ->
  exists i s0, run_page inp s =
    page_of (main_section i (mk_world s0 (page_head ++ sidebar_widgets (in_provider_name inp) ++
                                          sidebar_feedback inp))).
Proof.
  intros Hname. destruct (providers_getitem_total _ Hname) as (id & Hid & _).
  unfold sidebar_feedback.
  destruct (in_set_key inp) eqn:Hb; [destruct (decide (in_api_key inp = "")) as [Hk|Hk]|]; cbn.
  - rewrite (run_page_sidebar _ _ _ _ (sidebar_empty_key inp _ _ Hb Hk Hname)).
    rewrite bool_decide_true by done. by eexists _, _.
  - destruct (sidebar_set_key inp s page_head id Hb Hk Hid) as [pg Hsb].
    rewrite (run_page_sidebar _ _ _ _ Hsb). unfold pbind.
    rewrite (sidebar_idle (rerun_input inp) _ _ eq_refl Hname), bool_decide_false by done.
    by eexists _, _.
  - rewrite (run_page_sidebar _ _ _ _ (sidebar_idle inp _ _ Hb Hname)).
    by eexists _, _.
Qed.

(** The layout of every such page. *)
Lemma run_page_layout inp s :
  in_provider_name inp ∈ provider_names ->
  exists els, pg_elements (run_page inp s) =
                page_head ++ sidebar_widgets (in_provider_name inp) ++ sidebar_feedback inp ++ els /\
              Forall (fun el => is_main_element el = true) els.
Proof.
  intros Hname. destruct (run_page_main_page inp s Hname) as (i & s0 & ->).
  destruct (main_section_page i s0 (page_head ++ sidebar_widgets (in_provider_name inp) ++
                                    sidebar_feedback inp)) as (els & -> & Hels).
  exists els. by rewrite <-!app_assoc.
Qed.

Lemma sidebar_feedback_cases inp :
  sidebar_feedback inp = [] \/ sidebar_feedback inp = [ElSidebar (ElError "API key is required.")].
Proof. unfold sidebar_feedback. destruct (_ && _); auto. Qed.
End Layout.

(** ** What every page shows *)

Section Pages.
Context `{Vendor}.

(** C27: the success message of line 52 is never on the page the user
    sees: it is rendered just before [st.rerun()], which discards the
    run's page, and nothing after the rerun renders it again. *)
Theorem success_message_never_shown inp s :
  in_provider_name inp ∈ provider_names -> successes (pg_elements (run_page inp s)) = [].
Proof.
  intros Hname. destruct (run_page_layout inp s Hname) as (els & -> & Hels).
  unfold successes. rewrite !List.filter_app, (filter_main_nil _ els); [|by intros [] ?|done].
  by destruct (sidebar_feedback_cases inp) as [-> | ->].
Qed.

(** C28: every page is laid out as lines 12-155 render it: the page
    configuration, the title and the caption, then the sidebar's
    header, select box, key input (labelled with the selected
    provider's name) and button, then the sidebar's feedback (the
    empty-key error, or nothing), then only elements the main part
    renders: chat bubbles and their text, the chat input, errors and
    the info message. *)
Theorem page_starts_with_header inp s :
  in_provider_name inp ∈ provider_names ->
  exists els, pg_elements (run_page inp s) =
                page_head ++ sidebar_widgets (in_provider_name inp) ++ sidebar_feedback inp ++ els /\
              Forall (fun el => is_main_element el = true) els.
Proof. apply run_page_layout. Qed.

End Pages.

Lemma success_message_never_shown_witness :
  "OpenAI" ∈ provider_names /\
  successes (pg_elements (@run_page (fixed_reply_vendor "ok") (mk_input "OpenAI" "sk-test" true None)
                                    empty_session)) = [].
Proof.
  assert (Hname : "OpenAI" ∈ provider_names) by (apply list_elem_of_In; cbn; tauto).
  split; [exact Hname|]. by apply (success_message_never_shown (mk_input "OpenAI" "sk-test" true None)).
Defined.

Lemma page_starts_with_header_witness :
  "Groq" ∈ provider_names /\
  exists els, pg_elements (@run_page (fixed_reply_vendor "ok") (mk_input "Groq" "" false None) empty_session) =
    page_head ++ sidebar_widgets "Groq" ++ sidebar_feedback (mk_input "Groq" "" false None) ++ els /\
    Forall (fun el => is_main_element el = true) els.
Proof.
  assert (Hname : "Groq" ∈ provider_names) by (apply list_elem_of_In; cbn; tauto).
  split; [exact Hname|]. by apply (page_starts_with_header (mk_input "Groq" "" false None)).
Defined.
