(* ===== verification/Invariant.v ===== *)
(** * The session-state invariant and reachability

    [session_wf] is what every session state of the script satisfies
    between interactions: either nothing is configured (no key, no
    provider, no history), or the provider is one the registry knows,
    the key is not empty, and the history is a sequence of complete
    exchanges, a user message with a non-empty prompt followed by an
    assistant message, each stored in the message shape of the provider
    (Gemini user messages carry ["parts"], the others ["content"]).

    [run_page_cases] splits an interaction by what its sidebar does;
    [run_page_preserves_wf] shows every interaction preserves the
    invariant, for every input and every vendor, and
    [interaction_history_step] what it does to the history (kept,
    emptied, or one exchange appended); [reachable_wf] concludes the
    invariant of every state reachable from a fresh session, and
    [reachable_alternates] and [reachable_message_keys] read off the
    shape of the history: user and assistant messages alternate,
    starting with the user, and each has the keys of its role. *)

From stdpp Require Import base list strings gmap.
From S2P Require Import Prelude Python Registry Store Vendor Adapter Conversation Session.

Open Scope string_scope.
Open Scope list_scope.

Definition session_wf (s : session) : Prop :=
  match ss_provider s with
  | None => ss_api_key s = None /\ history s = []
  | Some pid =>
      registered pid /\
      (exists key, ss_api_key s = Some key /\ key <> "") /\
      exists pairs : list (string * pyval),
        Forall (fun ur => ur.1 <> "") pairs /\
        history s = map (turn_message pid) (exchanges pairs)
  end.

(** The session states a fresh browser session reaches by interactions
    that are not stopped ([run_page]); [Interrupt.reachable_stopped]
    admits stopped ones. *)
Inductive reachable `{Vendor} : session -> Prop :=
| reachable_init : reachable empty_session
| reachable_step inp s : reachable s -> reachable (pg_session (run_page inp s)).

(** ** Lemmas on exchanges *)

Lemma exchanges_snoc pairs u r :
  exchanges (pairs ++ [(u, r)]) = exchanges pairs ++ [TUser u; TAssistant r].
Proof. unfold exchanges. by rewrite map_app, concat_app. Qed.

Lemma session_wf_set_history s : session_wf s -> session_wf (set_messages (history s) s).
Proof. by destruct s as [k [p|] ms]. Qed.

#[export] Hint Resolve session_wf_set_history : py.

Section Preservation.
Context `{Vendor}.

(** The session after a chat turn of provider [p] with key [key] on the
    prompt [prompt]: the user message and the assistant message with the
    adapter's reply on the history ending with the user message. *)
Definition answered (s : session) (p : provider) (key prompt : string) : session :=
  let um := user_message (provider_id p) prompt in
  set_messages (history s ++ [um; assistant_message (model_reply (mk_client p key) p (history s ++ [um]))]) s.

(** The session a chat turn stopped after line 130 leaves: the user
    message without its reply. *)
Definition asked (s : session) (p : provider) (prompt : string) : session :=
  set_messages (history s ++ [user_message (provider_id p) prompt]) s.

(** A chat turn, wherever the run is stopped: stopped at one of its
    four elements, it leaves the user message alone; otherwise it
    completes the exchange. *)
Lemma chat_turn_effect p key prompt w o w' :
  is_Some (ss_messages (w_session w)) ->
  chat_turn (Some (mk_client p key)) (provider_id p) prompt w = (o, w') ->
  (o = Raise StopRequest /\ w_session w' = asked (w_session w) p prompt) \/
  (o = Ok tt /\ w_session w' = answered (w_session w) p key prompt).
Proof.
  intros [hist Hms] Hr. destruct w as [s pg stop]. cbn [w_session] in *. unfold chat_turn in Hr.
  rewrite (pbind_Ok _ _ _ _ _ (messages_append_run _ _ _ _ _ Hms)) in Hr.
  assert (Ha : set_messages (hist ++ [user_message (provider_id p) prompt]) s = asked s p prompt)
    by (unfold asked, history; by rewrite Hms).
  rewrite Ha in Hr. set (w1 := mk_world_at (asked s p prompt) pg stop) in Hr.
  assert (Hw1 : w_session w1 = asked s p prompt) by done. clearbody w1.
  apply emit_then in Hr as [[-> ->]|(w2 & Hw2 & Hr)]; [by left|]. rewrite Hw1 in Hw2.
  apply emit_then in Hr as [[-> ->]|(w3 & Hw3 & Hr)]; [by left|]. rewrite Hw2 in Hw3.
  apply emit_then in Hr as [[-> ->]|([s4 pg4 stop4] & Hw4 & Hr)]; [by left|].
  rewrite Hw3 in Hw4. cbn in Hw4. subst s4.
  erewrite pbind_Ok in Hr; [|reflexivity].
  rewrite (pbind_Ok _ _ _ _ _ (messages_get_run (asked s p prompt) _ _ (history s ++ [user_message (provider_id p) prompt]) eq_refl)) in Hr.
  erewrite pbind_Ok in Hr; [|apply get_model_response_run; reflexivity].
  apply emit_then in Hr as [[-> ->]|([s5 pg5 stop5] & Hw5 & Hr)]; [by left|]. cbn in Hw5. subst s5.
  erewrite messages_append_run in Hr; [|reflexivity]. injection Hr as <- <-. right. split; [done|].
  unfold answered. cbn. by rewrite <-app_assoc.
Qed.

(** The configured part of a run, wherever the run is stopped: it leaves
    the session state as it was, or, when the client could be built and
    a non-empty prompt was submitted, completes one exchange, or is
    stopped in the chat turn with the user message alone. *)
Lemma configured_body_outcome inp p key w o w' :
  is_Some (ss_messages (w_session w)) ->
  configured_body inp (provider_id p) key w = (o, w') ->
  w_session w' = w_session w \/
  exists prompt, prompt <> "" /\ vendor_init p key = Ok tt /\
    ((o = Ok tt /\ w_session w' = answered (w_session w) p key prompt) \/
     (o = Raise StopRequest /\ w_session w' = asked (w_session w) p prompt)).
Proof.
  intros Hms Hrun. unfold configured_body in Hrun.
  destruct (vendor_init p key) as [[]|msg] eqn:Hi.
  - rewrite (pbind_Ok _ _ _ _ _ (init_client_ok _ _ _ Hi)) in Hrun.
    apply pbind_session in Hrun as [(e & _ & _ & Hs)|(_ & w1 & _ & Hw1 & Hrun)];
      [by left| |apply (proj1 (display_messages_frame _))].
    apply emit_then in Hrun as [[_ ->]|(w2 & Hw2 & Hrun)]; [by left|].
    rewrite Hw1 in Hw2. destruct (in_prompt inp) as [prompt|]; [|injection Hrun as _ <-; by left].
    case_bool_decide as Hne; [injection Hrun as _ <-; by left|].
    right. exists prompt. split; [done|]. split; [done|].
    apply chat_turn_effect in Hrun as [[-> ->]|[-> ->]]; rewrite ?Hw2; [by right|by left|done].
  - left. revert Hrun. unfold init_client. rewrite provider_of_id_id. cbn.
    rewrite Hi. by intros [= _ <-].
Qed.

Lemma answered_set_history s p key prompt :
  answered (set_messages (history s) s) p key prompt = answered s p key prompt.
Proof. reflexivity. Qed.

Lemma asked_set_history s p prompt :
  asked (set_messages (history s) s) p prompt = asked s p prompt.
Proof. reflexivity. Qed.

(** The main part of a run on a state whose stored provider is
    registered, wherever the run is stopped: the history is kept (and
    created when missing), or, with the stored provider and key, one
    exchange is appended, or the run is stopped in the chat turn after
    the user message. *)
Lemma main_section_effect_any inp w o w' :
  (forall pid, ss_provider (w_session w) = Some pid -> registered pid) ->
  main_section inp w = (o, w') ->
  let s := w_session w in
  w_session w' = set_messages (history s) s \/
  exists p key prompt, prompt <> "" /\ ss_provider s = Some (provider_id p) /\
    ss_api_key s = Some key /\ vendor_init p key = Ok tt /\
    ((o = Ok tt /\ w_session w' = answered s p key prompt) \/
     (o = Raise StopRequest /\ w_session w' = asked s p prompt)).
Proof.
  intros Hreg Hrun s. subst s. destruct w as [s0 pg stop]. cbn [w_session] in *.
  unfold main_section in Hrun.
  rewrite (pbind_Ok _ _ _ _ _ (messages_init_run _ _ _)) in Hrun. cbn in Hrun.
  destruct (ss_api_key s0) as [key|] eqn:Hk, (ss_provider s0) as [pid|] eqn:Hprov;
    try (left; apply (emit_preserves _ _ _ _ Hrun)).
  destruct (Hreg pid eq_refl) as [p Hp]. apply provider_of_id_Some in Hp as ->.
  destruct (configured_body inp (provider_id p) key
              (mk_world_at (set_messages (history s0) s0) pg stop)) as [o1 w1] eqn:Hb.
  rewrite (ptry_session _ _ _ _ _ _ _ _ Hb (fun _ => emit_preserves _) Hrun).
  apply configured_body_outcome in Hb as Hcase; [|by eexists]. cbn [w_session] in Hcase.
  destruct Hcase as [-> | (prompt & Hne & Hi & Hcase)]; [by left|].
  right. exists p, key, prompt. split_and!; try done.
  rewrite answered_set_history, asked_set_history in Hcase.
  revert Hrun. unfold ptry. rewrite Hb.
  destruct Hcase as [[-> ->]|[-> ->]]; intros [= <- _]; [by left|by right].
Qed.

(** The main part of a run on a well-formed state, not stopped: the
    history is kept (and created when missing), or, with the stored
    provider and key, one exchange is appended with the adapter's
    reply. *)
Lemma main_section_effect inp w o w' :
  session_wf (w_session w) -> w_stop w = None -> main_section inp w = (o, w') ->
  let s := w_session w in
  w_session w' = set_messages (history s) s \/
  exists p key prompt, prompt <> "" /\ ss_provider s = Some (provider_id p) /\
    ss_api_key s = Some key /\ vendor_init p key = Ok tt /\ w_session w' = answered s p key prompt.
Proof.
  intros Hwf Hw Hrun s.
  destruct (main_section_stop_free inp _ _ _ Hrun Hw) as [_ Hno].
  apply main_section_effect_any in Hrun as [? | (p & key & prompt & ? & ? & ? & ? & [[_ ?]|[? _]])];
    [by left|right; by exists p, key, prompt|done|].
  intros pid Hp. unfold session_wf in Hwf. rewrite Hp in Hwf. by destruct Hwf.
Qed.

Lemma session_wf_append s p prompt reply :
  session_wf s -> ss_provider s = Some (provider_id p) -> prompt <> "" ->
  session_wf (set_messages (history s ++ [user_message (provider_id p) prompt;
                                          assistant_message reply]) s).
Proof.
  destruct s as [k pid ms]. unfold session_wf, history. cbn. intros Hwf -> Hne.
  destruct Hwf as (Hreg & Hkey & pairs & Hpairs & Hhist). split; [done|]. split; [done|].
  exists (pairs ++ [(prompt, reply)]). split.
  - apply Forall_app. split; [done|]. by constructor.
  - by rewrite Hhist, exchanges_snoc, map_app.
Qed.

Lemma main_section_wf inp w o w' :
  session_wf (w_session w) -> w_stop w = None -> main_section inp w = (o, w') -> session_wf (w_session w').
Proof.
  intros Hwf Hw Hrun.
  destruct (main_section_effect inp w o w' Hwf Hw Hrun) as [-> | (p & key & prompt & Hne & Hp & _ & _ & ->)].
  - by apply session_wf_set_history.
  - by apply session_wf_append.
Qed.
End Preservation.

Lemma keyed_session_wf id key s :
  registered id -> key <> "" -> session_wf s ->
  session_wf (set_messages (history (keyed_session id key s)) (keyed_session id key s)).
Proof.
  intros Hid Hkey Hwf. unfold keyed_session.
  destruct s as [k [p|] ms]; cbn in *.
  - destruct Hwf as (_ & _ & pairs & Hpairs & Hhist). case_bool_decide as Hne; cbn.
    + split; [done|]. split; [by eexists|]. by exists [].
    + subst p. split; [done|]. split; [by eexists|].
      by exists pairs.
  - destruct Hwf as [_ Hhist]. split; [done|]. split; [by eexists|].
    exists []. split; [done|]. exact Hhist.
Qed.

Section Interaction.
Context `{Vendor}.

(** The three ways an interaction can go, by what the sidebar does: the
    provider name does not resolve and the session is untouched; the
    sidebar lets the main part run on the session; or a non-empty key is
    set for a registered provider and the rerun leaves the keyed session
    with its history. *)
Lemma run_page_cases inp s :
  pg_session (run_page inp s) = s \/
  (exists w w', w_session w = s /\ w_stop w = None /\ main_section inp w = (Ok tt, w') /\
                pg_session (run_page inp s) = w_session w') \/
  (exists id, registered id /\ in_api_key inp <> "" /\
     pg_session (run_page inp s) =
       set_messages (history (keyed_session id (in_api_key inp) s)) (keyed_session id (in_api_key inp) s)).
Proof.
  destruct (providers_getitem (in_provider_name inp)) as [id|e] eqn:Hid.
  - pose proof (providers_getitem_name _ _ Hid) as Hname.
    destruct (in_set_key inp) eqn:Hb; [destruct (decide (in_api_key inp = "")) as [Hk|Hk]|].
    + right; left. rewrite (run_page_sidebar _ _ _ _ (sidebar_empty_key inp _ _ Hb Hk Hname)).
      destruct (main_section_ok inp s (page_head ++ sidebar_widgets (in_provider_name inp) ++
                                       [ElSidebar (ElError "API key is required.")])) as (w' & Hm & _).
      do 2 eexists. split_and!; [| |exact Hm|]; [reflexivity|reflexivity|by rewrite Hm].
    + right; right. exists id. split; [eauto with py|split; [done|]].
      by destruct (run_page_set_key inp s id Hb Hk Hid) as [els ->].
    + right; left. rewrite (run_page_sidebar _ _ _ _ (sidebar_idle inp _ _ Hb Hname)).
      destruct (main_section_ok inp s (page_head ++ sidebar_widgets (in_provider_name inp)))
        as (w' & Hm & _).
      do 2 eexists. split_and!; [| |exact Hm|]; [reflexivity|reflexivity|by rewrite Hm].
  - left. by rewrite (run_page_unknown_name _ _ _ Hid).
Qed.

Lemma run_page_wf inp s : session_wf s -> session_wf (pg_session (run_page inp s)).
Proof.
  intros Hwf.
  destruct (run_page_cases inp s) as [-> | [(w & w' & <- & Hw & Hm & ->) | (id & Hid & Hk & ->)]].
  - done.
  - by apply (main_section_wf inp w (Ok tt)).
  - by apply keyed_session_wf.
Qed.

Lemma reachable_session_wf s : reachable s -> session_wf s.
Proof.
  induction 1 as [|inp s _ IH]; [by split|]. by apply run_page_wf.
Qed.

(** C2: every user interaction, whatever its inputs and whatever the
    vendor does, takes a well-formed session state to a well-formed
    one. *)
Theorem run_page_preserves_wf inp s : session_wf s -> session_wf (pg_session (run_page inp s)).
Proof. apply run_page_wf. Qed.

(** C13: every session state reachable from a fresh browser session by
    any sequence of interactions that are not stopped is well formed
    ([Interrupt.reachable_stopped_wf_weak] covers stopped runs). *)
Theorem reachable_wf s : reachable s -> session_wf s.
Proof. apply reachable_session_wf. Qed.

(** The history of a configured well-formed session is a stored
    conversation. *)
Lemma session_wf_history s pid :
  session_wf s -> ss_provider s = Some pid ->
  exists pairs, history s = map (turn_message pid) (exchanges pairs).
Proof.
  unfold session_wf. intros Hwf Hp. rewrite Hp in Hwf.
  destruct Hwf as (_ & _ & pairs & _ & Hh). by exists pairs.
Qed.

Lemma keyed_session_history id key s :
  history (keyed_session id key s) = [] \/ history (keyed_session id key s) = history s.
Proof.
  unfold keyed_session. destruct (ss_provider s) as [p|]; [case_bool_decide|]; cbn; tauto.
Qed.

Lemma history_set_messages ms s : history (set_messages ms s) = ms.
Proof. reflexivity. Qed.

(** What one interaction does to the history of a well-formed session. *)
(** The session state after one interaction on a well-formed session:
    untouched, with its history created, keyed by the sidebar, or
    answered by a chat turn. *)
Lemma run_page_session inp s :
  session_wf s ->
  let s' := pg_session (run_page inp s) in
  s' = s \/ s' = set_messages (history s) s \/
  (exists id, registered id /\ in_api_key inp <> "" /\
     s' = set_messages (history (keyed_session id (in_api_key inp) s)) (keyed_session id (in_api_key inp) s)) \/
  exists p key prompt, prompt <> "" /\ ss_provider s = Some (provider_id p) /\
    ss_api_key s = Some key /\ vendor_init p key = Ok tt /\ s' = answered s p key prompt.
Proof.
  intros Hwf s'. subst s'.
  destruct (run_page_cases inp s) as [-> | [(w & w' & <- & Hw & Hm & ->) | Hkeyed]]; [tauto| |tauto].
  destruct (main_section_effect inp w _ w' Hwf Hw Hm) as [-> | Hans]; tauto.
Qed.

Lemma run_page_history inp s :
  session_wf s ->
  let h := history (pg_session (run_page inp s)) in
  h = history s \/ h = [] \/
  exists p key prompt, ss_provider s = Some (provider_id p) /\ ss_api_key s = Some key /\
    prompt <> "" /\
    h = history s ++ [user_message (provider_id p) prompt;
                      assistant_message (model_reply (mk_client p key) p
                                           (history s ++ [user_message (provider_id p) prompt]))].
Proof.
  intros Hwf h. subst h.
  destruct (run_page_session inp s Hwf)
    as [-> | [-> | [(id & _ & _ & ->) | (p & key & prompt & Hne & Hp & Hk & _ & ->)]]].
  - by left.
  - by left.
  - rewrite history_set_messages.
    destruct (keyed_session_history id (in_api_key inp) s); tauto.
  - right; right. by exists p, key, prompt.
Qed.

(** C20: on a well-formed session, one interaction either keeps the
    history, empties it (a key set for another provider), or appends
    exactly one exchange under the stored provider and key: the user
    message of a non-empty prompt in that provider's shape, then the
    assistant message carrying the adapter's reply on the history that
    ends with it.  No interaction drops or rewrites a stored message, or
    stores a lone user message. *)
Theorem interaction_history_step inp s :
  session_wf s ->
  let h := history (pg_session (run_page inp s)) in
  h = history s \/ h = [] \/
  exists p key prompt, ss_provider s = Some (provider_id p) /\ ss_api_key s = Some key /\
    prompt <> "" /\
    h = history s ++ [user_message (provider_id p) prompt;
                      assistant_message (model_reply (mk_client p key) p
                                           (history s ++ [user_message (provider_id p) prompt]))].
Proof. apply run_page_history. Qed.
End Interaction.

(** ** Alternation of the history *)

Lemma exchanges_lookup pairs i t :
  exchanges pairs !! i = Some t -> turn_role t = if Nat.even i then "user" else "assistant".
Proof.
  revert i. induction pairs as [|[u r] pairs IH]; intros i; [done|].
  destruct i as [|[|i]]; cbn; [by intros [= <-] | by intros [= <-] |]. apply IH.
Qed.

Lemma length_exchanges pairs : length (exchanges pairs) = 2 * length pairs.
Proof. unfold exchanges. induction pairs as [|[u r] pairs IH]; cbn; [done|]. rewrite IH. lia. Qed.

Lemma session_wf_alternates s :
  session_wf s ->
  Nat.Even (length (history s)) /\
  forall i m, history s !! i = Some m ->
    dict_get m "role" = PyStr (if Nat.even i then "user" else "assistant").
Proof.
  unfold session_wf. destruct (ss_provider s) as [pid|].
  - intros (_ & _ & pairs & _ & ->). split.
    + rewrite length_map, length_exchanges. by exists (length pairs).
    + intros i m. rewrite list_lookup_fmap.
      intros (t & Ht & ->)%fmap_Some.
      rewrite turn_message_role. by rewrite (exchanges_lookup _ _ _ Ht).
  - intros [_ ->]. split; [by exists 0|done].
Qed.

Section Alternation.
Context `{Vendor}.

(** C19: in every session state reachable by interactions that are not
    stopped, the history has an even number of messages, the messages at
    even positions are user messages and those at odd positions
    assistant messages: a run that completes never stores a user message
    without the assistant message after it. *)
Theorem reachable_alternates s :
  reachable s ->
  Nat.Even (length (history s)) /\
  forall i m, history s !! i = Some m ->
    dict_get m "role" = PyStr (if Nat.even i then "user" else "assistant").
Proof. intros Hr. by apply session_wf_alternates, reachable_session_wf. Qed.
End Alternation.

(** ** The keys of the stored messages *)

(** The keys a stored message has, by its role: an assistant message has
    ["role"] and ["content"]; a user message has ["role"] and ["parts"]
    under Gemini (line 126) and ["role"] and ["content"] otherwise
    (line 128). *)
Definition stored_shape (pid : string) (m : pydict) : Prop :=
  (dict_get m "role" = PyStr "assistant" /\ dom m = {["role"; "content"]}) \/
  (dict_get m "role" = PyStr "user" /\
   dom m = if bool_decide (pid = "gemini") then {["role"; "parts"]} else {["role"; "content"]}).

Lemma turn_message_shape pid t : stored_shape pid (turn_message pid t).
Proof.
  destruct t as [u|r]; cbn.
  - right. split; [apply user_message_role|]. unfold user_message.
    case_bool_decide; rewrite !dom_insert_L, dom_empty_L; set_solver.
  - left. split; [done|]. unfold assistant_message. rewrite !dom_insert_L, dom_empty_L. set_solver.
Qed.

Lemma session_wf_shape s pid m :
  session_wf s -> ss_provider s = Some pid -> m ∈ history s -> stored_shape pid m.
Proof.
  intros Hwf Hp. destruct (session_wf_history s pid Hwf Hp) as [pairs ->].
  intros (t & -> & _)%list_elem_of_fmap. apply turn_message_shape.
Qed.

Section Shape.
Context `{Vendor}.

(** C21: in every session state reachable by interactions that are not
    stopped, every stored message has exactly the keys its role and the
    stored provider give it: the
    ["role"]/["content"] dicts of lines 128, 146 and 148, or the
    ["role"]/["parts"] dict of line 126 for a Gemini user message.  So
    each subscript of the renderer (lines 113, 115) and of the adapter
    (lines 67, 72, 80, 85, 86) finds its key on the messages of the
    provider the session holds. *)
Theorem reachable_message_keys s pid m :
  reachable s -> ss_provider s = Some pid -> m ∈ history s -> stored_shape pid m.
Proof. intros Hr. apply session_wf_shape, reachable_session_wf, Hr. Qed.
End Shape.

(** ** Witnesses *)

Lemma ex_session_wf : session_wf ex_session.
Proof.
  split; [by eexists|]. split; [by eexists|].
  exists [("Hello", PyStr "Hi there")]. split; [by repeat constructor|]. reflexivity.
Qed.

Lemma run_page_preserves_wf_witness :
  session_wf ex_session /\
  session_wf (pg_session (@run_page (fixed_reply_vendor "Fine") (mk_input "OpenAI" "sk-test" false (Some "How are you?")) ex_session)).
Proof.
  split; [apply ex_session_wf|].
  apply run_page_preserves_wf. apply ex_session_wf.
Defined.

(** Two interactions from a fresh session: set the key, then chat. *)
Definition ex_reached : session :=
  pg_session (@run_page (fixed_reply_vendor "Hi there") (mk_input "OpenAI" "sk-test" false (Some "Hello"))
    (pg_session (@run_page (fixed_reply_vendor "Hi there") (mk_input "OpenAI" "sk-test" true None)
                  empty_session))).

Lemma ex_reached_reachable : @reachable (fixed_reply_vendor "Hi there") ex_reached.
Proof. repeat constructor. Qed.

Lemma reachable_wf_witness : session_wf ex_reached.
Proof. apply (@reachable_wf (fixed_reply_vendor "Hi there")). apply ex_reached_reachable. Defined.

Lemma reachable_alternates_witness :
  history ex_reached !! 1 = Some (ex_dict "assistant" "Hi there") /\
  dict_get (ex_dict "assistant" "Hi there") "role" = PyStr (if Nat.even 1 then "user" else "assistant").
Proof.
  split; [vm_compute; reflexivity|].
  apply (proj2 (@reachable_alternates (fixed_reply_vendor "Hi there") ex_reached ex_reached_reachable) 1).
  vm_compute. reflexivity.
Defined.

Lemma interaction_history_step_witness :
  session_wf ex_session /\
  let h := history (pg_session (@run_page (fixed_reply_vendor "Fine")
                                  (mk_input "OpenAI" "sk-test" false (Some "How are you?")) ex_session)) in
  h = history ex_session \/ h = [] \/
  exists p key prompt, ss_provider ex_session = Some (provider_id p) /\ ss_api_key ex_session = Some key /\
    prompt <> "" /\
    h = history ex_session ++
          [user_message (provider_id p) prompt;
           assistant_message (@model_reply (fixed_reply_vendor "Fine") (mk_client p key) p
                                (history ex_session ++ [user_message (provider_id p) prompt]))].
Proof.
  split; [apply ex_session_wf|].
  apply (@interaction_history_step (fixed_reply_vendor "Fine")). apply ex_session_wf.
Defined.

Lemma reachable_message_keys_witness :
  ss_provider ex_reached = Some "openai" /\
  ex_dict "assistant" "Hi there" ∈ history ex_reached /\
  stored_shape "openai" (ex_dict "assistant" "Hi there").
Proof.
  assert (Hin : ex_dict "assistant" "Hi there" ∈ history ex_reached).
  { apply list_elem_of_In. vm_compute. right. left. reflexivity. }
  split; [vm_compute; reflexivity|]. split; [exact Hin|].
  apply (@reachable_message_keys (fixed_reply_vendor "Hi there") ex_reached);
    [apply ex_reached_reachable|vm_compute; reflexivity|exact Hin].
Defined.
