(* ===== verification/Refinement.v ===== *)
(** * The script refines the abstract conversation of the specification

    The abstraction maps an abstract conversation [conv] to the stored
    history [map (turn_message pid) conv].  Two refinement theorems:

    - [encode_refines]: on the history a chat turn hands to the adapter
      (the stored conversation followed by the new user message), each
      branch of [get_model_response] builds exactly the request the
      specification prescribes for the abstract conversation
      ([spec_encode]), so the reply is the specification's [spec_reply];
    - [chat_refines_ask]: a chat interaction takes a session that stores
      [conv] to one that stores [ask_spec conv prompt reply], with that
      reply: the concrete step simulates the abstract [ask]. *)

From stdpp Require Import base list strings gmap.
From S2P Require Import Prelude Python Registry Store Vendor Adapter Conversation Session.

Open Scope string_scope.
Open Scope list_scope.

Section Spec.
Context `{Vendor}.

(** The reply the specification prescribes: the vendor's answer to the
    specified request, read by the variant's decoder; a transport or
    decoding failure becomes the error text. *)
Definition spec_reply (c : client) (p : provider) (conv : conversation) (prompt : string) : pyval :=
  match obind (vendor_outcome (vendor_send c (spec_encode p conv prompt))) (decode p) with
  | Ok v => v
  | Raise e => error_reply e
  end.
End Spec.

(** ** The representation of abstract turns *)

Lemma turn_message_role_content pid t : pid <> "gemini" -> role_content (turn_message pid t).
Proof.
  intros Hpid. destruct t; unfold turn_message, user_message;
    [case_bool_decide; [done|]|]; split; by eexists.
Qed.

Lemma chat_view_turn_message pid t :
  pid <> "gemini" -> chat_view (turn_message pid t) = spec_chat_message t.
Proof.
  intros Hpid. destruct t; unfold turn_message, user_message; [case_bool_decide; [done|]|];
    reflexivity.
Qed.

Lemma cohere_view_turn_message pid t :
  pid <> "gemini" -> cohere_view (turn_message pid t) = spec_cohere_turn t.
Proof.
  intros Hpid. destruct t; unfold turn_message, user_message; [case_bool_decide; [done|]|];
    reflexivity.
Qed.

Lemma omapM_chat_turns pid conv :
  pid <> "gemini" ->
  omapM to_chat_message (map (turn_message pid) conv) = Ok (map spec_chat_message conv).
Proof.
  intros Hpid. rewrite omapM_chat.
  - rewrite map_map. f_equal. apply map_ext. intros t. by apply chat_view_turn_message.
  - apply Forall_forall. intros m (t & -> & _)%list_elem_of_fmap. by apply turn_message_role_content.
Qed.

(** ** Reading the stored history back *)

(** The turn a stored message shows, read as lines 110-116 read it: its
    role, and the text the transcript renders for it. *)
Definition read_turn (pid : string) (m : pydict) : option turn :=
  match display_content pid m with
  | Ok v =>
      if py_eq_str (dict_get m "role") "user"
      then match v with PyStr u => Some (TUser u) | _ => None end
      else if py_eq_str (dict_get m "role") "assistant" then Some (TAssistant v) else None
  | Raise _ => None
  end.

Lemma read_turn_message pid t : read_turn pid (turn_message pid t) = Some t.
Proof.
  unfold read_turn. rewrite display_content_turn, turn_message_role.
  destruct t as [u|r]; cbn; repeat case_bool_decide; congruence.
Qed.

(** Storing turns is injective: two conversations stored alike are
    the same conversation. *)
#[export] Instance turn_message_inj pid : Inj (=) (=) (turn_message pid).
Proof.
  intros t1 t2 Heq. apply (f_equal (read_turn pid)) in Heq.
  rewrite !read_turn_message in Heq. congruence.
Qed.

(** C36: the message dicts the script stores lose nothing of the abstract
    conversation, for every provider's message shape: reading back the
    stored history of a conversation, role by role and text by text as
    the transcript reads it, gives that conversation. *)
Theorem stored_history_roundtrip pid conv :
  mapM (read_turn pid) (map (turn_message pid) conv) = Some conv.
Proof. apply mapM_fmap_Some. apply read_turn_message. Qed.

(** ** Refinement of the adapter *)

(** Each branch of the adapter, on the stored conversation followed by
    the new user message, builds the request of the specification. *)
Lemma encode_stored p conv prompt :
  let hist := map (turn_message (provider_id p)) (conv ++ [TUser prompt]) in
  encode p hist hist = Ok (spec_encode p conv prompt).
Proof.
  intros hist. unfold hist. destruct p eqn:Hp; cbn [encode spec_encode].
  - rewrite map_app. cbn. rewrite list_last_snoc. cbn.
    unfold user_message. case_bool_decide; [|done]. cbn. by rewrite getitem_insert_eq.
  - by rewrite omapM_chat_turns.
  - by rewrite omapM_chat_turns.
  - by rewrite omapM_chat_turns.
  - rewrite map_app. cbn. autorewrite with pysimpl.
    rewrite (omapM_Ok_map _ cohere_view).
    + cbn. unfold user_message. case_bool_decide; [done|]. rewrite getitem_insert_eq. cbn.
      f_equal. f_equal. rewrite map_map. apply map_ext. intros t.
      by apply cohere_view_turn_message.
    + intros m (t & -> & _)%list_elem_of_fmap.
      apply to_cohere_turn_ok, turn_message_role_content. done.
Qed.

Lemma model_reply_stored `{Vendor} c p conv prompt :
  model_reply c p (map (turn_message (provider_id p)) (conv ++ [TUser prompt])) =
    spec_reply c p conv prompt.
Proof. unfold model_reply, exchange, spec_reply. by rewrite encode_stored. Qed.

(** ** Refinement of [ask] *)

Section Ask.
Context `{Vendor}.

(** C5: a chat interaction on a configured session that stores the
    abstract conversation [conv] (any conversation, stored in the
    provider's message shape) stores afterwards [ask_spec conv prompt
    reply], where [reply] is the specification's reply: the vendor's
    answer to the request the specification prescribes for [conv]
    followed by the prompt, or the error text when the call fails. *)
Theorem chat_refines_ask inp s p key conv prompt :
  in_set_key inp = false -> in_provider_name inp ∈ provider_names ->
  in_prompt inp = Some prompt -> prompt <> "" ->
  ss_api_key s = Some key -> ss_provider s = Some (provider_id p) ->
  ss_messages s = Some (map (turn_message (provider_id p)) conv) ->
  vendor_init p key = Ok tt ->
  ss_messages (pg_session (run_page inp s)) =
    Some (map (turn_message (provider_id p))
              (ask_spec conv prompt (spec_reply (mk_client p key) p conv prompt))).
Proof.
  intros Hb Hname Hp Hne Hk Hprov Hms Hi.
  rewrite (run_page_chat_eq inp s p key conv prompt Hb Hname Hp Hne Hk Hprov Hms Hi). cbn.
  f_equal. unfold ask_spec. rewrite <-(model_reply_stored (mk_client p key) p conv prompt).
  rewrite !map_app. cbn. by rewrite <-app_assoc.
Qed.
End Ask.

(** With Cohere, a conversation of one exchange and the prompt ["Bye"]:
    the stored history is the abstract [ask] with the vendor's reply. *)
Lemma chat_refines_ask_witness :
  let conv := [TUser "Hello"; TAssistant (PyStr "Hi there")] in
  let s := mk_session (Some "co-key") (Some "cohere") (Some (map (turn_message "cohere") conv)) in
  ss_messages (pg_session (@run_page (fixed_reply_vendor "Goodbye")
                             (mk_input "Cohere" "co-key" false (Some "Bye")) s)) =
    Some (map (turn_message "cohere")
              (ask_spec conv "Bye" (@spec_reply (fixed_reply_vendor "Goodbye")
                                      (mk_client Cohere "co-key") Cohere conv "Bye"))).
Proof.
  intros conv s.
  apply (@chat_refines_ask (fixed_reply_vendor "Goodbye") _ s Cohere "co-key" conv "Bye");
    try reflexivity; try discriminate.
  apply list_elem_of_In. cbn. tauto.
Defined.
