(* ===== verification/Runtime.v ===== *)
(** * The Streamlit runtime around the script: reruns and sequences of
    interactions

    Streamlit runs [src/main.py] from the top for every user action.
    [st.rerun()] (line 53) aborts the run and the runtime starts the
    script again at once, with the widgets keeping their values and the
    button released.  [serve] is that loop, with fuel bounding the number
    of runs and the stop point of the runtime carried into the rerun;
    [serve_run_page] shows two runs always suffice and give the page of
    [run_page_at], which is [run_page], the two-run interaction the rest
    of the development uses, when no stop is requested.  [run_pages]
    runs a sequence of interactions on one browser session: it stores
    at most two messages per interaction; from any reachable state two
    interactions (set the key, ask) store the answer to a prompt; a
    sequence of questions to a configured session grows the history by
    two messages each. *)

From stdpp Require Import base list strings gmap.
From S2P Require Import Prelude Python Registry Store Vendor Adapter Conversation Session Invariant.

Open Scope string_scope.
Open Scope list_scope.
Local Open Scope py_scope.

Section Serve.
Context `{Vendor}.

(** The script runner: run the script; on [st.rerun()] start the next
    run with the widgets of [rerun_input] and what is left of the stop
    point; any other end of the run is the page shown.  [None] when the
    fuel runs out first. *)
Fixpoint serve (fuel : nat) (inp : ui_input) (s : session) (stop : option nat) : option page :=
  match fuel with
  | O => None
  | S fuel' =>
      match script inp (mk_world_at s [] stop) with
      | (Raise RerunRequest, w) => serve fuel' (rerun_input inp) (w_session w) (w_stop w)
      | r => Some (page_of r)
      end
  end.

(** The run [st.rerun()] starts never asks for another one: its button
    is released, so the sidebar can only fail on the provider lookup or
    be stopped, and the main part catches everything but the stop. *)
Lemma script_rerun_input inp w o w' :
  script (rerun_input inp) w = (o, w') -> o <> Raise RerunRequest.
Proof.
  intros Hr ->.
  assert (Hro : raises_only is_Exception_or_stop (script (rerun_input inp))).
  { unfold script. apply raises_only_pbind; [unfold page_setup; frame_split|intros _].
    apply raises_only_pbind; [unfold sidebar, set_key_button; cbn [in_set_key rerun_input]; frame_split|].
    intros _ w0 e w0' Hm. pose proof (main_section_raises_stop _ _ _ _ Hm). by destruct e. }
  by pose proof (Hro _ _ _ Hr).
Qed.

Lemma serve_run_page fuel inp s stop : 2 <= fuel -> serve fuel inp s stop = Some (run_page_at inp s stop).
Proof.
  intros Hf. destruct fuel as [|[|fuel]]; [lia|lia|]. cbn [serve]. unfold run_page_at.
  destruct (script inp (mk_world_at s [] stop)) as [[a|[]] w]; try done. cbn [serve].
  destruct (script (rerun_input inp) (mk_world_at (w_session w) [] (w_stop w))) as [[b|e] w'] eqn:Hr; [done|].
  destruct e; try done. by destruct (script_rerun_input _ _ _ _ Hr).
Qed.

(** C22: the rerun loop of the runtime terminates: from any session
    state, any inputs and any stop point, two runs of the script are
    enough, and the page the runtime shows is the page of
    [run_page_at]. *)
Theorem serve_terminates fuel inp s stop : 2 <= fuel -> serve fuel inp s stop = Some (run_page_at inp s stop).
Proof. apply serve_run_page. Qed.
End Serve.

Lemma serve_terminates_witness :
  2 <= 2 /\
  @serve (fixed_reply_vendor "ok") 2 (mk_input "OpenAI" "sk-test" true None) empty_session None =
    Some (@run_page_at (fixed_reply_vendor "ok") (mk_input "OpenAI" "sk-test" true None) empty_session None).
Proof. split; [lia|]. apply serve_terminates. lia. Defined.

(** ** Sequences of interactions *)

Section Trace.
Context `{Vendor}.

(** The session state after the user's interactions, in order, from [s]. *)
Fixpoint run_pages (inps : list ui_input) (s : session) : session :=
  match inps with
  | [] => s
  | inp :: inps' => run_pages inps' (pg_session (run_page inp s))
  end.

Lemma run_pages_history_length inps s :
  session_wf s -> length (history (run_pages inps s)) <= length (history s) + 2 * length inps.
Proof.
  revert s. induction inps as [|inp inps IH]; intros s Hwf; cbn [run_pages length]; [lia|].
  etrans; [apply IH, run_page_wf, Hwf|].
  destruct (run_page_history inp s Hwf) as [-> | [-> | (p & key & prompt & _ & _ & _ & ->)]];
    rewrite ?length_app; cbn; lia.
Qed.

(** C23: the history grows by at most one exchange per interaction: after
    [n] interactions from a fresh session it holds at most [2 n]
    messages. *)
Theorem history_length_bound inps :
  length (history (run_pages inps empty_session)) <= 2 * length inps.
Proof. apply (run_pages_history_length inps empty_session). by split. Qed.
End Trace.

(** ** A sequence of questions *)

Section Questions.
Context `{Vendor}.

(** One question to a configured session: one exchange appended, the
    provider and the key kept. *)
Lemma run_page_question s p key name prompt :
  session_wf s -> ss_provider s = Some (provider_id p) -> ss_api_key s = Some key ->
  vendor_init p key = Ok tt -> name ∈ provider_names -> prompt <> "" ->
  let s' := pg_session (run_page (mk_input name key false (Some prompt)) s) in
  length (history s') = length (history s) + 2 /\ ss_provider s' = ss_provider s /\
  ss_api_key s' = ss_api_key s.
Proof.
  intros Hwf Hp Hk Hi Hname Hne s'. subst s'.
  destruct (session_wf_history s _ Hwf Hp) as [pairs Hh].
  rewrite <-(run_page_normalize (mk_input name key false (Some prompt)) s eq_refl Hname).
  rewrite (run_page_chat_eq _ _ p key (exchanges pairs) prompt); try done; [|by rewrite Hh].
  cbn. rewrite !length_app, Hh. cbn. split; [lia|done].
Qed.

(** C35: section 8 of the specification: on a configured session whose
    vendor library accepts the key, a sequence of non-empty questions
    makes the history grow by exactly two messages per question, and
    keeps the provider and the key. *)
Theorem questions_grow_history s p key name prompts :
  session_wf s -> ss_provider s = Some (provider_id p) -> ss_api_key s = Some key ->
  vendor_init p key = Ok tt -> name ∈ provider_names -> Forall (fun u => u <> "") prompts ->
  let s' := run_pages (map (fun u => mk_input name key false (Some u)) prompts) s in
  length (history s') = length (history s) + 2 * length prompts /\
  ss_provider s' = ss_provider s /\ ss_api_key s' = ss_api_key s.
Proof.
  intros Hwf Hp Hk Hi Hname Hprompts. revert s Hwf Hp Hk.
  induction Hprompts as [|u prompts Hu _ IH]; intros s Hwf Hp Hk; cbn [map run_pages length]; [split; [lia|done]|].
  destruct (run_page_question s p key name u Hwf Hp Hk Hi Hname Hu) as (Hlen & Hp' & Hk').
  destruct (IH (pg_session (run_page (mk_input name key false (Some u)) s))) as (Hlen2 & Hp2 & Hk2);
    [by apply run_page_wf|congruence|congruence|].
  split; [lia|]. split; congruence.
Qed.
End Questions.

Lemma questions_grow_history_witness :
  session_wf ex_session /\
  let s' := @run_pages (fixed_reply_vendor "ok")
              (map (fun u => mk_input "OpenAI" "sk-test" false (Some u)) ["How are you?"; "Bye"]) ex_session in
  length (history s') = length (history ex_session) + 2 * 2 /\
  ss_provider s' = ss_provider ex_session /\ ss_api_key s' = ss_api_key ex_session.
Proof.
  split; [apply ex_session_wf|].
  apply (@questions_grow_history (fixed_reply_vendor "ok") ex_session OpenAI "sk-test" "OpenAI");
    try reflexivity; [apply ex_session_wf|apply list_elem_of_In; cbn; tauto|].
  repeat constructor; discriminate.
Defined.

(** ** Liveness: configure, then ask *)

Section Liveness.
Context `{Vendor}.

Lemma configure_then_ask s name key prompt p :
  session_wf s ->
  providers_getitem name = Ok (provider_id p) -> key <> "" -> prompt <> "" ->
  vendor_init p key = Ok tt ->
  exists hist, (hist = [] \/ hist = history s) /\
    history (run_pages [mk_input name key true None; mk_input name key false (Some prompt)] s) =
      hist ++ [user_message (provider_id p) prompt;
               assistant_message (model_reply (mk_client p key) p
                                    (hist ++ [user_message (provider_id p) prompt]))].
Proof.
  intros Hwf Hid Hk Hne Hi. cbn [run_pages].
  destruct (run_page_set_key (mk_input name key true None) s _ eq_refl Hk Hid) as [els ->].
  cbn [pg_session in_api_key].
  set (k := keyed_session (provider_id p) key s).
  assert (Hwf1 : session_wf (set_messages (history k) k)).
  { apply keyed_session_wf; [eauto with py|done|done]. }
  destruct (session_wf_history _ (provider_id p) Hwf1 eq_refl) as [pairs Hpairs].
  rewrite history_set_messages in Hpairs.
  rewrite (run_page_chat_eq (mk_input name key false (Some prompt)) _ p key (exchanges pairs) prompt);
    try done; [| apply (providers_getitem_name _ _ Hid) | by rewrite <-Hpairs].
  cbn [pg_session]. rewrite history_set_messages, <-app_assoc, <-Hpairs.
  exists (history k). split; [apply keyed_session_history|done].
Qed.

(** C24: from every reachable session state, whatever happened before,
    the user can always get an answer: selecting a provider whose
    library accepts a non-empty key, pressing "Set API Key", then
    submitting a non-empty prompt stores that prompt and the adapter's
    reply to it as the last two messages, after the history the key
    change kept (empty when the provider changed). *)
Theorem set_key_then_ask_answers s name key prompt p :
  reachable s ->
  providers_getitem name = Ok (provider_id p) -> key <> "" -> prompt <> "" ->
  vendor_init p key = Ok tt ->
  exists hist, (hist = [] \/ hist = history s) /\
    history (run_pages [mk_input name key true None; mk_input name key false (Some prompt)] s) =
      hist ++ [user_message (provider_id p) prompt;
               assistant_message (model_reply (mk_client p key) p
                                    (hist ++ [user_message (provider_id p) prompt]))].
Proof. intros Hr. apply configure_then_ask, reachable_session_wf, Hr. Qed.
End Liveness.

Lemma set_key_then_ask_answers_witness :
  exists hist, (hist = [] \/ hist = history ex_reached) /\
    history (@run_pages (fixed_reply_vendor "Hi there")
               [mk_input "Cohere" "co-key" true None; mk_input "Cohere" "co-key" false (Some "Hi")]
               ex_reached) =
      hist ++ [user_message (provider_id Cohere) "Hi";
               assistant_message (@model_reply (fixed_reply_vendor "Hi there") (mk_client Cohere "co-key")
                                    Cohere (hist ++ [user_message (provider_id Cohere) "Hi"]))].
Proof.
  apply (@set_key_then_ask_answers (fixed_reply_vendor "Hi there") ex_reached "Cohere" "co-key" "Hi" Cohere);
    [apply ex_reached_reachable|reflexivity|discriminate|discriminate|reflexivity].
Defined.
