(* ===== verification/Interrupt.v ===== *)
(** * Runs stopped by the user's next action

    Streamlit runs the script while the page is live: when the user acts
    again during a run (a new prompt submitted while "Thinking..." is
    shown, a widget changed), the runtime stops the run at its next
    Streamlit call, keeps the session state it reached, and starts the
    next run.  [run_page_at] is an interaction whose first run carries
    the stop point [Some n]: [n] elements are rendered, then the next
    Streamlit call raises [StopRequest].

    A chat turn appends the user message (line 130) before its four
    elements and the vendor call, and the assistant message (lines 146
    and 149) after them: [stopped_chat_interaction] gives a chat
    interaction at every stop point, whose page is a prefix of the
    complete page, and shows that a stop at any of these four elements
    stores the prompt without its reply.
    [session_wf_weak] is the invariant of the specification (section 3,
    Conversation): the history is a sequence of user messages each
    followed by at most one reply; [reachable_stopped_wf_weak] shows
    every state reachable by interactions that may be stopped satisfies
    it, and the witness reaches a history with two user messages in a
    row. *)

From stdpp Require Import base list strings gmap.
From S2P Require Import Prelude Python Registry Store Vendor Adapter Conversation Session Invariant.

Open Scope string_scope.
Open Scope list_scope.
Local Open Scope py_scope.

(** ** A chat turn stopped at one of its elements *)

Section StoppedTurn.
Context `{Vendor}.

Lemma chat_turn_stopped p key prompt s pg hist j :
  ss_messages s = Some hist -> j < 4 ->
  let um := user_message (provider_id p) prompt in
  let reply := model_reply (mk_client p key) p (hist ++ [um]) in
  chat_turn (Some (mk_client p key)) (provider_id p) prompt (mk_world_at s pg (Some j)) =
    (Raise StopRequest,
     mk_world_at (set_messages (hist ++ [um]) s) (pg ++ take j (turn_elements prompt reply)) (Some 0)).
Proof.
  intros Hms Hj um reply. unfold chat_turn.
  rewrite (pbind_Ok _ _ _ _ _ (messages_append_run _ _ _ _ _ Hms)).
  destruct j as [|[|[|[|j]]]]; [..|lia]; cbn -[get_model_response];
    [| | |erewrite pbind_Ok; [|apply get_model_response_run; reflexivity]; cbn];
    by rewrite <-?app_assoc, ?app_nil_r.
Qed.

(** The configured part of a run with a prompt, stopped at the [j]-th
    element of the chat turn. *)
Lemma configured_body_stopped inp p key conv prompt s pg j :
  in_prompt inp = Some prompt -> prompt <> "" ->
  ss_messages s = Some (map (turn_message (provider_id p)) conv) ->
  vendor_init p key = Ok tt -> j < 4 ->
  let els := concat (map render_turn conv) in
  let hist := map (turn_message (provider_id p)) conv ++ [user_message (provider_id p) prompt] in
  let reply := model_reply (mk_client p key) p hist in
  configured_body inp (provider_id p) key (mk_world_at s pg (Some (length els + S j))) =
    (Raise StopRequest,
     mk_world_at (set_messages hist s)
                 (pg ++ els ++ ElChatInput chat_input_placeholder :: take j (turn_elements prompt reply))
                 (Some 0)).
Proof.
  intros Hp Hne Hms Hi Hj els hist reply. unfold configured_body.
  rewrite (pbind_Ok _ _ _ _ _ (init_client_ok _ _ _ Hi)).
  rewrite (pbind_Ok _ _ _ _ _ (display_messages_render_at _ _ _ _ _ Hms (stop_after_Some _ _))).
  rewrite countdown_Some, (pbind_Ok _ _ _ _ _ (emit_tick_run _ _ _ _)).
  rewrite Hp. case_bool_decide; [done|].
  rewrite (chat_turn_stopped p key prompt _ _ _ _ Hms Hj).
  by rewrite <-!app_assoc.
Qed.

(** The stop point of the [j]-th element of the chat turn, in an
    interaction without a press on a configured session. *)
Definition turn_stop_point (inp : ui_input) (conv : conversation) (j : nat) : nat :=
  length (page_head ++ sidebar_widgets (in_provider_name inp) ++ concat (map render_turn conv) ++
          [ElChatInput chat_input_placeholder]) + j.

End StoppedTurn.

(** ** The invariant of the specification under stopped runs *)

(** Section 3 of the specification: nothing configured, or a registered
    provider with a non-empty key and a history of attempts, each a user
    message with a non-empty prompt followed by at most one reply, in
    the provider's message shape. *)
Definition session_wf_weak (s : session) : Prop :=
  match ss_provider s with
  | None => ss_api_key s = None /\ history s = []
  | Some pid =>
      registered pid /\
      (exists key, ss_api_key s = Some key /\ key <> "") /\
      exists asks : list (string * option pyval),
        Forall (fun a => a.1 <> "") asks /\
        history s = map (turn_message pid) (attempts asks)
  end.

Lemma session_wf_weak_of_wf s : session_wf s -> session_wf_weak s.
Proof.
  unfold session_wf, session_wf_weak. destruct (ss_provider s) as [pid|]; [|done].
  intros (Hreg & Hkey & pairs & Hpairs & Hh). split; [done|]. split; [done|].
  exists (map (fun '(u, r) => (u, Some r)) pairs). rewrite <-exchanges_attempts. split; [|done].
  apply Forall_fmap. eapply Forall_impl; [exact Hpairs|]. by intros [u r].
Qed.

(** Appending one more attempt under the stored provider. *)
Lemma session_wf_weak_attempt s p prompt r :
  session_wf_weak s -> ss_provider s = Some (provider_id p) -> prompt <> "" ->
  session_wf_weak (set_messages (history s ++ user_message (provider_id p) prompt ::
                                 from_option (fun r => [assistant_message r]) [] r) s).
Proof.
  destruct s as [k pid ms]. unfold session_wf_weak, history. cbn. intros Hwf -> Hne.
  destruct Hwf as (Hreg & Hkey & asks & Hasks & Hhist). split; [done|]. split; [done|].
  exists (asks ++ [(prompt, r)]). split.
  - apply Forall_app. split; [done|]. by constructor.
  - rewrite Hhist, attempts_snoc, map_app. by destruct r.
Qed.

Lemma session_wf_weak_asked s p prompt :
  session_wf_weak s -> ss_provider s = Some (provider_id p) -> prompt <> "" ->
  session_wf_weak (asked s p prompt).
Proof. intros. unfold asked. rewrite <-(app_nil_r [_]). by apply (session_wf_weak_attempt s p prompt None). Qed.

Lemma session_wf_weak_set_history s : session_wf_weak s -> session_wf_weak (set_messages (history s) s).
Proof. by destruct s as [k [p|] ms]. Qed.

Lemma session_wf_weak_keyed id key s :
  registered id -> key <> "" -> session_wf_weak s -> session_wf_weak (keyed_session id key s).
Proof.
  intros Hid Hkey Hwf. unfold keyed_session.
  destruct s as [k [p|] ms]; cbn in *.
  - destruct Hwf as (_ & _ & asks & Hasks & Hhist). case_bool_decide as Hne; cbn.
    + split; [done|]. split; [by eexists|]. by exists [].
    + subst p. split; [done|]. split; [by eexists|]. by exists asks.
  - destruct Hwf as [_ Hhist]. split; [done|]. split; [by eexists|].
    exists []. split; [done|]. exact Hhist.
Qed.

Lemma session_wf_weak_registered s pid : session_wf_weak s -> ss_provider s = Some pid -> registered pid.
Proof. unfold session_wf_weak. intros Hwf Hp. rewrite Hp in Hwf. by destruct Hwf. Qed.

Abbreviation weak_world := (fun w => session_wf_weak (w_session w)).

Section Keeps.
Context `{Vendor}.

Lemma session_wf_weak_answered s p key prompt :
  session_wf_weak s -> ss_provider s = Some (provider_id p) -> prompt <> "" ->
  session_wf_weak (answered s p key prompt).
Proof. intros. by apply (session_wf_weak_attempt s p prompt (Some _)). Qed.

Lemma main_section_keeps_weak inp : keeps weak_world (main_section inp).
Proof.
  intros w o w' Hrun Hwf.
  apply main_section_effect_any in Hrun
    as [-> | (p & key & prompt & Hne & Hp & _ & _ & [[_ ->]|[_ ->]])];
    [by apply session_wf_weak_set_history
    |by apply session_wf_weak_answered|by apply session_wf_weak_asked|].
  intros pid. by apply session_wf_weak_registered.
Qed.

Lemma set_key_button_keeps_weak inp id : registered id -> keeps weak_world (set_key_button inp id).
Proof.
  intros Hid w o w' Hr Hwf.
  apply set_key_button_effect in Hr as [-> | (_ & Hk & ->)]; [done|by apply session_wf_weak_keyed].
Qed.

Lemma sidebar_keeps_weak inp : keeps weak_world (sidebar inp).
Proof.
  unfold sidebar. do 2 (apply keeps_pbind; [apply keeps_preserves, emit_preserves|intros _]).
  intros w o w' Hr. unfold pbind at 1 in Hr. cbn [plift] in Hr.
  destruct (providers_getitem (in_provider_name inp)) as [id|e] eqn:Hid; [|by injection Hr as _ <-].
  revert w o w' Hr. do 2 (apply keeps_pbind; [apply keeps_preserves, emit_preserves|intros _]).
  apply set_key_button_keeps_weak. eauto with py.
Qed.

Lemma script_keeps_weak inp : keeps weak_world (script inp).
Proof.
  unfold script, page_setup. apply keeps_pbind.
  - apply keeps_pfor. intros el. apply keeps_preserves, emit_preserves.
  - intros _. apply keeps_pbind; [apply sidebar_keeps_weak|intros _; apply main_section_keeps_weak].
Qed.

(** Every interaction, stopped or not, keeps the invariant. *)
Lemma run_page_at_wf_weak inp s stop :
  session_wf_weak s -> session_wf_weak (pg_session (run_page_at inp s stop)).
Proof.
  intros Hwf. unfold run_page_at.
  destruct (script inp (mk_world_at s [] stop)) as [o w] eqn:Hr.
  pose proof (script_keeps_weak inp _ _ _ Hr Hwf) as Hw.
  assert (Hpage : forall o' w', session_wf_weak (w_session w') -> session_wf_weak (pg_session (page_of (o', w')))).
  { by intros [] w'. }
  destruct o as [a|[]]; try by apply Hpage.
  destruct (script (rerun_input inp) (mk_world_at (w_session w) [] (w_stop w))) as [o' w'] eqn:Hr'.
  apply Hpage. exact (script_keeps_weak _ _ _ _ Hr' Hw).
Qed.
End Keeps.

(** In a session that satisfies the invariant, every assistant message
    comes right after a user message. *)
Lemma session_wf_weak_roles s i m :
  session_wf_weak s -> history s !! i = Some m -> dict_get m "role" = PyStr "assistant" ->
  exists j m', i = S j /\ history s !! j = Some m' /\ dict_get m' "role" = PyStr "user".
Proof.
  unfold session_wf_weak. destruct (ss_provider s) as [pid|]; [|intros [_ ->]; done].
  intros (_ & _ & asks & _ & ->). rewrite !list_lookup_fmap.
  intros (t & Ht & ->)%fmap_Some. rewrite turn_message_role.
  destruct t as [u|r]; [done|]. intros _.
  destruct (attempts_lookup_assistant asks i r Ht) as (j & u & -> & Hu).
  exists j, (turn_message pid (TUser u)). unfold conversation in Hu. rewrite list_lookup_fmap, Hu.
  split_and!; [done|done|apply turn_message_role].
Qed.

(** ** Reachable states when runs may be stopped *)

Inductive reachable_stopped `{Vendor} : session -> Prop :=
| reachable_stopped_init : reachable_stopped empty_session
| reachable_stopped_step inp stop s :
    reachable_stopped s -> reachable_stopped (pg_session (run_page_at inp s stop)).

Section Reachable.
Context `{Vendor}.

(** Interactions that are not stopped are those of [reachable]. *)
Lemma reachable_stopped_of_reachable s : reachable s -> reachable_stopped s.
Proof.
  induction 1 as [|inp s _ IH]; [constructor|].
  rewrite <-run_page_at_None. by constructor.
Qed.

Lemma reachable_stopped_weak s : reachable_stopped s -> session_wf_weak s.
Proof.
  induction 1 as [|inp stop s _ IH]; [by split|]. by apply run_page_at_wf_weak.
Qed.
End Reachable.

(** ** Stops before the chat turn *)

Section StoppedEarly.
Context `{Vendor}.

Lemma pfor_emit_stopped (els : list element) s pg n :
  n < length els ->
  pfor emit els (mk_world_at s pg (Some n)) = (Raise StopRequest, mk_world_at s (pg ++ take n els) (Some 0)).
Proof.
  revert pg n. induction els as [|el els IH]; intros pg n Hn; cbn in Hn; [lia|].
  destruct n as [|n]; cbn [pfor]; [by rewrite (pbind_Raise _ _ _ _ _ (emit_stop_run _ _ _)), app_nil_r|].
  rewrite (pbind_Ok _ _ _ _ _ (emit_tick_run _ _ _ _)), (IH _ n ltac:(lia)).
  by rewrite <-app_assoc.
Qed.

Lemma display_message_turn_stopped pid t s pg n :
  n < length (render_turn t) ->
  display_message pid (turn_message pid t) (mk_world_at s pg (Some n)) =
    (Raise StopRequest, mk_world_at s (pg ++ take n (render_turn t)) (Some 0)).
Proof.
  unfold display_message. rewrite turn_message_role, display_content_turn. cbn [pbind plift].
  unfold render_turn. destruct (truthy (turn_text t)); cbn [length]; [|lia].
  intros Hn. destruct n as [|[|n]]; [..|lia]; cbn; by rewrite ?app_nil_r.
Qed.

Lemma display_messages_stopped pid (conv : conversation) s pg n :
  ss_messages s = Some (map (turn_message pid) conv) ->
  let els := concat (map render_turn conv) in
  n < length els ->
  display_messages pid (mk_world_at s pg (Some n)) =
    (Raise StopRequest, mk_world_at s (pg ++ take n els) (Some 0)).
Proof.
  intros Hms els. unfold display_messages.
  rewrite (pbind_Ok _ _ _ _ _ (messages_get_run _ _ _ _ Hms)). subst els. clear Hms.
  revert pg n. induction conv as [|t conv IH]; intros pg n; cbn [map concat pfor length]; [lia|].
  rewrite length_app. intros Hn.
  destruct (decide (n < length (render_turn t))) as [Ht|Ht].
  - rewrite (pbind_Raise _ _ _ _ _ (display_message_turn_stopped pid t s pg n Ht)).
    by rewrite take_app_le by lia.
  - replace n with (length (render_turn t) + (n - length (render_turn t))) by lia.
    rewrite (pbind_Ok _ _ _ _ _ (display_message_turn_at pid t s pg _ (stop_after_Some _ _))).
    rewrite countdown_Some, (IH _ (n - length (render_turn t)) ltac:(lia)), take_app_add. by rewrite app_assoc.
Qed.

(** The sidebar of an interaction without a press, stopped at one of its
    widgets. *)
Lemma sidebar_idle_stopped inp s pg n :
  in_set_key inp = false -> in_provider_name inp ∈ provider_names -> n < 4 ->
  sidebar inp (mk_world_at s pg (Some n)) =
    (Raise StopRequest, mk_world_at s (pg ++ take n (sidebar_widgets (in_provider_name inp))) (Some 0)).
Proof.
  intros Hb Hname Hn. destruct (providers_getitem_total _ Hname) as (id & Hid & _).
  unfold sidebar. destruct n as [|[|[|[|n]]]]; [..|lia]; cbn; rewrite ?Hid; cbn;
    by rewrite <-?app_assoc, ?app_nil_r.
Qed.

(** The configured part of a chat interaction, at every stop point:
    stopped in the transcript or at the chat input with nothing stored,
    stopped in the chat turn with the user message alone, or complete. *)
Lemma configured_body_chat_stop inp p key conv prompt s pg n :
  in_prompt inp = Some prompt -> prompt <> "" ->
  ss_messages s = Some (map (turn_message (provider_id p)) conv) ->
  vendor_init p key = Ok tt ->
  let hist := map (turn_message (provider_id p)) conv ++ [user_message (provider_id p) prompt] in
  let reply := model_reply (mk_client p key) p hist in
  let tr := concat (map render_turn conv) in
  let els := tr ++ ElChatInput chat_input_placeholder :: turn_elements prompt reply in
  configured_body inp (provider_id p) key (mk_world_at s pg (Some n)) =
    if bool_decide (n < length els) then
      (Raise StopRequest,
       mk_world_at (if bool_decide (n <= length tr) then s else set_messages hist s) (pg ++ take n els) (Some 0))
    else (Ok tt, mk_world_at (set_messages (hist ++ [assistant_message reply]) s) (pg ++ els) (Some (n - length els))).
Proof.
  intros Hp Hne Hms Hi hist reply tr els. unfold els, tr.
  set (t := length (concat (map render_turn conv))).
  assert (Hlen : length (concat (map render_turn conv) ++ ElChatInput chat_input_placeholder ::
                         turn_elements prompt reply) = t + 5) by (rewrite length_app; cbn; lia).
  rewrite Hlen.
  destruct (decide (n < t)) as [Htr|Htr]; [|destruct (decide (n = t)) as [->|Hn]].
  - rewrite !bool_decide_true by lia.
    unfold configured_body. rewrite (pbind_Ok _ _ _ _ _ (init_client_ok _ _ _ Hi)).
    rewrite (pbind_Raise _ _ _ _ _ (display_messages_stopped _ _ _ _ _ Hms Htr)).
    by rewrite take_app_le by lia.
  - rewrite !bool_decide_true by lia. rewrite <-(Nat.add_0_r t) at 1.
    unfold configured_body. rewrite (pbind_Ok _ _ _ _ _ (init_client_ok _ _ _ Hi)).
    rewrite (pbind_Ok _ _ _ _ _ (display_messages_render_at _ _ _ _ _ Hms (stop_after_Some _ _))).
    rewrite countdown_Some, (pbind_Raise _ _ _ _ _ (emit_stop_run _ _ _)).
    by rewrite take_app_length' by reflexivity.
  -     destruct (decide (n < t + 5)) as [Hj|Hj].
    + rewrite bool_decide_true, bool_decide_false by lia.
      replace n with (t + S (n - t - 1)) by lia.
      pose proof (configured_body_stopped inp p key conv prompt s pg (n - t - 1) Hp Hne Hms Hi ltac:(lia))
        as Hc. cbv zeta in Hc. fold t in Hc. rewrite Hc.
      rewrite take_app_add' by reflexivity. by replace (S (n - t - 1) - 1) with (n - t - 1) by lia.
    + rewrite bool_decide_false by lia.
      replace n with (t + 1 + 4 + (n - (t + 5))) at 1 by lia.
      pose proof (configured_body_chat_at inp p key conv prompt s pg _ Hp Hne Hms Hi (stop_after_Some _ (n - (t + 5))))
        as Hc. cbv zeta in Hc. fold t in Hc. rewrite Hc, countdown_Some. reflexivity.
Qed.

(** A chat interaction at every stop point: the page is the first [n]
    elements of the complete page, and the session keeps the history
    before the chat turn, the user message alone within it, or the whole
    exchange once the run completes. *)
Lemma run_page_at_chat_stop inp s p key conv prompt n :
  in_set_key inp = false -> in_provider_name inp ∈ provider_names ->
  in_prompt inp = Some prompt -> prompt <> "" ->
  ss_api_key s = Some key -> ss_provider s = Some (provider_id p) ->
  ss_messages s = Some (map (turn_message (provider_id p)) conv) ->
  vendor_init p key = Ok tt ->
  let hist := map (turn_message (provider_id p)) conv ++ [user_message (provider_id p) prompt] in
  let reply := model_reply (mk_client p key) p hist in
  let els := page_head ++ sidebar_widgets (in_provider_name inp) ++ concat (map render_turn conv) ++
             ElChatInput chat_input_placeholder :: turn_elements prompt reply in
  run_page_at inp s (Some n) =
    if bool_decide (n < length els) then
      mk_page (if bool_decide (n < turn_stop_point inp conv 0) then s else set_messages hist s)
              (take n els) (Some StopRequest)
    else mk_page (set_messages (hist ++ [assistant_message reply]) s) els None.
Proof.
  intros Hb Hname Hp Hne Hk Hprov Hms Hi hist reply els.
  assert (Hlen : length els = 7 + length (concat (map render_turn conv) ++
                   ElChatInput chat_input_placeholder :: turn_elements prompt reply))
    by (unfold els; rewrite !length_app; cbn; lia).
  assert (Hpt : turn_stop_point inp conv 0 = 7 + length (concat (map render_turn conv)) + 1)
    by (unfold turn_stop_point; rewrite !length_app; cbn; lia).
  rewrite Hlen, Hpt. unfold run_page_at.
  destruct (decide (n < 3)) as [H3|H3]; [|destruct (decide (n < 7)) as [H7|H7]].
  - unfold script, page_setup. rewrite (pbind_Raise _ _ _ _ _ (pfor_emit_stopped page_head s [] n H3)).
    rewrite !bool_decide_true by lia. unfold els. by rewrite take_app_le by (cbn; lia).
  - replace n with (3 + (n - 3)) by lia.
    rewrite (script_run_at _ _ _ (stop_after_Some _ _)), countdown_Some.
    rewrite (pbind_Raise _ _ _ _ _ (sidebar_idle_stopped _ _ _ (n - 3) Hb Hname ltac:(lia))).
    rewrite !bool_decide_true by lia. unfold els.
    rewrite take_app_add' by reflexivity. by rewrite take_app_le by (cbn; lia).
  - replace n with (3 + (4 + (n - 7))) by lia.
    rewrite (script_run_at _ _ _ (stop_after_Some _ _)), countdown_Some.
    rewrite (pbind_Ok _ _ _ _ _ (sidebar_idle_at _ _ _ _ Hb Hname (stop_after_Some _ _))), countdown_Some.
    unfold main_section. rewrite (pbind_Ok _ _ _ _ _ (messages_init_run _ _ _)).
    cbn [pbind get_session pget pret w_session].
    rewrite (set_messages_history _ _ Hms), Hk, Hprov. unfold ptry.
    rewrite (configured_body_chat_stop inp p key conv prompt s _ (n - 7) Hp Hne Hms Hi).
    unfold els. rewrite !take_app_add' by reflexivity.
    unfold reply, hist in *. repeat case_bool_decide; try lia; cbn; by rewrite ?app_nil_r.
Qed.
End StoppedEarly.

(** ** Properties *)

Section Claims.
Context `{Vendor}.

(** C16: a chat interaction on a configured session, stopped by the
    user's next action after [n] rendered elements, shows the first [n]
    elements of the complete page and ends with the stop; stopped before
    the chat turn it stores nothing, stopped at any of the turn's four
    elements (the user's bubble and text, the assistant's bubble, the
    reply's text after the vendor call) it keeps the user message of
    line 130 without a reply, and with [n] past the last element it
    completes the exchange as an interaction that is not stopped. *)
Theorem stopped_chat_interaction inp s p key conv prompt n :
  in_set_key inp = false -> in_provider_name inp ∈ provider_names ->
  in_prompt inp = Some prompt -> prompt <> "" ->
  ss_api_key s = Some key -> ss_provider s = Some (provider_id p) ->
  ss_messages s = Some (map (turn_message (provider_id p)) conv) ->
  vendor_init p key = Ok tt ->
  let hist := map (turn_message (provider_id p)) conv ++ [user_message (provider_id p) prompt] in
  let reply := model_reply (mk_client p key) p hist in
  let els := page_head ++ sidebar_widgets (in_provider_name inp) ++ concat (map render_turn conv) ++
             ElChatInput chat_input_placeholder :: turn_elements prompt reply in
  run_page_at inp s (Some n) =
    if bool_decide (n < length els) then
      mk_page (if bool_decide (n < turn_stop_point inp conv 0) then s else set_messages hist s)
              (take n els) (Some StopRequest)
    else mk_page (set_messages (hist ++ [assistant_message reply]) s) els None.
Proof. apply run_page_at_chat_stop. Qed.

(** C17: when any interaction may be stopped, every reachable session
    state satisfies the invariant of the specification (section 3)
    rather than strict alternation: a registered provider, a non-empty
    key, and a history of user messages with non-empty prompts, each
    followed by at most one assistant message; so every assistant
    message comes right after a user message. *)
Theorem reachable_stopped_wf_weak s :
  reachable_stopped s ->
  session_wf_weak s /\
  forall i m, history s !! i = Some m -> dict_get m "role" = PyStr "assistant" ->
    exists j m', i = S j /\ history s !! j = Some m' /\ dict_get m' "role" = PyStr "user".
Proof.
  intros Hr. pose proof (reachable_stopped_weak s Hr) as Hwf.
  split; [done|]. intros i m. by apply session_wf_weak_roles.
Qed.
End Claims.

(** ** Witnesses *)

(** The key set, then "Hello" asked and stopped at the assistant's
    bubble, then "Hello again" asked: two user messages in a row. *)
Definition ex_stopped_keyed : session :=
  pg_session (@run_page_at (fixed_reply_vendor "Hi there") (mk_input "OpenAI" "sk-test" true None)
                empty_session None).

Definition ex_stopped_asked : session :=
  pg_session (@run_page_at (fixed_reply_vendor "Hi there") (mk_input "OpenAI" "sk-test" false (Some "Hello"))
                ex_stopped_keyed (Some 10)).

Definition ex_stopped : session :=
  pg_session (@run_page_at (fixed_reply_vendor "Hi there")
                (mk_input "OpenAI" "sk-test" false (Some "Hello again")) ex_stopped_asked None).

(** "Hello" asked of the keyed session and stopped after ten elements,
    at the assistant's bubble: the user message is stored alone. *)
Lemma stopped_chat_interaction_witness :
  let inp := mk_input "OpenAI" "sk-test" false (Some "Hello") in
  "OpenAI" ∈ provider_names /\
  pg_session (@run_page_at (fixed_reply_vendor "Hi there") inp ex_stopped_keyed (Some 10)) =
    set_messages [user_message "openai" "Hello"] ex_stopped_keyed /\
  pg_uncaught (@run_page_at (fixed_reply_vendor "Hi there") inp ex_stopped_keyed (Some 10)) = Some StopRequest.
Proof.
  intros inp. assert (Hname : "OpenAI" ∈ provider_names) by (apply list_elem_of_In; cbn; tauto).
  split; [exact Hname|].
  rewrite (@stopped_chat_interaction (fixed_reply_vendor "Hi there") inp ex_stopped_keyed OpenAI "sk-test" []
             "Hello" 10); try reflexivity; [|exact Hname|discriminate].
  vm_compute. split; reflexivity.
Defined.

Lemma reachable_stopped_wf_weak_witness :
  map (fun m => dict_get m "role") (history ex_stopped) = [PyStr "user"; PyStr "user"; PyStr "assistant"] /\
  session_wf_weak ex_stopped /\
  forall i m, history ex_stopped !! i = Some m -> dict_get m "role" = PyStr "assistant" ->
    exists j m', i = S j /\ history ex_stopped !! j = Some m' /\ dict_get m' "role" = PyStr "user".
Proof.
  split; [vm_compute; reflexivity|].
  apply (@reachable_stopped_wf_weak (fixed_reply_vendor "Hi there")).
  repeat constructor.
Defined.
