(* ===== verification/Controller.v ===== *)
(** * The session controller of the specification, and the script as its
    implementation

    Section 4.4 of the specification describes the session controller as
    a state machine: [UNCONFIGURED], or [READY] with a provider, a
    credential and the conversation; a valid selection (a non-empty
    credential for a registered provider) moves to [READY], clearing the
    conversation when the provider changes; [ask] appends the user's
    turn and the reply.  [ctrl_step] is that machine, with the selection
    rule the script implements: selecting the stored provider again with
    another credential keeps the conversation, where the specification
    asks for it to be cleared (a finding of the development).  An [ask]
    needs the vendor library to accept the credential: otherwise the
    script shows a configuration error and stores nothing.

    [ctrl_abs] relates a session state to an abstract state.  The
    theorems: every interaction from a reachable state is matched by at
    most one abstract step ([run_page_simulated]), so every sequence of
    interactions from a fresh session is matched by a run of the
    abstract machine ([trace_refines_controller]). *)

From stdpp Require Import base list strings gmap relations.
From S2P Require Import Prelude Python Registry Store Vendor Adapter Conversation Session Invariant.
From S2P Require Import Refinement Runtime.

Open Scope string_scope.
Open Scope list_scope.

Inductive ctrl_state : Type :=
| Unconfigured
| Ready (p : provider) (credential : string) (conv : conversation).

Section Machine.
Context `{Vendor}.

Inductive ctrl_step : ctrl_state -> ctrl_state -> Prop :=
| ctrl_select_first p cred :
    cred <> "" -> ctrl_step Unconfigured (Ready p cred [])
| ctrl_select_switch p cred conv p' cred' :
    cred' <> "" -> p' <> p -> ctrl_step (Ready p cred conv) (Ready p' cred' [])
| ctrl_select_same p cred conv cred' :
    cred' <> "" -> ctrl_step (Ready p cred conv) (Ready p cred' conv)
| ctrl_ask p cred conv prompt :
    prompt <> "" -> vendor_init p cred = Ok tt ->
    ctrl_step (Ready p cred conv)
              (Ready p cred (ask_spec conv prompt (spec_reply (mk_client p cred) p conv prompt))).

(** A session state represents an abstract state: nothing stored, or the
    provider's id, the credential and the conversation in the provider's
    message shape. *)
Definition ctrl_abs (s : session) (a : ctrl_state) : Prop :=
  match a with
  | Unconfigured => ss_provider s = None /\ ss_api_key s = None /\ history s = []
  | Ready p cred conv =>
      ss_provider s = Some (provider_id p) /\ ss_api_key s = Some cred /\ cred <> "" /\
      history s = map (turn_message (provider_id p)) conv
  end.
End Machine.

(** ** Simulation of one interaction *)

Section Simulation.
Context `{Vendor}.

Lemma ctrl_abs_set_history s a : ctrl_abs s a -> ctrl_abs (set_messages (history s) s) a.
Proof. by destruct a. Qed.

(** Setting a key matches a selection step. *)
Lemma ctrl_abs_keyed s a id key :
  registered id -> key <> "" -> ctrl_abs s a ->
  let k := keyed_session id key s in
  exists a', ctrl_step a a' /\ ctrl_abs (set_messages (history k) k) a'.
Proof.
  intros [p' Hp'] Hkey Habs k. apply provider_of_id_Some in Hp' as ->. subst k.
  unfold keyed_session. destruct a as [|p cred conv]; cbn in Habs.
  - destruct Habs as (-> & _ & Hh). exists (Ready p' key []).
    split; [by constructor|]. cbn [ctrl_abs]. split_and!; [done..|exact Hh].
  - destruct Habs as (-> & _ & _ & Hh). case_bool_decide as Hne.
    + exists (Ready p' key []). split; [|done].
      constructor; [done|]. by intros ->.
    + apply (inj provider_id) in Hne as <-.
      exists (Ready p key conv). split; [by constructor|]. cbn [ctrl_abs]. split_and!; [done..|exact Hh].
Qed.

(** A chat turn matches an [ask] step, with the specification's reply. *)
Lemma ctrl_abs_answered s a p key prompt :
  ctrl_abs s a -> ss_provider s = Some (provider_id p) -> ss_api_key s = Some key ->
  prompt <> "" -> vendor_init p key = Ok tt ->
  exists a', ctrl_step a a' /\ ctrl_abs (answered s p key prompt) a'.
Proof.
  intros Habs Hp Hk Hne Hi. destruct a as [|p0 cred conv]; cbn in Habs; [by destruct Habs; congruence|].
  destruct Habs as (Hp0 & Hcred & Hcne & Hh).
  rewrite Hp in Hp0. injection Hp0 as ->%(inj provider_id).
  rewrite Hk in Hcred. injection Hcred as <-.
  eexists. split; [by apply ctrl_ask|]. cbn. split; [done|]. split; [done|]. split; [done|].
  unfold ask_spec. rewrite Hh, <-(model_reply_stored (mk_client p0 key) p0 conv prompt).
  by rewrite !map_app.
Qed.

Lemma run_page_ctrl inp s a :
  session_wf s -> ctrl_abs s a ->
  exists a', (a' = a \/ ctrl_step a a') /\ ctrl_abs (pg_session (run_page inp s)) a'.
Proof.
  intros Hwf Habs.
  destruct (run_page_session inp s Hwf)
    as [-> | [-> | [(id & Hid & Hk & ->) | (p & key & prompt & Hne & Hp & Hkey & Hi & ->)]]].
  - by exists a; split; [left|].
  - exists a. split; [by left|]. by apply ctrl_abs_set_history.
  - destruct (ctrl_abs_keyed s a id (in_api_key inp) Hid Hk Habs) as (a' & Hst & Ha').
    exists a'. split; [by right|done].
  - destruct (ctrl_abs_answered s a p key prompt Habs Hp Hkey Hne Hi) as (a' & Hst & Ha').
    exists a'. split; [by right|done].
Qed.

Lemma run_pages_ctrl inps s a :
  session_wf s -> rtc ctrl_step Unconfigured a -> ctrl_abs s a ->
  exists a', rtc ctrl_step Unconfigured a' /\ ctrl_abs (run_pages inps s) a'.
Proof.
  revert s a. induction inps as [|inp inps IH]; intros s a Hwf Hrtc Habs; [by exists a|].
  destruct (run_page_ctrl inp s a Hwf Habs) as (a' & Hst & Ha').
  apply (IH _ a'); [by apply run_page_wf| |done].
  destruct Hst as [->|Hst]; [done|]. by eapply rtc_r.
Qed.

(** A session state represents at most one abstract state. *)
Lemma ctrl_abs_unique s a1 a2 : ctrl_abs s a1 -> ctrl_abs s a2 -> a1 = a2.
Proof.
  destruct a1 as [|p1 c1 conv1], a2 as [|p2 c2 conv2]; cbn;
    [done|intros [? _] [? _]; congruence|intros [? _] [? _]; congruence|].
  intros (Hp1 & Hc1 & _ & Hh1) (Hp2 & Hc2 & _ & Hh2).
  rewrite Hp1 in Hp2. injection Hp2 as Hp%(inj provider_id). subst p2.
  rewrite Hc1 in Hc2. injection Hc2 as <-.
  rewrite Hh1 in Hh2. by apply (inj (map (turn_message (provider_id p1)))) in Hh2 as ->.
Qed.
End Simulation.

(** ** Refinement *)

Section Refinement.
Context `{Vendor}.

(** C29: the script implements the controller of the specification: from
    every reachable session state that represents an abstract state,
    every interaction, whatever its inputs and whatever the vendor does,
    leads to a state that represents the same abstract state or one the
    abstract machine reaches in one step (a selection, or an [ask] with
    the specification's reply). *)
Theorem run_page_simulated inp s a :
  reachable s -> ctrl_abs s a ->
  exists a', (a' = a \/ ctrl_step a a') /\ ctrl_abs (pg_session (run_page inp s)) a'.
Proof. intros Hr. apply run_page_ctrl, reachable_session_wf, Hr. Qed.

(** C30: every sequence of interactions from a fresh browser session is
    matched by a run of the abstract controller from [UNCONFIGURED]: the
    session state it leaves represents a state the machine reaches, and
    no other abstract state. *)
Theorem trace_refines_controller inps :
  exists a, rtc ctrl_step Unconfigured a /\ ctrl_abs (run_pages inps empty_session) a /\
    forall a', ctrl_abs (run_pages inps empty_session) a' -> a' = a.
Proof.
  destruct (run_pages_ctrl inps empty_session Unconfigured) as (a & Hrtc & Habs); [by split|done|by split|].
  exists a. split_and!; [done|done|]. intros a' Ha'. by apply (ctrl_abs_unique (run_pages inps empty_session) a' a).
Qed.
End Refinement.

Lemma run_page_simulated_witness :
  @reachable (fixed_reply_vendor "Hi there") ex_reached /\
  ctrl_abs ex_reached (Ready OpenAI "sk-test" [TUser "Hello"; TAssistant (PyStr "Hi there")]) /\
  exists a', (a' = Ready OpenAI "sk-test" [TUser "Hello"; TAssistant (PyStr "Hi there")] \/
              @ctrl_step (fixed_reply_vendor "Hi there")
                (Ready OpenAI "sk-test" [TUser "Hello"; TAssistant (PyStr "Hi there")]) a') /\
    ctrl_abs (pg_session (@run_page (fixed_reply_vendor "Hi there")
                            (mk_input "Groq" "gq-key" true None) ex_reached)) a'.
Proof.
  assert (Habs : ctrl_abs ex_reached (Ready OpenAI "sk-test" [TUser "Hello"; TAssistant (PyStr "Hi there")])).
  { split; [vm_compute; reflexivity|]. split; [vm_compute; reflexivity|].
    split; [discriminate|vm_compute; reflexivity]. }
  split; [apply ex_reached_reachable|]. split; [exact Habs|].
  apply run_page_simulated; [apply ex_reached_reachable|exact Habs].
Defined.
